(** * generate_logs.py: synthetic Apache / firewall / Windows log generator

    A shallow embedding of [src/generate_logs.py] and the properties of its
    generation rules.

    The program is a sequence of draws from Python's [random] module, a read
    of the wall clock, string formatting and four file writes.  The embedding
    threads one explicit [World] through every call:

    - the pseudo-random source is a tape of raw entropy words; each call of
      [random.random], [random.randint] or [random.choice] consumes one word
      and maps it onto the range of the call, so that quantifying over tapes
      quantifies over every possible sequence of draws;
    - the clock is a tape of readings of [datetime.datetime.now()];
    - the file system is a map from file names to contents, and the standard
      output is the list of printed lines.

    Python exceptions are results of the monad ([Raise]); a generator is
    exception-free when it returns [Ok]. *)

From Stdlib Require Import ZArith QArith List String Ascii Bool Lia.
Import ListNotations.

Local Open Scope string_scope.
Local Open Scope Z_scope.

(** ** Exceptions, results and the world *)

Inductive exn : Type :=
| ValueError
| IndexError
| KeyError
| OverflowError.

Inductive result (A : Type) : Type :=
| Ok (a : A)
| Raise (e : exn).

Arguments Ok {A} a.
Arguments Raise {A} e.

(** [datetime.datetime]: the seven fields of a naive datetime. *)
Record datetime : Type := mkdatetime {
  year : Z;
  month : Z;
  day : Z;
  hour : Z;
  minute : Z;
  second : Z;
  microsecond : Z
}.

Record World : Type := mkWorld {
  rand_tape : nat -> N;          (* raw words of the random source *)
  rand_pos : nat;                (* words consumed so far *)
  clock_tape : nat -> datetime;  (* successive readings of now() *)
  clock_pos : nat;               (* readings taken so far *)
  files : string -> option string;
  stdout : list string
}.

(** ** The state-and-exception monad *)

Module PyMonad.

Definition M (A : Type) : Type := World -> result A * World.

Definition ret {A : Type} (a : A) : M A := fun w => (Ok a, w).

Definition raise {A : Type} (e : exn) : M A := fun w => (Raise e, w).

Definition bind {A B : Type} (c : M A) (k : A -> M B) : M B :=
  fun w =>
    match c w with
    | (Ok a, w') => k a w'
    | (Raise e, w') => (Raise e, w')
    end.

Definition lift {A : Type} (r : result A) : M A := fun w => (r, w).

End PyMonad.

Import PyMonad.

Declare Scope py_scope.
Delimit Scope py_scope with py.
Notation "x <- c ;; k" := (bind c (fun x => k))
  (at level 61, c at next level, right associativity) : py_scope.
Notation "c ;;; k" := (bind c (fun _ => k))
  (at level 61, right associativity) : py_scope.
Local Open Scope py_scope.

(** ** IEEE doubles that occur in the program

    Every finite double is a dyadic rational, and comparing two doubles is
    exact, so the doubles of the program are modelled by the rationals they
    denote.  [random.random()] returns [k / 2^53] for an integer
    [0 <= k < 2^53]; a decimal literal denotes the double nearest to it. *)

Definition float : Type := Q.

Definition TWO53 : positive := 9007199254740992.

Definition float_0_7 : float := 6305039478318694 # TWO53.
Definition float_0_6 : float := 5404319552844595 # TWO53.
Definition float_0_5 : float := 4503599627370496 # TWO53.
Definition float_0_15 : float := 5404319552844595 # 36028797018963968.

Definition float_lt (x y : float) : bool :=
  (Qnum x * Z.pos (Qden y) <? Qnum y * Z.pos (Qden x))%Z.

(** ** The [random] module *)

Definition next_word : M N :=
  fun w =>
    (Ok (rand_tape w (rand_pos w)),
     mkWorld (rand_tape w) (S (rand_pos w)) (clock_tape w) (clock_pos w)
             (files w) (stdout w)).

(** The double that [random.random()] makes of a raw word [k]:
    [(k mod 2^53) / 2^53]. *)
Definition unit_float (k : Z) : float := k mod Z.pos TWO53 # TWO53.

(** [random.random()]: a double in [[0, 1)]. *)
Definition random_random : M float :=
  k <- next_word ;;
  ret (unit_float (Z.of_N k)).

(** [random.randint(a, b)]: an integer in [[a, b]]; [ValueError] on an empty
    range. *)
Definition random_randint (a b : Z) : M Z :=
  if b <? a then raise ValueError
  else k <- next_word ;; ret (a + Z.of_N k mod (b - a + 1)).

(** [random.choice(seq)]: an element of [seq]; [IndexError] when it is
    empty. *)
Definition random_choice {A : Type} (seq : list A) : M A :=
  match seq with
  | [] => raise IndexError
  | x :: _ =>
      k <- next_word ;;
      ret (nth (Z.to_nat (Z.of_N k mod Z.of_nat (List.length seq))) seq x)
  end.

(** [datetime.datetime.now()]. *)
Definition datetime_now : M datetime :=
  fun w =>
    (Ok (clock_tape w (clock_pos w)),
     mkWorld (rand_tape w) (rand_pos w) (clock_tape w) (S (clock_pos w))
             (files w) (stdout w)).

(** ** The [datetime] module

    The calendar arithmetic of CPython's [datetime]: proleptic Gregorian
    ordinals ([date.toordinal]), the field checks of the constructor, and
    addition and subtraction through a count of microseconds. *)

Module Calendar.

Definition MINYEAR : Z := 1.
Definition MAXYEAR : Z := 9999.
Definition MAXORDINAL : Z := 3652059.

Definition DI400Y : Z := 146097.
Definition DI100Y : Z := 36524.
Definition DI4Y : Z := 1461.

Definition US_PER_SECOND : Z := 1000000.
Definition US_PER_DAY : Z := 86400000000.

Definition is_leap (y : Z) : bool :=
  (y mod 4 =? 0) && (negb (y mod 100 =? 0) || (y mod 400 =? 0)).

Definition days_before_year (y : Z) : Z :=
  let y1 := y - 1 in
  y1 * 365 + y1 / 4 - y1 / 100 + y1 / 400.

Definition DAYS_IN_MONTH : list Z :=
  [31; 28; 31; 30; 31; 30; 31; 31; 30; 31; 30; 31].

Definition DAYS_BEFORE_MONTH : list Z :=
  [0; 31; 59; 90; 120; 151; 181; 212; 243; 273; 304; 334].

(** Both tables are indexed by the month, from 1. *)
Definition month_entry (table : list Z) (m : Z) : Z :=
  nth (Z.to_nat (m - 1)) table 0.

Definition days_in_month (y m : Z) : Z :=
  if (m =? 2) && is_leap y then 29 else month_entry DAYS_IN_MONTH m.

Definition days_before_month (y m : Z) : Z :=
  month_entry DAYS_BEFORE_MONTH m
  + (if (2 <? m) && is_leap y then 1 else 0).

Definition ymd2ord (y m d : Z) : Z :=
  days_before_year y + days_before_month y m + d.

(** The tail of [_ord2ymd]: month and day of the [n]-th day (from 0) of a
    year, by an estimate of the month that is corrected when too large. *)
Definition month_day (n : Z) (leapyear : bool) : Z * Z :=
  let m := Z.shiftr (n + 50) 5 in
  let preceding :=
    month_entry DAYS_BEFORE_MONTH m
    + (if (2 <? m) && leapyear then 1 else 0) in
  if n <? preceding then
    let m' := m - 1 in
    let preceding' :=
      preceding
      - (month_entry DAYS_IN_MONTH m'
         + (if (m' =? 2) && leapyear then 1 else 0)) in
    (m', n - preceding' + 1)
  else (m, n - preceding + 1).

Definition ord2ymd (ordinal : Z) : Z * Z * Z :=
  let n := ordinal - 1 in
  let n400 := n / DI400Y in
  let n := n mod DI400Y in
  let n100 := n / DI100Y in
  let n := n mod DI100Y in
  let n4 := n / DI4Y in
  let n := n mod DI4Y in
  let n1 := n / 365 in
  let n := n mod 365 in
  let y := n400 * 400 + 1 + n100 * 100 + n4 * 4 + n1 in
  if (n1 =? 4) || (n100 =? 4) then (y - 1, 12, 31)
  else
    let leapyear := (n1 =? 3) && (negb (n4 =? 24) || (n100 =? 3)) in
    let '(m, d) := month_day n leapyear in
    (y, m, d).

Definition check_date_fields (y m d : Z) : bool :=
  (MINYEAR <=? y) && (y <=? MAXYEAR)
  && (1 <=? m) && (m <=? 12)
  && (1 <=? d) && (d <=? days_in_month y m).

Definition check_time_fields (h mi s us : Z) : bool :=
  (0 <=? h) && (h <=? 23)
  && (0 <=? mi) && (mi <=? 59)
  && (0 <=? s) && (s <=? 59)
  && (0 <=? us) && (us <=? 999999).

Definition valid_datetime (dt : datetime) : bool :=
  check_date_fields (year dt) (month dt) (day dt)
  && check_time_fields (hour dt) (minute dt) (second dt) (microsecond dt).

(** [datetime.datetime(year, month, day, hour, minute, second)]:
    [ValueError] on a field out of range. *)
Definition datetime_new (y m d h mi s : Z) : result datetime :=
  if check_date_fields y m d && check_time_fields h mi s 0
  then Ok (mkdatetime y m d h mi s 0)
  else Raise ValueError.

Definition toordinal (dt : datetime) : Z :=
  ymd2ord (year dt) (month dt) (day dt).

(** Microseconds into the day, and since the start of ordinal 0. *)
Definition time_us (dt : datetime) : Z :=
  ((hour dt * 60 + minute dt) * 60 + second dt) * US_PER_SECOND
  + microsecond dt.

Definition to_us (dt : datetime) : Z :=
  toordinal dt * US_PER_DAY + time_us dt.

(** A [timedelta] is its count of microseconds. *)
Definition timedelta : Type := Z.

Definition timedelta_days (days : Z) : timedelta := days * US_PER_DAY.

(** [datetime + timedelta]: [OverflowError] outside years 1..9999. *)
Definition datetime_add (dt : datetime) (td : timedelta) : result datetime :=
  let t := to_us dt + td in
  let days := t / US_PER_DAY in
  let rem := t mod US_PER_DAY in
  if (0 <? days) && (days <=? MAXORDINAL) then
    let '(y, m, d) := ord2ymd days in
    let secs := rem / US_PER_SECOND in
    Ok (mkdatetime y m d
          (secs / 3600) ((secs mod 3600) / 60) (secs mod 60)
          (rem mod US_PER_SECOND))
  else Raise OverflowError.

(** [datetime - timedelta]. *)
Definition datetime_sub_td (dt : datetime) (td : timedelta) : result datetime :=
  datetime_add dt (- td).

(** [datetime - datetime]. *)
Definition datetime_sub (a b : datetime) : timedelta := to_us a - to_us b.

(** [_divide_and_round]: the quotient rounded to the nearest integer, ties
    to even. *)
Definition divide_and_round (a : Z) (b : positive) : Z :=
  let q := a / Z.pos b in
  let r := 2 * (a mod Z.pos b) in
  if (Z.pos b <? r) || ((r =? Z.pos b) && (q mod 2 =? 1)) then q + 1 else q.

(** [timedelta * float], through the float's integer ratio; the rounded
    quotient depends on the value of the ratio only, not on its being in
    lowest terms. *)
Definition timedelta_mul (td : timedelta) (x : float) : timedelta :=
  divide_and_round (td * Qnum x) (Qden x).

(** [a < b] on naive datetimes: the field tuples compared
    lexicographically. *)
Fixpoint tuple_lt (xs ys : list Z) : bool :=
  match xs, ys with
  | x :: xs', y :: ys' => (x <? y) || ((x =? y) && tuple_lt xs' ys')
  | [], _ :: _ => true
  | _, [] => false
  end.

Definition fields (dt : datetime) : list Z :=
  [year dt; month dt; day dt; hour dt; minute dt; second dt; microsecond dt].

Definition datetime_lt (a b : datetime) : bool :=
  tuple_lt (fields a) (fields b).

End Calendar.

Import Calendar.

(** ** Strings

    A Python [str] is modelled by the bytes of its UTF-8 encoding, which is
    what [open(..., encoding="utf-8")] writes.  The separators the program
    splits and joins on are ASCII, so splitting the bytes splits the text. *)

Module Str.

(** The double quote, which the f-strings put around values. *)
Definition dq : string := String "034"%char EmptyString.

(** The line feed. *)
Definition nl : string := String "010"%char EmptyString.

Definition digit (d : Z) : ascii := ascii_of_nat (48 + Z.to_nat d).

Fixpoint str_digits (fuel : nat) (n : Z) (acc : string) : string :=
  match fuel with
  | O => acc
  | S fuel' =>
      let acc' := String (digit (n mod 10)) acc in
      if n / 10 =? 0 then acc' else str_digits fuel' (n / 10) acc'
  end.

(** [str(n)] on an integer: the decimal digits, most significant first. *)
Definition str (n : Z) : string :=
  if n <? 0 then "-" ++ str_digits (S (Z.to_nat (Z.log2 (- n)))) (- n) EmptyString
  else str_digits (S (Z.to_nat (Z.log2 n))) n EmptyString.

(** [%02d]: at least two digits, padded with zeros. *)
Definition pad2 (n : Z) : string :=
  if (0 <=? n) && (n <? 10) then "0" ++ str n else str n.

(** [s.split(sep)] for a non-empty [sep]: cut at every occurrence of [sep],
    scanning from the left; [skip] counts the bytes of a matched separator
    that remain to be passed over, [cur] is the piece being read. *)
Fixpoint split_from (sep : string) (s : string) (skip : nat) (cur : string)
  : list string :=
  match s with
  | EmptyString => [cur]
  | String c rest =>
      match skip with
      | S k => split_from sep rest k cur
      | O =>
          if prefix sep s
          then cur :: split_from sep rest (String.length sep - 1) EmptyString
          else split_from sep rest O (cur ++ String c EmptyString)
      end
  end.

Definition split (s sep : string) : list string := split_from sep s O EmptyString.

(** [sep.join(parts)]. *)
Definition join (sep : string) (parts : list string) : string :=
  String.concat sep parts.

(** [a, b = parts]: [ValueError] unless there are exactly two. *)
Definition unpack2 (parts : list string) : result (string * string) :=
  match parts with
  | [a; b] => Ok (a, b)
  | _ => Raise ValueError
  end.


End Str.

Import Str.

(** ** [datetime.strftime]

    The directives the program uses, in the C locale (the program never
    calls [setlocale]); [%Y] prints the year without padding, as glibc does.
    Any other byte of the format is copied. *)

Module Strftime.

Definition MONTH_ABBR : list string :=
  ["Jan"; "Feb"; "Mar"; "Apr"; "May"; "Jun";
   "Jul"; "Aug"; "Sep"; "Oct"; "Nov"; "Dec"].

(** Indexed by [weekday()], Monday first. *)
Definition DAY_ABBR : list string :=
  ["Mon"; "Tue"; "Wed"; "Thu"; "Fri"; "Sat"; "Sun"].

Definition weekday (dt : datetime) : Z := (toordinal dt + 6) mod 7.

Definition directive (dt : datetime) (c : ascii) : string :=
  match c with
  | "d"%char => pad2 (day dt)
  | "m"%char => pad2 (month dt)
  | "Y"%char => str (year dt)
  | "H"%char => pad2 (hour dt)
  | "M"%char => pad2 (minute dt)
  | "S"%char => pad2 (second dt)
  | "b"%char => nth (Z.to_nat (month dt - 1)) MONTH_ABBR EmptyString
  | "a"%char => nth (Z.to_nat (weekday dt)) DAY_ABBR EmptyString
  | "%"%char => "%"
  | _ => String "%" (String c EmptyString)
  end.

Fixpoint strftime (dt : datetime) (fmt : string) : string :=
  match fmt with
  | String "%" (String c rest) => directive dt c ++ strftime dt rest
  | String c rest => String c (strftime dt rest)
  | EmptyString => EmptyString
  end.

End Strftime.

Import Strftime.

(** ** The program: configuration constants *)

Definition NUM_ACCESS_LOGS : nat := 2000.
Definition NUM_ERROR_LOGS : nat := 300.
Definition NUM_FIREWALL_LOGS : nat := 300.
Definition NUM_WINDOWS_LOGS : nat := 300.

Definition DAYS_BACK : Z := 7.

Definition HIGH_FREQ_IPS : list string :=
  ["192.168.1.1"; "10.0.0.5"; "173.194.222.113"; "8.8.8.8"].

Definition CHANCE_HIGH_FREQ : float := float_0_6.

(** The seventh entry is spelled in the source with the four bytes
    C3 83 C2 A3 between [S] and [o]. *)
Definition GEOGRAPHIC_LOCATIONS : list string :=
  ["United States, New York";
   "Germany, Berlin";
   "France, Paris";
   "Italy, Rome";
   "Spain, Madrid";
   "Canada, Toronto";
   "Brazil, S"
     ++ String "195" (String "131" (String "194" (String "163" "o Paulo")));
   "India, Mumbai";
   "Australia, Sydney"].

Definition HTTP_METHODS : list string := ["GET"; "POST"; "PUT"; "DELETE"].

(** A dict, iterated in insertion order: status code and its percentage. *)
Definition HTTP_STATUS_CODES_DISTRIBUTION : list (Z * Z) :=
  [(200, 80); (404, 10); (500, 5)].

Definition OTHER_CODES : list Z := [302; 401; 403; 501].

Definition ERROR_SEVERITIES : list string :=
  ["INFO"; "WARNING"; "ERROR"; "CRITICAL"].

Definition WINDOWS_EVENT_IDS : list Z := [4624; 4625; 4634; 4672].

Definition FAKE_USERNAMES : list string :=
  ["administrator"; "jsmith"; "ptaylor"; "mnguyen";
   "v.rossi"; "d.brown"; "a.garcia"].

Definition INCIDENT_IP : string := "9.9.9.9".

(** The literal lists of the generators. *)
Definition ENDPOINTS : list string :=
  ["/api/v1/users"; "/api/v1/orders"; "/home"; "/about";
   "/static/css/styles.css"; "/static/js/app.js"; "/login"; "/logout"].

Definition ERROR_MESSAGES : list string :=
  ["File not found";
   "Permission denied";
   "Database connection failed";
   "Syntax error in configuration file";
   "Timeout while reading data";
   "Invalid request payload"].

Definition FIREWALL_ACTIONS : list string :=
  ["ALLOW"; "DROP"; "REJECT"; "ALERT"].

(** The dict literal of [generate_windows_log]. *)
Definition messages_map : list (Z * string) :=
  [(4624, "An account was successfully logged on");
   (4625, "An account failed to log on");
   (4634, "An account was logged off");
   (4672, "Special privileges assigned to new logon")].

(** [d[key]] on a dict written as a literal with distinct keys, as the keys
    of [messages_map] are: [KeyError] on a missing key. *)
Fixpoint dict_get {V : Type} (d : list (Z * V)) (key : Z) : result V :=
  match d with
  | [] => Raise KeyError
  | (k, v) :: d' => if k =? key then Ok v else dict_get d' key
  end.

(** ** The program: helper draws *)

Definition get_random_datetime : M datetime :=
  now <- datetime_now ;;
  start_date <- lift (datetime_sub_td now (timedelta_days DAYS_BACK)) ;;
  x <- random_random ;;
  random_date <-
    lift (datetime_add start_date
            (timedelta_mul (datetime_sub now start_date) x)) ;;
  p <- random_random ;;
  hour <-
    (if float_lt p float_0_7 then random_randint 8 19
     else
       q <- random_random ;;
       if float_lt q float_0_5 then random_randint 20 23
       else random_randint 0 7) ;;
  minute <- random_randint 0 59 ;;
  second <- random_randint 0 59 ;;
  lift (datetime_new (year random_date) (month random_date) (day random_date)
          hour minute second).

(** [[str(random.randint(1, 254)) for _ in range(n)]]. *)
Fixpoint random_octets (n : nat) : M (list string) :=
  match n with
  | O => ret []
  | S n' =>
      o <- random_randint 1 254 ;;
      os <- random_octets n' ;;
      ret (str o :: os)
  end.

Definition get_random_ip : M string :=
  p <- random_random ;;
  if float_lt p CHANCE_HIGH_FREQ then random_choice HIGH_FREQ_IPS
  else
    octets <- random_octets 4 ;;
    ret (join "." octets).

Definition get_random_location : M string :=
  random_choice GEOGRAPHIC_LOCATIONS.

(** [geo_country="{country}" geo_city="{city}"], the tail of every line. *)
Definition geo_tag (country city : string) : string :=
  "geo_country=" ++ dq ++ country ++ dq ++ " geo_city=" ++ dq ++ city ++ dq.

(** [country, city = location_str.split(", ")]. *)
Definition split_location (location_str : string) : M (string * string) :=
  lift (unpack2 (split location_str ", ")).

(** The incident draw of the access and Windows generators. *)
Definition incident_or_random_ip : M string :=
  p <- random_random ;;
  if float_lt p float_0_15 then ret INCIDENT_IP else get_random_ip.

(** ** The program: Apache access log *)

(** The [for code, perc in ...items()] loop: the first code whose cumulative
    percentage reaches [dice], or [None] when the loop ends without [break]. *)
Fixpoint status_loop (items : list (Z * Z)) (dice cumulative : Z) : option Z :=
  match items with
  | [] => None
  | (code, perc) :: rest =>
      let cumulative := cumulative + perc in
      if dice <=? cumulative then Some code
      else status_loop rest dice cumulative
  end.

(** The status code before the incident override. *)
Definition base_status_code : M Z :=
  dice <- random_randint 1 100 ;;
  match status_loop HTTP_STATUS_CODES_DISTRIBUTION dice 0 with
  | Some code => ret code
  | None => random_choice OTHER_CODES
  end.

(** [if ip_address == INCIDENT_IP: if random.random() < 0.5: ... = 404]. *)
Definition incident_override (ip_address : string) (status_code : Z) : M Z :=
  if String.eqb ip_address INCIDENT_IP then
    p <- random_random ;;
    if float_lt p float_0_5 then ret 404 else ret status_code
  else ret status_code.

Record access_fields : Type := mkaccess {
  access_ip : string;
  access_timestamp : string;
  access_method : string;
  access_endpoint : string;
  access_status : Z;
  access_size : Z;
  access_country : string;
  access_city : string
}.

Definition draw_access_fields : M access_fields :=
  dt <- get_random_datetime ;;
  let timestamp_str := strftime dt "%d/%b/%Y:%H:%M:%S +0000" in
  ip_address <- incident_or_random_ip ;;
  method <- random_choice HTTP_METHODS ;;
  endpoint <- random_choice ENDPOINTS ;;
  status_code <- base_status_code ;;
  status_code <- incident_override ip_address status_code ;;
  response_size <- random_randint 512 524288 ;;
  location_str <- get_random_location ;;
  loc <- split_location location_str ;;
  ret (mkaccess ip_address timestamp_str method endpoint status_code
         response_size (fst loc) (snd loc)).

Definition format_access (r : access_fields) : string :=
  access_ip r ++ " - - [" ++ access_timestamp r ++ "] "
  ++ dq ++ access_method r ++ " " ++ access_endpoint r ++ " HTTP/1.1" ++ dq
  ++ " " ++ str (access_status r) ++ " " ++ str (access_size r) ++ " "
  ++ geo_tag (access_country r) (access_city r).

Definition generate_apache_access_log : M string :=
  r <- draw_access_fields ;; ret (format_access r).

(** ** The program: Apache error log *)

Record error_fields : Type := mkerror {
  error_timestamp : string;
  error_severity : string;
  error_ip : string;
  error_msg : string;
  error_country : string;
  error_city : string
}.

Definition draw_error_fields : M error_fields :=
  dt <- get_random_datetime ;;
  let timestamp_str := strftime dt "%a %b %d %H:%M:%S %Y" in
  ip_address <- get_random_ip ;;
  severity <- random_choice ERROR_SEVERITIES ;;
  error_msg <- random_choice ERROR_MESSAGES ;;
  loc <- get_random_location ;;
  cc <- split_location loc ;;
  ret (mkerror timestamp_str severity ip_address error_msg (fst cc) (snd cc)).

Definition format_error (r : error_fields) : string :=
  "[" ++ error_timestamp r ++ "] [" ++ error_severity r ++ "] [client "
  ++ error_ip r ++ "] " ++ error_msg r ++ " "
  ++ geo_tag (error_country r) (error_city r).

Definition generate_apache_error_log : M string :=
  r <- draw_error_fields ;; ret (format_error r).

(** ** The program: firewall log *)

Record firewall_fields : Type := mkfirewall {
  firewall_timestamp : string;
  firewall_hostname : string;
  firewall_ip : string;
  firewall_action : string;
  firewall_country : string;
  firewall_city : string
}.

Definition draw_firewall_fields : M firewall_fields :=
  dt <- get_random_datetime ;;
  let timestamp_str := strftime dt "%b %d %H:%M:%S" in
  let hostname := "myfirewall" in
  ip_address <- get_random_ip ;;
  action <- random_choice FIREWALL_ACTIONS ;;
  loc <- get_random_location ;;
  cc <- split_location loc ;;
  ret (mkfirewall timestamp_str hostname ip_address action (fst cc) (snd cc)).

Definition format_firewall (r : firewall_fields) : string :=
  firewall_timestamp r ++ " " ++ firewall_hostname r
  ++ " CEF:0|FakeCompany|Firewall|1.0|100|Traffic|INFO| "
  ++ "src=" ++ firewall_ip r ++ " act=" ++ firewall_action r ++ " "
  ++ geo_tag (firewall_country r) (firewall_city r).

Definition generate_firewall_log : M string :=
  r <- draw_firewall_fields ;; ret (format_firewall r).

(** ** The program: Windows event log *)

Record windows_fields : Type := mkwindows {
  windows_timestamp : string;
  windows_hostname : string;
  windows_event_id : Z;
  windows_msg : string;
  windows_ip : string;
  windows_username : string;
  windows_country : string;
  windows_city : string
}.

Definition draw_windows_fields : M windows_fields :=
  dt <- get_random_datetime ;;
  let timestamp_str := strftime dt "%Y-%m-%d %H:%M:%S" in
  let hostname := "WINHOST" in
  event_id <- random_choice WINDOWS_EVENT_IDS ;;
  msg <- lift (dict_get messages_map event_id) ;;
  loc <- get_random_location ;;
  cc <- split_location loc ;;
  ip_address <- incident_or_random_ip ;;
  username <- random_choice FAKE_USERNAMES ;;
  ret (mkwindows timestamp_str hostname event_id msg ip_address username
         (fst cc) (snd cc)).

Definition format_windows (r : windows_fields) : string :=
  windows_timestamp r ++ " " ++ windows_hostname r ++ " Security "
  ++ "ID=" ++ str (windows_event_id r)
  ++ " MSG=" ++ dq ++ windows_msg r ++ dq ++ " "
  ++ "[client " ++ windows_ip r ++ "] username="
  ++ dq ++ windows_username r ++ dq ++ " "
  ++ geo_tag (windows_country r) (windows_city r).

Definition generate_windows_log : M string :=
  r <- draw_windows_fields ;; ret (format_windows r).

(** ** The program: the output writer *)

Definition set_file (name : string) (content : string) (w : World) : World :=
  mkWorld (rand_tape w) (rand_pos w) (clock_tape w) (clock_pos w)
    (fun n => if String.eqb n name then Some content else files w n)
    (stdout w).

(** [open(name, "w", encoding="utf-8")]: the file is created or truncated. *)
Definition open_w (name : string) : M unit :=
  fun w => (Ok tt, set_file name EmptyString w).

(** [f.write(s)] on the file opened under [name]. *)
Definition file_write (name : string) (s : string) : M unit :=
  fun w =>
    let old := match files w name with Some c => c | None => EmptyString end in
    (Ok tt, set_file name (old ++ s) w).

Definition print (s : string) : M unit :=
  fun w =>
    (Ok tt,
     mkWorld (rand_tape w) (rand_pos w) (clock_tape w) (clock_pos w)
       (files w) (stdout w ++ [s])%list).

(** [for _ in range(n): line = gen(); f.write(line + "\n")]. *)
Fixpoint write_lines (name : string) (gen : M string) (n : nat) : M unit :=
  match n with
  | O => ret tt
  | S n' =>
      line <- gen ;;
      file_write name (line ++ nl) ;;;
      write_lines name gen n'
  end.

(** [with open(name, "w", ...) as f: for _ in range(n): ...]. *)
Definition write_log_file (name : string) (gen : M string) (n : nat)
  : M unit :=
  open_w name ;;; write_lines name gen n.

(** [main], with the four configured counts as parameters. *)
Definition main_with (num_access num_error num_firewall num_windows : nat)
  : M unit :=
  write_log_file "apache_access.txt" generate_apache_access_log num_access ;;;
  write_log_file "apache_error.txt" generate_apache_error_log num_error ;;;
  write_log_file "firewall_logs.txt" generate_firewall_log num_firewall ;;;
  write_log_file "windows_logs.txt" generate_windows_log num_windows ;;;
  print "All logs have been successfully generated!" ;;;
  print "Created files:" ;;;
  print " - apache_access.txt" ;;;
  print " - apache_error.txt" ;;;
  print " - firewall_logs.txt" ;;;
  print " - windows_logs.txt".

Definition main : M unit :=
  main_with NUM_ACCESS_LOGS NUM_ERROR_LOGS NUM_FIREWALL_LOGS NUM_WINDOWS_LOGS.

(** ** Concrete worlds *)

(** A world whose random tape is the finite list [words] followed by zeros,
    whose clock always reads [now], and whose file system holds [fs]. *)
Definition world_of (words : list N) (now : datetime)
  (fs : string -> option string) : World :=
  mkWorld (fun i => nth i words 0%N) O (fun _ => now) O fs [].

Definition no_files : string -> option string := fun _ => None.

(** 2025-03-25 10:00:12, the instant of the examples in the docstrings. *)
Definition sample_now : datetime := mkdatetime 2025 3 25 10 0 12 0.

(** 2025-03-25 00:00:00. *)
Definition midnight : datetime := mkdatetime 2025 3 25 0 0 0 0.


(** * Notions used in the statements *)

(** The reading the next [now()] returns. *)
Definition now_of (w : World) : datetime := clock_tape w (clock_pos w).

(** The [i]-th raw word still to be consumed. *)
Definition word (w : World) (i : nat) : Z :=
  Z.of_N (rand_tape w (i + rand_pos w)).

(** The world after [n] more words were consumed and [c] more clock
    readings taken. *)
Definition advance (n c : nat) (w : World) : World :=
  mkWorld (rand_tape w) (n + rand_pos w) (clock_tape w) (c + clock_pos w)
    (files w) (stdout w).

(** The clock shows valid datetimes, late enough for the look-back window
    to start in year 1 or later. *)
Definition clock_ok (w : World) : Prop :=
  forall i, valid_datetime (clock_tape w i) = true
            /\ DAYS_BACK < toordinal (clock_tape w i).

(** Lines 128-129: the instant drawn in the look-back window, as a function
    of the clock reading and of the double of the date draw. *)
Definition drawn_date (now : datetime) (x : float) : result datetime :=
  match datetime_sub_td now (timedelta_days DAYS_BACK) with
  | Ok start_date =>
      datetime_add start_date (timedelta_mul (datetime_sub now start_date) x)
  | Raise e => Raise e
  end.

(** The hour one call of [get_random_datetime] draws, and the number of
    words read before the minute: the day branch reads words 1 and 2, the
    night branch words 1, 2 and 3. *)
Definition hour_of_draws (w : World) : Z * nat :=
  if float_lt (unit_float (word w 1)) float_0_7
  then (8 + word w 2 mod (19 - 8 + 1), 3%nat)
  else if float_lt (unit_float (word w 2)) float_0_5
       then (20 + word w 3 mod (23 - 20 + 1), 4%nat)
       else (0 + word w 3 mod (7 - 0 + 1), 4%nat).

(** [s] consists of exactly four dot-separated integers, each in
    [[lo, hi]]. *)
Definition dotted_quad (lo hi : Z) (s : string) : Prop :=
  exists a b c d,
    lo <= a <= hi /\ lo <= b <= hi /\ lo <= c <= hi /\ lo <= d <= hi
    /\ s = join "." [str a; str b; str c; str d].

(** The octet [random.randint(1, 254)] makes of the [i]-th word. *)
Definition octet (w : World) (i : nat) : Z := 1 + word w i mod (254 - 1 + 1).

(** No integer [a] is printed as the first field of [s]. *)
Definition no_octet_heads (s : string) (a : Z) : bool :=
  negb (prefix (str a ++ ".") s).

(** Only [n] is printed as the first field of [s]. *)
Definition only_octet_heads (n : Z) (s : string) (a : Z) : bool :=
  negb (prefix (str a ++ ".") s) || (a =? n).

(** The percentile [random.randint(1, 100)] makes of the next word. *)
Definition percentile (w : World) : Z := 1 + word w 0 mod (100 - 1 + 1).

(** [w'] differs from [w] only in how far the tapes were read. *)
Definition frame (w w' : World) : Prop :=
  rand_tape w' = rand_tape w /\ clock_tape w' = clock_tape w
  /\ files w' = files w /\ stdout w' = stdout w.

(** Under a sound clock [c] raises nothing, only reads the tapes, and its
    value satisfies [P]. *)
Definition returns {A : Type} (c : M A) (P : A -> Prop) : Prop :=
  forall w, clock_ok w ->
  exists a w', c w = (Ok a, w') /\ frame w w' /\ P a.

(** A location entry splits on [", "] into exactly a country and a city,
    which joined again give the entry. *)
Definition splits_in_two (loc country city : string) : Prop :=
  split loc ", " = [country; city] /\ country ++ ", " ++ city = loc.

(** The geo tag of a record is an entry of the location list. *)
Definition geo_of_list (country city : string) : Prop :=
  exists loc, In loc GEOGRAPHIC_LOCATIONS /\ splits_in_two loc country city.

(** [line] ends with the geo tag of [country] and [city], which is that of
    an entry of the location list. *)
Definition geo_tagged (line country city : string) : Prop :=
  (exists pre, line = pre ++ geo_tag country city)
  /\ geo_of_list country city.


(** The text of a file that holds [lines], each followed by a line feed. *)
Fixpoint lines_text (lines : list string) : string :=
  match lines with
  | [] => EmptyString
  | line :: rest => (line ++ nl) ++ lines_text rest
  end.

(** [line] is the value of some run of [gen]. *)
Definition generated_by (gen : M string) (line : string) : Prop :=
  exists w w', gen w = (Ok line, w').

(** [s] holds no line feed. *)
Fixpoint no_newline (s : string) : bool :=
  match s with
  | EmptyString => true
  | String c rest => negb (Ascii.eqb c "010"%char) && no_newline rest
  end.

(** The number of line feeds in [s]. *)
Fixpoint count_newlines (s : string) : nat :=
  match s with
  | EmptyString => O
  | String c rest =>
      if Ascii.eqb c "010"%char then S (count_newlines rest)
      else count_newlines rest
  end.

Definition digit_no_newline (d : Z) : bool :=
  negb (Ascii.eqb (digit d) "010"%char).

(** What the writer puts on a line: the value of some run of [gen], free of
    line feeds. *)
Definition written_line (gen : M string) (line : string) : Prop :=
  generated_by gen line /\ no_newline line = true.

(** What the writer leaves in the file [name]: [n] lines of [gen], each
    followed by a line feed, and nothing else. *)
Definition holds_lines (w : World) (name : string) (gen : M string) (n : nat)
  : Prop :=
  exists lines,
    List.length lines = n
    /\ Forall (written_line gen) lines
    /\ files w name = Some (lines_text lines)
    /\ count_newlines (lines_text lines) = n.

(** ** Notions for the further properties *)

(** [w'] is [w] after [k] more clock readings and some more words; nothing
    else differs. *)
Definition reads (k : nat) (w w' : World) : Prop :=
  frame w w'
  /\ clock_pos w' = (k + clock_pos w)%nat
  /\ (rand_pos w <= rand_pos w')%nat.

(** Whenever [c] returns a value, the value satisfies [P] and the run took
    [k] clock readings and touched neither the files nor the output. *)
Definition yields {A : Type} (c : M A) (k : nat) (P : A -> Prop) : Prop :=
  forall w a w', c w = (Ok a, w') -> P a /\ reads k w w'.

(** The status codes an access line can carry. *)
Definition ACCESS_STATUS_CODES : list Z := [200; 404; 500] ++ OTHER_CODES.

(** A timestamp string: a valid datetime on a whole second, printed with
    [fmt]. *)
Definition timestamp_of (fmt text : string) : Prop :=
  exists dt,
    valid_datetime dt = true /\ microsecond dt = 0 /\ text = strftime dt fmt.

(** What every access record holds. *)
Definition access_domain (r : access_fields) : Prop :=
  dotted_quad 0 254 (access_ip r)
  /\ timestamp_of "%d/%b/%Y:%H:%M:%S +0000" (access_timestamp r)
  /\ In (access_method r) HTTP_METHODS
  /\ In (access_endpoint r) ENDPOINTS
  /\ In (access_status r) ACCESS_STATUS_CODES
  /\ 512 <= access_size r <= 524288
  /\ In (access_country r ++ ", " ++ access_city r) GEOGRAPHIC_LOCATIONS.

(** What every error record holds. *)
Definition error_domain (r : error_fields) : Prop :=
  timestamp_of "%a %b %d %H:%M:%S %Y" (error_timestamp r)
  /\ In (error_severity r) ERROR_SEVERITIES
  /\ dotted_quad 0 254 (error_ip r)
  /\ In (error_msg r) ERROR_MESSAGES
  /\ In (error_country r ++ ", " ++ error_city r) GEOGRAPHIC_LOCATIONS.

(** What every firewall record holds. *)
Definition firewall_domain (r : firewall_fields) : Prop :=
  timestamp_of "%b %d %H:%M:%S" (firewall_timestamp r)
  /\ firewall_hostname r = "myfirewall"
  /\ dotted_quad 0 254 (firewall_ip r)
  /\ In (firewall_action r) FIREWALL_ACTIONS
  /\ In (firewall_country r ++ ", " ++ firewall_city r) GEOGRAPHIC_LOCATIONS.

(** What every Windows record holds. *)
Definition windows_domain (r : windows_fields) : Prop :=
  timestamp_of "%Y-%m-%d %H:%M:%S" (windows_timestamp r)
  /\ windows_hostname r = "WINHOST"
  /\ In (windows_event_id r, windows_msg r) messages_map
  /\ dotted_quad 0 254 (windows_ip r)
  /\ In (windows_username r) FAKE_USERNAMES
  /\ In (windows_country r ++ ", " ++ windows_city r) GEOGRAPHIC_LOCATIONS.

(** The offset of the drawn instant from the start of the window:
    [(now - start_date) * random.random()] for the raw word [k]. *)
Definition date_offset (k : Z) : timedelta :=
  divide_and_round (timedelta_days DAYS_BACK * (k mod Z.pos TWO53)) TWO53.

(** The sum of the percentages of a distribution table. *)
Definition total_percent (items : list (Z * Z)) : Z :=
  fold_right Z.add 0 (map snd items).

(** [s] holds no comma. *)
Fixpoint no_comma (s : string) : bool :=
  match s with
  | EmptyString => true
  | String c rest => negb (Ascii.eqb c ","%char) && no_comma rest
  end.

(** The index of the word that follows the draws of the timestamp. *)
Definition after_timestamp (w : World) : nat := S (S (snd (hour_of_draws w))).

(** The six lines [main] prints. *)
Definition MAIN_OUTPUT : list string :=
  ["All logs have been successfully generated!";
   "Created files:";
   " - apache_access.txt";
   " - apache_error.txt";
   " - firewall_logs.txt";
   " - windows_logs.txt"].

(** The four files [main] writes. *)
Definition OUTPUT_FILES : list string :=
  ["apache_access.txt"; "apache_error.txt"; "firewall_logs.txt";
   "windows_logs.txt"].

(** [w'] is [w] after [k] more clock readings, some more words and writes
    to the file [name] only. *)
Definition wrote (name : string) (k : nat) (w w' : World) : Prop :=
  rand_tape w' = rand_tape w
  /\ clock_tape w' = clock_tape w
  /\ clock_pos w' = (k + clock_pos w)%nat
  /\ stdout w' = stdout w
  /\ (forall other, String.eqb other name = false ->
                    files w' other = files w other).

(** Checks, by evaluation, of the widths of the printed fields. *)
Definition year_width_ok (n : Z) : bool :=
  Nat.eqb (String.length (str n)) 4.

Definition pad2_width_ok (n : Z) : bool :=
  Nat.eqb (String.length (pad2 n)) 2.

Definition month_width_ok (m : Z) : bool :=
  Nat.eqb (String.length (nth (Z.to_nat (m - 1)) MONTH_ABBR EmptyString)) 3
  && (days_in_month 2000 m <=? 31) && (days_in_month 2001 m <=? 31).

Definition weekday_width_ok (d : Z) : bool :=
  Nat.eqb (String.length (nth (Z.to_nat d) DAY_ABBR EmptyString)) 3.

(** Checking a predicate on an interval by evaluation. *)
Fixpoint check_range (f : Z -> bool) (lo : Z) (len : positive) : bool :=
  match len with
  | xH => f lo
  | xO p => check_range f lo p && check_range f (lo + Z.pos p) p
  | xI p =>
      f lo && check_range f (lo + 1) p && check_range f (lo + 1 + Z.pos p) p
  end.

(** The calendar tables, with the leap flag as [days_in_month] and
    [days_before_month] use it. *)
Module CalendarAux.

Definition dim_flag (m : Z) (leap : bool) : Z :=
  if (m =? 2) && leap then 29 else month_entry DAYS_IN_MONTH m.

Definition dbm_flag (m : Z) (leap : bool) : Z :=
  month_entry DAYS_BEFORE_MONTH m + (if (2 <? m) && leap then 1 else 0).

Definition month_day_ok (leap : bool) (n : Z) : bool :=
  let '(m, d) := month_day n leap in
  (1 <=? m) && (m <=? 12) && (1 <=? d) && (d <=? dim_flag m leap)
  && (dbm_flag m leap + d =? n + 1).

(** A month lies within its year. *)
Definition month_span_ok (leap : bool) (m : Z) : bool :=
  (0 <=? dbm_flag m leap)
  && (dbm_flag m leap + dim_flag m leap <=? 365 + (if leap then 1 else 0)).

End CalendarAux.

Import CalendarAux.

(** ** Notions for the runs word by word *)

(** The world in which the draws that follow the timestamp start: the
    words of the timestamp are consumed and the clock is read once. *)
Definition after_timestamp_world (w : World) : World :=
  advance (after_timestamp w) 1 w.

(** The address the incident draw of the access and Windows generators
    makes of the words of [v] from the [i]-th on: the incident address when
    the first double is below 0.15, otherwise the address of
    [get_random_ip]. *)
Definition incident_address (v : World) (i : nat) : string :=
  if float_lt (unit_float (word v i)) float_0_15 then INCIDENT_IP
  else if float_lt (unit_float (word v (1 + i))) CHANCE_HIGH_FREQ
       then nth (Z.to_nat (word v (2 + i) mod 4)) HIGH_FREQ_IPS "192.168.1.1"
       else join "." [str (octet v (2 + i)); str (octet v (3 + i));
                      str (octet v (4 + i)); str (octet v (5 + i))].

(** The number of words that draw reads: 1, 3 or 6. *)
Definition incident_address_words (v : World) (i : nat) : nat :=
  if float_lt (unit_float (word v i)) float_0_15 then 1
  else if float_lt (unit_float (word v (1 + i))) CHANCE_HIGH_FREQ then 3
       else 6.

(** In the access generator, counted from the world [v] after the
    timestamp: the address takes the first words, the method and the
    endpoint one each, then comes the percentile. *)
Definition access_dice_position (v : World) : nat :=
  (incident_address_words v 0 + 2)%nat.

Definition access_dice (v : World) : Z :=
  1 + word v (access_dice_position v) mod 100.

(** The result of the status loop on that percentile. *)
Definition access_loop (v : World) : option Z :=
  status_loop HTTP_STATUS_CODES_DISTRIBUTION (access_dice v) 0.

(** The status before the override: the code of the loop, or the entry of
    [OTHER_CODES] that the next word indexes. *)
Definition access_base_status (v : World) : Z :=
  match access_loop v with
  | Some code => code
  | None =>
      nth (Z.to_nat (word v (1 + access_dice_position v) mod 4))
        OTHER_CODES 302
  end.

(** The position of the word that follows the status draws: the override
    draw when the address is the incident address, the size draw
    otherwise. *)
Definition access_override_position (v : World) : nat :=
  match access_loop v with
  | Some _ => (1 + access_dice_position v)%nat
  | None => (2 + access_dice_position v)%nat
  end.

(** ** Notions for the extraction of the geo tag *)

(** [s] does not hold the byte [c]. *)
Fixpoint lacks (c : ascii) (s : string) : bool :=
  match s with
  | EmptyString => true
  | String x rest => negb (Ascii.eqb x c) && lacks c rest
  end.

(** The byte [c] is no digit. *)
Definition digit_differs (c : ascii) (d : Z) : bool :=
  negb (Ascii.eqb (digit d) c).

(** The byte [c] occurs in nothing [str] and [strftime] print of their
    own. *)
Definition unprinted (c : ascii) : bool :=
  check_range (digit_differs c) 0 10
  && lacks c "-" && lacks c "%"
  && forallb (lacks c) MONTH_ABBR && forallb (lacks c) DAY_ABBR.

(** [s] without its first [n] bytes. *)
Fixpoint drop (n : nat) (s : string) : string :=
  match n, s with
  | S n', String _ rest => drop n' rest
  | _, _ => s
  end.

(** What follows the first occurrence of [marker] in [s]. *)
Fixpoint find_after (marker s : string) : option string :=
  if prefix marker s then Some (drop (String.length marker) s)
  else match s with
       | EmptyString => None
       | String _ rest => find_after marker rest
       end.

(** The bytes of the underscore and of the double quote. *)
Definition UNDERSCORE : ascii := "_"%char.
Definition QUOTE : ascii := "034"%char.

(** The text up to the first double quote of [s], and what follows that
    quote. *)
Fixpoint take_until_quote (s : string) : option (string * string) :=
  match s with
  | EmptyString => None
  | String x rest =>
      if Ascii.eqb x QUOTE then Some (EmptyString, rest)
      else match take_until_quote rest with
           | Some (taken, remaining) => Some (String x taken, remaining)
           | None => None
           end
  end.

(** The keys of the geo tag, each with its opening quote. *)
Definition GEO_COUNTRY_KEY : string := "geo_country=" ++ dq.
Definition GEO_CITY_KEY : string := " geo_city=" ++ dq.

(** Extraction of the geo tag from a line: the first country key opens the
    country, which runs to the next quote; the city key must follow and
    opens the city, which runs to the next quote, where the line must
    end. *)
Definition extract_geo (line : string) : option (string * string) :=
  match find_after GEO_COUNTRY_KEY line with
  | None => None
  | Some rest =>
      match take_until_quote rest with
      | None => None
      | Some (country, rest') =>
          if prefix GEO_CITY_KEY rest' then
            match take_until_quote (drop (String.length GEO_CITY_KEY) rest')
            with
            | Some (city, EmptyString) => Some (country, city)
            | _ => None
            end
          else None
      end
  end.

(** The round trip of the geo tag of a line: the line ends with the text
    [geo_country="X" geo_city="Y"], extraction gives back [X] and [Y],
    ["X, Y"] is one entry, and only one, of the location list, and that entry
    splits on [", "] into [X] and [Y]. *)
Definition geo_round_trip (line : string) : Prop :=
  exists pre X Y,
    line = pre ++ "geo_country=" ++ dq ++ X ++ dq
               ++ " geo_city=" ++ dq ++ Y ++ dq
    /\ extract_geo line = Some (X, Y)
    /\ count_occ string_dec GEOGRAPHIC_LOCATIONS (X ++ ", " ++ Y) = 1%nat
    /\ split (X ++ ", " ++ Y) ", " = [X; Y].

(** An entry of the location list, split and rendered as a geo tag, is read
    back by extraction. *)
Definition location_round_trip (loc : string) : Prop :=
  exists country city,
    splits_in_two loc country city
    /\ extract_geo ("geo_country=" ++ dq ++ country ++ dq
                    ++ " geo_city=" ++ dq ++ city ++ dq)
       = Some (country, city).

(** * Properties *)

(** ** Checking a predicate on an interval by evaluation *)

Lemma check_range_spec (f : Z -> bool) (len : positive) :
  forall lo, check_range f lo len = true ->
  forall x, lo <= x < lo + Z.pos len -> f x = true.
Proof.
  induction len as [p IH | p IH |]; simpl; intros lo Hc x Hx.
  - apply andb_prop in Hc. destruct Hc as [Hc H2].
    apply andb_prop in Hc. destruct Hc as [H0 H1].
    destruct (Z.eq_dec x lo) as [-> | Hne]; [assumption |].
    destruct (Z_lt_le_dec x (lo + 1 + Z.pos p)).
    + apply (IH (lo + 1)); [assumption | lia].
    + apply (IH (lo + 1 + Z.pos p)); [assumption | lia].
  - apply andb_prop in Hc. destruct Hc as [H0 H1].
    destruct (Z_lt_le_dec x (lo + Z.pos p)).
    + apply (IH lo); [assumption | lia].
    + apply (IH (lo + Z.pos p)); [assumption | lia].
  - assert (x = lo) by lia. subst. assumption.
Qed.

(** ** The calendar *)

Module CalendarFacts.

Lemma month_day_spec (leap : bool) (n : Z) :
  0 <= n < 365 ->
  let '(m, d) := month_day n leap in
  1 <= m <= 12 /\ 1 <= d <= dim_flag m leap /\ dbm_flag m leap + d = n + 1.
Proof.
  intros Hn.
  assert (H : month_day_ok leap n = true).
  { apply (check_range_spec (month_day_ok leap) 365 0); [| lia].
    destruct leap; vm_compute; reflexivity. }
  unfold month_day_ok in H. destruct (month_day n leap) as [m d].
  repeat (apply andb_prop in H; destruct H as [H ?]).
  lia.
Qed.

Lemma days_before_year_decomp (a b c e : Z) :
  0 <= b <= 3 -> 0 <= c <= 24 -> 0 <= e <= 3 ->
  days_before_year (400 * a + 100 * b + 4 * c + e + 1)
  = 146097 * a + 36524 * b + 1461 * c + 365 * e.
Proof.
  intros Hb Hc He. unfold days_before_year.
  (Z.to_euclidean_division_equations; lia).
Qed.

Lemma is_leap_decomp (a b c e : Z) :
  0 <= b <= 3 -> 0 <= c <= 24 -> 0 <= e <= 3 ->
  is_leap (400 * a + 100 * b + 4 * c + e + 1)
  = (e =? 3) && (negb (c =? 24) || (b =? 3)).
Proof.
  intros Hb Hc He. unfold is_leap.
  destruct (Z.eqb_spec e 3) as [He3 | He3];
  destruct (Z.eqb_spec c 24) as [Hc24 | Hc24];
  destruct (Z.eqb_spec b 3) as [Hb3 | Hb3];
  destruct (Z.eqb_spec ((400 * a + 100 * b + 4 * c + e + 1) mod 4) 0) as [H4 | H4];
  destruct (Z.eqb_spec ((400 * a + 100 * b + 4 * c + e + 1) mod 100) 0) as [H100 | H100];
  destruct (Z.eqb_spec ((400 * a + 100 * b + 4 * c + e + 1) mod 400) 0) as [H400 | H400];
  simpl; try reflexivity; exfalso;
  Z.to_euclidean_division_equations; lia.
Qed.

Lemma days_in_month_flag y m : days_in_month y m = dim_flag m (is_leap y).
Proof. reflexivity. Qed.

Lemma days_before_month_flag y m :
  days_before_month y m = dbm_flag m (is_leap y).
Proof. reflexivity. Qed.

(** The digits of [n - 1] in the mixed base 400 years / 100 years / 4 years /
    1 year / day, as [ord2ymd] computes them. *)
Lemma ord_digits (n : Z) :
  let n0 := n - 1 in
  let a := n0 / DI400Y in
  let b := (n0 mod DI400Y) / DI100Y in
  let c := ((n0 mod DI400Y) mod DI100Y) / DI4Y in
  let e := (((n0 mod DI400Y) mod DI100Y) mod DI4Y) / 365 in
  let r := (((n0 mod DI400Y) mod DI100Y) mod DI4Y) mod 365 in
  n - 1 = 146097 * a + 36524 * b + 1461 * c + 365 * e + r
  /\ 0 <= b <= 4 /\ 0 <= c <= 24 /\ 0 <= e <= 4 /\ 0 <= r < 365
  /\ (b = 4 -> c = 0 /\ e = 0 /\ r = 0)
  /\ (e = 4 -> r = 0 /\ c <= 23 \/ b = 4).
Proof.
  unfold DI400Y, DI100Y, DI4Y. cbv zeta.
  (Z.to_euclidean_division_equations; lia).
Qed.

Lemma ord2ymd_spec (n : Z) :
  let '(y, m, d) := ord2ymd n in
  1 <= m <= 12 /\ 1 <= d <= days_in_month y m /\ ymd2ord y m d = n
  /\ (1 <= n <= MAXORDINAL -> MINYEAR <= y <= MAXYEAR).
Proof.
  pose proof (ord_digits n) as HD. cbv zeta in HD. unfold ord2ymd.
  set (a := (n - 1) / DI400Y) in *.
  set (b := ((n - 1) mod DI400Y) / DI100Y) in *.
  set (c := (((n - 1) mod DI400Y) mod DI100Y) / DI4Y) in *.
  set (e := ((((n - 1) mod DI400Y) mod DI100Y) mod DI4Y) / 365) in *.
  set (r := ((((n - 1) mod DI400Y) mod DI100Y) mod DI4Y) mod 365) in *.
  destruct HD as (Hn & Hb & Hc & He & Hr & Hb4 & He4).
  unfold MAXORDINAL, MINYEAR, MAXYEAR.
  (destruct (Z.eqb_spec e 4) as [E4 | E4]; [| destruct (Z.eqb_spec b 4) as [B4 | B4]];
    cbn [orb]).
  - (* the last day of a leap year that ends a four-year cycle *)
    destruct (Z.eq_dec b 4) as [B4 | B4]; [lia |].
    assert (Hr0 : r = 0 /\ c <= 23) by lia.
    (replace (a * 400 + 1 + b * 100 + c * 4 + e - 1)
      with (400 * a + 100 * b + 4 * c + 3 + 1) by lia).
    rewrite days_in_month_flag. unfold ymd2ord.
    (rewrite days_before_month_flag, is_leap_decomp, days_before_year_decomp
      by lia).
    (replace (c =? 24) with false by (symmetry; apply Z.eqb_neq; lia)).
    replace ((3 =? 3) && (negb false || (b =? 3))) with true by reflexivity. change (dim_flag 12 true) with 31. change (dbm_flag 12 true) with 335. lia.
  - (* the last day of a 400-year cycle *)
    assert (Hz : c = 0 /\ e = 0 /\ r = 0) by auto.
    (replace (a * 400 + 1 + b * 100 + c * 4 + e - 1)
      with (400 * a + 100 * 3 + 4 * 24 + 3 + 1) by lia).
    rewrite days_in_month_flag. unfold ymd2ord.
    (rewrite days_before_month_flag, is_leap_decomp, days_before_year_decomp
      by lia).
    replace ((3 =? 3) && (negb (24 =? 24) || (3 =? 3))) with true by reflexivity. change (dim_flag 12 true) with 31. change (dbm_flag 12 true) with 335. lia.
  - pose proof (month_day_spec ((e =? 3) && (negb (c =? 24) || (b =? 3))) r Hr)
      as HM.
    (destruct (month_day r ((e =? 3) && (negb (c =? 24) || (b =? 3))))
      as [m d]).
    (replace (a * 400 + 1 + b * 100 + c * 4 + e)
      with (400 * a + 100 * b + 4 * c + e + 1) by lia).
    rewrite days_in_month_flag. unfold ymd2ord.
    (rewrite days_before_month_flag, is_leap_decomp, days_before_year_decomp
      by lia).
    lia.
Qed.

Lemma check_date_fields_iff (y m d : Z) :
  check_date_fields y m d = true <->
  MINYEAR <= y <= MAXYEAR /\ 1 <= m <= 12 /\ 1 <= d <= days_in_month y m.
Proof.
  unfold check_date_fields. rewrite !andb_true_iff, !Z.leb_le. tauto.
Qed.

Lemma check_time_fields_iff (h mi s us : Z) :
  check_time_fields h mi s us = true <->
  0 <= h <= 23 /\ 0 <= mi <= 59 /\ 0 <= s <= 59 /\ 0 <= us <= 999999.
Proof.
  unfold check_time_fields. rewrite !andb_true_iff, !Z.leb_le. tauto.
Qed.

Lemma valid_datetime_iff (dt : datetime) :
  valid_datetime dt = true <->
  check_date_fields (year dt) (month dt) (day dt) = true
  /\ 0 <= hour dt <= 23 /\ 0 <= minute dt <= 59 /\ 0 <= second dt <= 59
  /\ 0 <= microsecond dt <= 999999.
Proof.
  unfold valid_datetime. rewrite andb_true_iff, check_time_fields_iff. tauto.
Qed.

(** A year has 365 days, or 366 when it is leap. *)
Lemma days_before_year_succ (y : Z) :
  days_before_year (y + 1)
  = days_before_year y + 365 + (if is_leap y then 1 else 0).
Proof.
  unfold days_before_year, is_leap.
  destruct (Z.eqb_spec (y mod 4) 0); destruct (Z.eqb_spec (y mod 100) 0);
    destruct (Z.eqb_spec (y mod 400) 0); simpl;
    Z.to_euclidean_division_equations; lia.
Qed.

Lemma days_before_year_mono (y y' : Z) :
  y <= y' -> days_before_year y <= days_before_year y'.
Proof.
  unfold days_before_year. intros H.
  Z.to_euclidean_division_equations. lia.
Qed.

(** Within a year, a valid month and day count at most to the year's
    length. *)
Lemma day_of_year_bound (m d : Z) (leap : bool) :
  1 <= m <= 12 -> 1 <= d <= dim_flag m leap ->
  1 <= dbm_flag m leap + d <= 365 + (if leap then 1 else 0).
Proof.
  intros Hm Hd.
  assert (H : month_span_ok leap m = true).
  { apply (check_range_spec (month_span_ok leap) 12 1); [| lia].
    destruct leap; vm_compute; reflexivity. }
  unfold month_span_ok in H. apply andb_prop in H. destruct H as [H1 H2].
  apply Z.leb_le in H1, H2. lia.
Qed.

Lemma ymd2ord_bounds (y m d : Z) :
  check_date_fields y m d = true -> 1 <= ymd2ord y m d <= MAXORDINAL.
Proof.
  rewrite check_date_fields_iff. unfold MINYEAR, MAXYEAR, MAXORDINAL.
  intros (Hy & Hm & Hd).
  rewrite days_in_month_flag in Hd.
  pose proof (day_of_year_bound m d (is_leap y) Hm Hd) as Hdoy.
  pose proof (days_before_year_succ y) as Hs.
  pose proof (days_before_year_mono 1 y ltac:(lia)) as H1.
  pose proof (days_before_year_mono (y + 1) 10000 ltac:(lia)) as H2.
  change (days_before_year 1) with 0 in H1.
  change (days_before_year 10000) with 3652059 in H2.
  unfold ymd2ord. rewrite days_before_month_flag.
  destruct (is_leap y); lia.
Qed.

(** Splitting a count of microseconds within a day into the clock fields,
    as [datetime.__add__] does, and putting it together again. *)
Lemma time_fields_roundtrip (rem : Z) :
  0 <= rem < US_PER_DAY ->
  let secs := rem / US_PER_SECOND in
  check_time_fields (secs / 3600) ((secs mod 3600) / 60) (secs mod 60)
    (rem mod US_PER_SECOND) = true
  /\ ((secs / 3600 * 60 + (secs mod 3600) / 60) * 60 + secs mod 60)
       * US_PER_SECOND + rem mod US_PER_SECOND = rem.
Proof.
  unfold US_PER_DAY, US_PER_SECOND. intros H. cbv zeta.
  rewrite check_time_fields_iff.
  Z.to_euclidean_division_equations. lia.
Qed.

Lemma time_us_bounds (dt : datetime) :
  valid_datetime dt = true -> 0 <= time_us dt < US_PER_DAY.
Proof.
  rewrite valid_datetime_iff. unfold time_us, US_PER_DAY, US_PER_SECOND.
  intros (_ & Hh & Hm & Hs & Hu). lia.
Qed.

Lemma toordinal_bounds (dt : datetime) :
  valid_datetime dt = true -> 1 <= toordinal dt <= MAXORDINAL.
Proof.
  rewrite valid_datetime_iff. intros (Hd & _). now apply ymd2ord_bounds.
Qed.

(** [datetime + timedelta] is addition on the count of microseconds, and
    succeeds whenever the resulting day is a day of the years 1..9999. *)
Lemma datetime_add_spec (dt : datetime) (td : timedelta) :
  let t := to_us dt + td in
  1 <= t / US_PER_DAY <= MAXORDINAL ->
  exists r,
    datetime_add dt td = Ok r
    /\ valid_datetime r = true
    /\ toordinal r = t / US_PER_DAY
    /\ time_us r = t mod US_PER_DAY
    /\ to_us r = t.
Proof.
  intros t Hdays. unfold datetime_add. fold t.
  replace ((0 <? t / US_PER_DAY) && (t / US_PER_DAY <=? MAXORDINAL))
    with true by (symmetry; apply andb_true_iff; split;
                  [apply Z.ltb_lt | apply Z.leb_le]; lia).
  pose proof (ord2ymd_spec (t / US_PER_DAY)) as HO.
  destruct (ord2ymd (t / US_PER_DAY)) as [[y m] d].
  destruct HO as (Hm & Hd & Hord & Hy). specialize (Hy Hdays).
  assert (Hrem : 0 <= t mod US_PER_DAY < US_PER_DAY)
    by (apply Z.mod_pos_bound; reflexivity).
  destruct (time_fields_roundtrip _ Hrem) as [Hchk Hsum].
  eexists. split; [reflexivity |].
  assert (Hord' : toordinal (mkdatetime y m d
            (t mod US_PER_DAY / US_PER_SECOND / 3600)
            ((t mod US_PER_DAY / US_PER_SECOND) mod 3600 / 60)
            ((t mod US_PER_DAY / US_PER_SECOND) mod 60)
            ((t mod US_PER_DAY) mod US_PER_SECOND)) = t / US_PER_DAY)
    by exact Hord.
  assert (Htime : time_us (mkdatetime y m d
            (t mod US_PER_DAY / US_PER_SECOND / 3600)
            ((t mod US_PER_DAY / US_PER_SECOND) mod 3600 / 60)
            ((t mod US_PER_DAY / US_PER_SECOND) mod 60)
            ((t mod US_PER_DAY) mod US_PER_SECOND)) = t mod US_PER_DAY)
    by exact Hsum.
  repeat split.
  - unfold valid_datetime. cbn [year month day hour minute second microsecond].
    rewrite Hchk, andb_true_r. apply check_date_fields_iff. tauto.
  - exact Hord'.
  - exact Htime.
  - unfold to_us. rewrite Hord', Htime.
    pose proof (Z.div_mod t US_PER_DAY ltac:(discriminate)). lia.
Qed.

Lemma divide_and_round_bounds (a c : Z) (b : positive) :
  0 <= a <= c * Z.pos b -> 0 <= divide_and_round a b <= c.
Proof.
  intros Ha. unfold divide_and_round.
  pose proof (Z.div_mod a (Z.pos b) ltac:(discriminate)) as Hdm.
  pose proof (Z.mod_pos_bound a (Z.pos b) ltac:(reflexivity)) as Hr.
  set (q := a / Z.pos b) in *. set (r := a mod Z.pos b) in *.
  assert (Hq0 : 0 <= q) by (apply Z.div_pos; lia).
  assert (Hqc : q <= c) by (apply Z.div_le_upper_bound; lia).
  destruct ((Z.pos b <? 2 * r) || ((2 * r =? Z.pos b) && (q mod 2 =? 1)))
    eqn:Hup; [| lia].
  assert (Hrpos : 0 < r).
  { apply orb_prop in Hup. destruct Hup as [H | H].
    - apply Z.ltb_lt in H. lia.
    - apply andb_prop in H. destruct H as [H _]. apply Z.eqb_eq in H. lia. }
  assert (q < c) by nia. lia.
Qed.

Lemma unit_float_num (k : Z) :
  0 <= Qnum (unit_float k) < Z.pos TWO53 /\ Qden (unit_float k) = TWO53.
Proof.
  unfold unit_float. cbn [Qnum Qden]. split; [| reflexivity].
  apply Z.mod_pos_bound. reflexivity.
Qed.

Lemma drawn_date_spec (now : datetime) (k : Z) :
  valid_datetime now = true -> DAYS_BACK < toordinal now ->
  exists start_date random_date,
    datetime_sub_td now (timedelta_days DAYS_BACK) = Ok start_date
    /\ datetime_add start_date
         (timedelta_mul (datetime_sub now start_date) (unit_float k))
       = Ok random_date
    /\ valid_datetime random_date = true
    /\ toordinal now - DAYS_BACK <= toordinal random_date <= toordinal now
    /\ to_us random_date <= to_us now.
Proof.
  intros Hv Hlate. unfold datetime_sub_td.
  pose proof (time_us_bounds now Hv) as Htod.
  pose proof (toordinal_bounds now Hv) as Hord.
  unfold DAYS_BACK, timedelta_days, US_PER_DAY, MAXORDINAL in *.
  assert (Hdiv : (to_us now + - (7 * 86400000000)) / US_PER_DAY
                 = toordinal now - 7).
  { unfold to_us, US_PER_DAY. Z.to_euclidean_division_equations. lia. }
  destruct (datetime_add_spec now (- (7 * 86400000000)))
    as (start & Hs & Hsv & Hso & Hst & Hsu).
  { cbv zeta. rewrite Hdiv. unfold MAXORDINAL. lia. }
  exists start. unfold datetime_sub. rewrite Hsu.
  replace (to_us now - (to_us now + - (7 * 86400000000)))
    with (7 * 86400000000) by lia.
  pose proof (unit_float_num k) as [Hnum Hden].
  assert (Hdelta : 0 <= timedelta_mul (7 * 86400000000) (unit_float k)
                   <= 7 * 86400000000).
  { unfold timedelta_mul. apply divide_and_round_bounds.
    rewrite Hden. unfold TWO53 in *. nia. }
  set (delta := timedelta_mul (7 * 86400000000) (unit_float k)) in *.
  assert (Hdiv' : toordinal now - 7 <= (to_us start + delta) / US_PER_DAY
                  <= toordinal now).
  { rewrite Hsu. unfold to_us, US_PER_DAY.
    Z.to_euclidean_division_equations. lia. }
  destruct (datetime_add_spec start delta)
    as (rd & Hr & Hrv & Hro & Hrt & Hru).
  { cbv zeta. unfold MAXORDINAL. lia. }
  exists rd. rewrite Hro, Hru. repeat split; try assumption; lia.
Qed.

Lemma datetime_new_ok (rd : datetime) (h mi s : Z) :
  valid_datetime rd = true ->
  0 <= h <= 23 -> 0 <= mi <= 59 -> 0 <= s <= 59 ->
  datetime_new (year rd) (month rd) (day rd) h mi s
  = Ok (mkdatetime (year rd) (month rd) (day rd) h mi s 0).
Proof.
  intros Hv Hh Hm Hs. apply valid_datetime_iff in Hv. destruct Hv as [Hd _].
  unfold datetime_new. rewrite Hd.
  replace (check_time_fields h mi s 0) with true; [reflexivity |].
  symmetry. apply check_time_fields_iff. lia.
Qed.

Lemma randint_range (a b k : Z) : a <= b -> a <= a + k mod (b - a + 1) <= b.
Proof.
  intros H. pose proof (Z.mod_pos_bound k (b - a + 1) ltac:(lia)). lia.
Qed.

End CalendarFacts.

Import CalendarFacts.

(** ** Runs of the timestamp generator *)

(** Reduce a run to the words of the tape it reads. *)
Ltac run_words w :=
  cbv beta iota;
  cbn [rand_tape rand_pos clock_tape clock_pos files stdout];
  change (Z.of_N (rand_tape w (rand_pos w))) with (word w 0);
  change (Z.of_N (rand_tape w (S (rand_pos w)))) with (word w 1);
  change (Z.of_N (rand_tape w (S (S (rand_pos w))))) with (word w 2);
  change (Z.of_N (rand_tape w (S (S (S (rand_pos w)))))) with (word w 3);
  change (Z.of_N (rand_tape w (S (S (S (S (rand_pos w)))))))
    with (word w 4);
  change (Z.of_N (rand_tape w (S (S (S (S (S (rand_pos w))))))))
    with (word w 5).

(** What one call of [get_random_datetime] returns, word by word. *)
Lemma get_random_datetime_run (w : World) :
  valid_datetime (now_of w) = true -> DAYS_BACK < toordinal (now_of w) ->
  exists random_date,
    drawn_date (now_of w) (unit_float (word w 0)) = Ok random_date
    /\ valid_datetime random_date = true
    /\ toordinal (now_of w) - DAYS_BACK <= toordinal random_date
       <= toordinal (now_of w)
    /\ to_us random_date <= to_us (now_of w)
    /\ get_random_datetime w
       = (Ok (mkdatetime (year random_date) (month random_date)
                (day random_date) (fst (hour_of_draws w))
                (0 + word w (snd (hour_of_draws w)) mod (59 - 0 + 1))
                (0 + word w (S (snd (hour_of_draws w))) mod (59 - 0 + 1)) 0),
          advance (S (S (snd (hour_of_draws w)))) 1 w).
Proof.
  intros Hv Hlate.
  destruct (drawn_date_spec (now_of w) (word w 0) Hv Hlate)
    as (start & rd & Hs & Hr & Hrv & Hwin & Hle).
  exists rd. split; [unfold drawn_date; rewrite Hs; exact Hr |].
  repeat split; try assumption; try lia.
  unfold hour_of_draws, get_random_datetime.
  unfold bind at 1. unfold datetime_now at 1. fold (now_of w).
  unfold bind at 1. unfold lift at 1. rewrite Hs.
  unfold bind at 1.
  unfold random_random at 1, bind at 1, next_word at 1, ret at 1.
  cbn [rand_tape rand_pos clock_tape clock_pos files stdout].
  change (Z.of_N (rand_tape w (rand_pos w))) with (word w 0).
  unfold bind at 1. unfold lift at 1. rewrite Hr.
  cbv [bind random_random next_word ret random_randint lift raise].
  change (19 <? 8) with false. change (23 <? 20) with false.
  change (7 <? 0) with false. change (59 <? 0) with false.
  run_words w.
  destruct (float_lt (unit_float (word w 1)) float_0_7);
    [| run_words w;
       destruct (float_lt (unit_float (word w 2)) float_0_5)];
    run_words w; cbn [fst snd];
    (rewrite datetime_new_ok;
     [reflexivity | assumption | | |]);
    try (apply randint_range; lia).
  - pose proof (randint_range 8 19 (word w 2)). lia.
  - pose proof (randint_range 20 23 (word w 3)). lia.
  - pose proof (randint_range 0 7 (word w 3)). lia.
Qed.

Lemma hour_of_draws_range (w : World) :
  if float_lt (unit_float (word w 1)) float_0_7
  then 8 <= fst (hour_of_draws w) <= 19
  else if float_lt (unit_float (word w 2)) float_0_5
       then 20 <= fst (hour_of_draws w) <= 23
       else 0 <= fst (hour_of_draws w) <= 7.
Proof.
  unfold hour_of_draws.
  destruct (float_lt (unit_float (word w 1)) float_0_7);
    [| destruct (float_lt (unit_float (word w 2)) float_0_5)];
    cbn [fst]; apply randint_range; lia.
Qed.

(** C1. Every timestamp [get_random_datetime] returns has its hour in
    [0, 23] (in [8, 19] when the day/night draw falls below 0.7, otherwise
    in [20, 23] or in [0, 7] as the next draw falls below 0.5 or not), its
    minute and second in [0, 59], and its calendar date between the date
    [DAYS_BACK] days before now and the date of now. *)
Theorem timestamp_fields_in_range (w : World) :
  valid_datetime (now_of w) = true ->
  DAYS_BACK < toordinal (now_of w) ->
  exists dt w',
    get_random_datetime w = (Ok dt, w')
    /\ 0 <= hour dt <= 23
    /\ (if float_lt (unit_float (word w 1)) float_0_7
        then 8 <= hour dt <= 19
        else if float_lt (unit_float (word w 2)) float_0_5
             then 20 <= hour dt <= 23
             else 0 <= hour dt <= 7)
    /\ 0 <= minute dt <= 59
    /\ 0 <= second dt <= 59
    /\ toordinal (now_of w) - DAYS_BACK <= toordinal dt
       <= toordinal (now_of w).
Proof.
  intros Hv Hlate.
  destruct (get_random_datetime_run w Hv Hlate)
    as (rd & _ & _ & Hwin & _ & Hrun).
  pose proof (hour_of_draws_range w) as Hh.
  eexists. eexists. split; [exact Hrun |].
  cbn [hour minute second]. unfold toordinal in *.
  cbn [year month day].
  repeat split; try apply randint_range; try lia;
    try exact Hh;
    destruct (float_lt (unit_float (word w 1)) float_0_7);
    try destruct (float_lt (unit_float (word w 2)) float_0_5); lia.
Qed.

Lemma timestamp_fields_in_range_witness :
  exists dt w',
    get_random_datetime (world_of [0; 0; 11; 59; 59]%N sample_now no_files)
    = (Ok dt, w')
    /\ 0 <= hour dt <= 23
    /\ 8 <= hour dt <= 19
    /\ 0 <= minute dt <= 59
    /\ 0 <= second dt <= 59
    /\ toordinal sample_now - DAYS_BACK <= toordinal dt
       <= toordinal sample_now.
Proof.
  apply (timestamp_fields_in_range
           (world_of [0; 0; 11; 59; 59]%N sample_now no_files));
    vm_compute; reflexivity.
Defined.

(** C8. The calendar date of the returned timestamp does not depend on the
    day/night choice: two runs that read the same clock and the same word
    for the date draw return the same year, month and day, whatever the
    words of the later draws are. *)
Theorem date_independent_of_day_night (w1 w2 : World) :
  now_of w1 = now_of w2 ->
  word w1 0 = word w2 0 ->
  valid_datetime (now_of w1) = true ->
  DAYS_BACK < toordinal (now_of w1) ->
  exists dt1 w1' dt2 w2',
    get_random_datetime w1 = (Ok dt1, w1')
    /\ get_random_datetime w2 = (Ok dt2, w2')
    /\ year dt1 = year dt2 /\ month dt1 = month dt2 /\ day dt1 = day dt2.
Proof.
  intros Hnow Hword Hv Hlate.
  destruct (get_random_datetime_run w1 Hv Hlate)
    as (rd1 & Hd1 & _ & _ & _ & Hrun1).
  rewrite Hnow in Hv, Hlate.
  destruct (get_random_datetime_run w2 Hv Hlate)
    as (rd2 & Hd2 & _ & _ & _ & Hrun2).
  rewrite Hnow, Hword, Hd2 in Hd1. injection Hd1 as ->.
  do 4 eexists. split; [exact Hrun1 |]. split; [exact Hrun2 |].
  cbn [year month day]. repeat split.
Qed.

(** A run that draws a day hour and a run that draws a night hour, after the
    same date draw. *)
Lemma date_independent_of_day_night_witness :
  exists dt1 w1' dt2 w2',
    get_random_datetime
      (world_of [4503599627370496; 0; 11; 59; 59]%N sample_now no_files)
    = (Ok dt1, w1')
    /\ get_random_datetime
         (world_of [4503599627370496; 9007199254740991; 0; 3; 0; 0]%N
            sample_now no_files)
       = (Ok dt2, w2')
    /\ year dt1 = year dt2 /\ month dt1 = month dt2 /\ day dt1 = day dt2.
Proof.
  apply (date_independent_of_day_night
           (world_of [4503599627370496; 0; 11; 59; 59]%N sample_now no_files)
           (world_of [4503599627370496; 9007199254740991; 0; 3; 0; 0]%N
              sample_now no_files));
    vm_compute; reflexivity.
Defined.

(** No timestamp is a full day or more after the clock reading. *)
Lemma timestamp_less_than_a_day_ahead (w : World) :
  valid_datetime (now_of w) = true ->
  DAYS_BACK < toordinal (now_of w) ->
  exists dt w',
    get_random_datetime w = (Ok dt, w')
    /\ datetime_sub dt (now_of w) < US_PER_DAY.
Proof.
  intros Hv Hlate.
  destruct (get_random_datetime_run w Hv Hlate)
    as (rd & _ & _ & Hwin & _ & Hrun).
  do 2 eexists. split; [exact Hrun |].
  pose proof (hour_of_draws_range w) as Hh.
  pose proof (randint_range 0 59 (word w (snd (hour_of_draws w))))
    as Hm.
  pose proof (randint_range 0 59 (word w (S (snd (hour_of_draws w)))))
    as Hs.
  pose proof (time_us_bounds (now_of w) Hv) as Hnow.
  unfold datetime_sub, to_us, time_us, toordinal, US_PER_DAY, US_PER_SECOND
    in *.
  cbn [year month day hour minute second microsecond].
  destruct (float_lt (unit_float (word w 1)) float_0_7);
    [| destruct (float_lt (unit_float (word w 2)) float_0_5)]; lia.
Qed.

(** C10. Some run of [get_random_datetime] returns a timestamp strictly
    later than the clock reading: the date draw lands on today's date and
    the time of day, drawn afresh, exceeds the current one.  A timestamp can
    be 23:59:59 ahead of the clock, on the date of the clock reading. *)
Theorem timestamp_can_exceed_now :
  (exists w dt w',
     get_random_datetime w = (Ok dt, w')
     /\ toordinal dt = toordinal (now_of w)
     /\ datetime_lt (now_of w) dt = true)
  /\ (exists w dt w',
        get_random_datetime w = (Ok dt, w')
        /\ toordinal dt = toordinal (now_of w)
        /\ datetime_sub dt (now_of w) = 86399 * US_PER_SECOND).
Proof.
  split.
  - exists (world_of [9007199254740991; 0; 11; 59; 59]%N sample_now no_files).
    do 2 eexists. split; [vm_compute; reflexivity |].
    split; vm_compute; reflexivity.
  - exists (world_of [9007199254740991; 9007199254740991; 0; 3; 59; 59]%N
              midnight no_files).
    do 2 eexists. split; [vm_compute; reflexivity |].
    split; vm_compute; reflexivity.
Qed.

(** ** Strings *)

Module StrFacts.

Lemma append_assoc (a b c : string) : (a ++ b) ++ c = a ++ (b ++ c).
Proof. induction a as [| x a IH]; simpl; [reflexivity | now rewrite IH]. Qed.

Lemma append_nil_r (a : string) : a ++ EmptyString = a.
Proof. induction a as [| x a IH]; simpl; [reflexivity | now rewrite IH]. Qed.

Lemma prefix_app (p r : string) : prefix p (p ++ r) = true.
Proof.
  induction p as [| x p IH]; simpl.
  - destruct r; reflexivity.
  - destruct (ascii_dec x x) as [_ | N]; [exact IH | now elim N].
Qed.

Lemma prefix_app_head (p q r : string) :
  prefix (p ++ q) (p ++ q ++ r) = true.
Proof. rewrite <- append_assoc. apply prefix_app. Qed.

End StrFacts.

Import StrFacts.

Lemma get_random_ip_run (w : World) :
  get_random_ip w
  = if float_lt (unit_float (word w 0)) CHANCE_HIGH_FREQ
    then (Ok (nth (Z.to_nat (word w 1 mod 4)) HIGH_FREQ_IPS "192.168.1.1"),
          advance 2 0 w)
    else (Ok (join "." [str (octet w 1); str (octet w 2);
                        str (octet w 3); str (octet w 4)]),
          advance 5 0 w).
Proof.
  unfold get_random_ip, octet.
  cbv [bind random_random next_word ret random_randint random_choice
       random_octets HIGH_FREQ_IPS List.length raise].
  change (254 <? 1) with false.
  run_words w.
  destruct (float_lt (unit_float (word w 0)) CHANCE_HIGH_FREQ);
    run_words w; reflexivity.
Qed.

Lemma octet_range (w : World) (i : nat) : 1 <= octet w i <= 254.
Proof. unfold octet. apply randint_range. lia. Qed.

Lemma high_freq_ips_shape : Forall (dotted_quad 0 254) HIGH_FREQ_IPS.
Proof.
  unfold HIGH_FREQ_IPS. repeat constructor.
  - exists 192, 168, 1, 1. repeat split; try lia.
  - exists 10, 0, 0, 5. repeat split; try lia.
  - exists 173, 194, 222, 113. repeat split; try lia.
  - exists 8, 8, 8, 8. repeat split; try lia.
Qed.

Lemma choice_in {A : Type} (k : Z) (l : list A) (d : A) :
  l <> [] -> In (nth (Z.to_nat (k mod Z.of_nat (List.length l))) l d) l.
Proof.
  intros Hl. apply nth_In.
  assert (0 < Z.of_nat (List.length l)).
  { destruct l; [contradiction | simpl List.length; lia]. }
  pose proof (Z.mod_pos_bound k (Z.of_nat (List.length l)) ltac:(lia)). lia.
Qed.

(** C2, as amended.  Every string [get_random_ip] returns consists of
    exactly four dot-separated integers, each in [0, 254]: on the synthesis
    branch each of them is in [1, 254]; on the frequent-pool branch the
    string is one of the four entries of [HIGH_FREQ_IPS]. *)
Theorem random_ip_shape (w : World) :
  exists s w',
    get_random_ip w = (Ok s, w')
    /\ dotted_quad 0 254 s
    /\ (if float_lt (unit_float (word w 0)) CHANCE_HIGH_FREQ
        then In s HIGH_FREQ_IPS
        else dotted_quad 1 254 s).
Proof.
  rewrite get_random_ip_run.
  destruct (float_lt (unit_float (word w 0)) CHANCE_HIGH_FREQ).
  - do 2 eexists. split; [reflexivity |].
    assert (Hin : In (nth (Z.to_nat (word w 1 mod 4)) HIGH_FREQ_IPS
                        "192.168.1.1") HIGH_FREQ_IPS)
      by (apply (choice_in (word w 1) HIGH_FREQ_IPS); discriminate).
    split; [| exact Hin].
    exact (proj1 (Forall_forall _ _) high_freq_ips_shape _ Hin).
  - do 2 eexists. split; [reflexivity |].
    pose proof (octet_range w 1). pose proof (octet_range w 2).
    pose proof (octet_range w 3). pose proof (octet_range w 4).
    split; do 4 eexists; repeat split; lia.
Qed.

(** C2 fails as stated: the frequent pool holds [10.0.0.5], whose second and
    third integers are 0. *)
Lemma random_ip_zero_octet :
  exists w s w',
    get_random_ip w = (Ok s, w') /\ ~ dotted_quad 1 254 s.
Proof.
  exists (world_of [0; 1]%N sample_now no_files), "10.0.0.5".
  eexists. split; [vm_compute; reflexivity |].
  intros (a & b & c & d & Ha & Hb & _ & _ & E).
  unfold join in E. cbn [concat] in E.
  assert (Hpa : prefix (str a ++ ".") "10.0.0.5" = true).
  { rewrite E. apply prefix_app_head. }
  assert (Ha10 : only_octet_heads 10 "10.0.0.5" a = true).
  { apply (check_range_spec (only_octet_heads 10 "10.0.0.5") 254 1);
      [vm_compute; reflexivity | lia]. }
  unfold only_octet_heads in Ha10. rewrite Hpa in Ha10.
  apply Z.eqb_eq in Ha10. subst a.
  change (str 10) with "10" in E. cbn [append] in E.
  injection E as E.
  assert (Hpb : prefix (str b ++ ".") "0.0.5" = true).
  { rewrite E. exact (prefix_app_head (str b) "." (str c ++ "." ++ str d)). }
  assert (Hb0 : no_octet_heads "0.0.5" b = true).
  { apply (check_range_spec (no_octet_heads "0.0.5") 254 1);
      [vm_compute; reflexivity | lia]. }
  unfold no_octet_heads in Hb0. rewrite Hpb in Hb0. discriminate.
Qed.

(** ** Runs taken apart *)

Lemma bind_ok_inv {A B : Type} (c : M A) (k : A -> M B) (w w' : World)
  (b : B) :
  bind c k w = (Ok b, w') ->
  exists a w1, c w = (Ok a, w1) /\ k a w1 = (Ok b, w').
Proof.
  unfold bind. destruct (c w) as [[a | e] w1]; intros H;
    [exists a, w1; split; [reflexivity | exact H] | discriminate].
Qed.

Ltac bind_inv H :=
  let a := fresh "a" in
  let w := fresh "w" in
  let E := fresh "E" in
  apply bind_ok_inv in H; destruct H as (a & w & E & H).



(** ** The status code of the access log *)

(** Each literal is within half a unit in the last place of the decimal it
    is written as, so it is the double nearest to it. *)
Lemma float_literals_nearest :
  2 * Z.abs (10 * Qnum float_0_7 - 7 * Z.pos (Qden float_0_7))
  <= 10
  /\ 2 * Z.abs (10 * Qnum float_0_6 - 6 * Z.pos (Qden float_0_6)) <= 10
  /\ 2 * Z.abs (100 * Qnum float_0_15 - 15 * Z.pos (Qden float_0_15)) <= 100
  /\ 2 * Qnum float_0_5 = Z.pos (Qden float_0_5)
  /\ Z.pos (Qden float_0_7) = 2 ^ 53
  /\ Z.pos (Qden float_0_6) = 2 ^ 53
  /\ Z.pos (Qden float_0_15) = 2 ^ 55
  /\ 2 ^ 52 <= Qnum float_0_7 < 2 ^ 53
  /\ 2 ^ 52 <= Qnum float_0_6 < 2 ^ 53
  /\ 2 ^ 52 <= Qnum float_0_15 < 2 ^ 53.
Proof. vm_compute. repeat split; discriminate. Qed.

Lemma float_lt_half (k : Z) :
  float_lt (unit_float k) float_0_5 = true
  <-> k mod Z.pos TWO53 < 4503599627370496.
Proof.
  unfold float_lt, unit_float, float_0_5. cbn [Qnum Qden].
  rewrite Z.ltb_lt. unfold TWO53. lia.
Qed.

Lemma base_status_code_run (w : World) :
  base_status_code w
  = match status_loop HTTP_STATUS_CODES_DISTRIBUTION (percentile w) 0 with
    | Some code => (Ok code, advance 1 0 w)
    | None =>
        (Ok (nth (Z.to_nat (word w 1 mod 4)) OTHER_CODES 302), advance 2 0 w)
    end.
Proof.
  unfold base_status_code, percentile.
  cbv [bind random_randint next_word ret raise].
  change (100 <? 1) with false. run_words w.
  destruct (status_loop HTTP_STATUS_CODES_DISTRIBUTION
              (1 + word w 0 mod (100 - 1 + 1)) 0);
    [reflexivity |].
  cbv [random_choice OTHER_CODES List.length bind next_word ret].
  run_words w. reflexivity.
Qed.

Lemma incident_override_run (ip_address : string) (status_code : Z)
  (w : World) :
  incident_override ip_address status_code w
  = if String.eqb ip_address INCIDENT_IP
    then (Ok (if float_lt (unit_float (word w 0)) float_0_5
              then 404 else status_code),
          advance 1 0 w)
    else (Ok status_code, w).
Proof.
  unfold incident_override.
  destruct (String.eqb ip_address INCIDENT_IP); [| reflexivity].
  cbv [bind random_random next_word ret]. run_words w.
  destruct (float_lt (unit_float (word w 0)) float_0_5); reflexivity.
Qed.

Lemma status_loop_table (d : Z) :
  status_loop HTTP_STATUS_CODES_DISTRIBUTION d 0
  = if d <=? 80 then Some 200
    else if d <=? 90 then Some 404
    else if d <=? 95 then Some 500
    else None.
Proof. reflexivity. Qed.

(** ** The incident address *)





(** ** Lines without line feeds *)

Module NoNewline.

Lemma no_newline_app (a b : string) :
  no_newline (a ++ b) = no_newline a && no_newline b.
Proof.
  induction a as [| c a IH]; cbn [append no_newline]; [reflexivity |].
  rewrite IH, andb_assoc. reflexivity.
Qed.

Lemma no_newline_str_digits (fuel : nat) :
  forall n acc,
    0 <= n -> no_newline acc = true ->
    no_newline (str_digits fuel n acc) = true.
Proof.
  induction fuel as [| fuel IH]; intros n acc Hn Hacc; cbn [str_digits];
    [exact Hacc |].
  assert (Hd : no_newline (String (digit (n mod 10)) acc) = true).
  { cbn [no_newline]. rewrite Hacc, andb_true_r.
    apply (check_range_spec digit_no_newline 10 0); [vm_compute; reflexivity |].
    pose proof (Z.mod_pos_bound n 10 ltac:(lia)). lia. }
  destruct (n / 10 =? 0); [exact Hd |].
  apply IH; [apply Z.div_pos; lia | exact Hd].
Qed.

Lemma no_newline_str (n : Z) : no_newline (str n) = true.
Proof.
  unfold str. destruct (Z.ltb_spec n 0).
  - rewrite no_newline_app. change (no_newline "-") with true. cbn [andb].
    apply no_newline_str_digits; [lia | reflexivity].
  - apply no_newline_str_digits; [lia | reflexivity].
Qed.

Lemma no_newline_pad2 (n : Z) : no_newline (pad2 n) = true.
Proof.
  unfold pad2. destruct ((0 <=? n) && (n <? 10)).
  - rewrite no_newline_app, no_newline_str. reflexivity.
  - apply no_newline_str.
Qed.

Lemma no_newline_nth (l : list string) (i : nat) :
  forallb no_newline l = true -> no_newline (nth i l EmptyString) = true.
Proof.
  revert i. induction l as [| x l IH]; intros i H; destruct i; cbn [nth];
    try reflexivity; cbn [forallb] in H; apply andb_prop in H;
    destruct H as [Hx Hl]; [exact Hx | now apply IH].
Qed.

Lemma no_newline_in (l : list string) (s : string) :
  forallb no_newline l = true -> In s l -> no_newline s = true.
Proof. intros H. exact (proj1 (forallb_forall _ _) H s). Qed.

Lemma no_newline_directive (dt : datetime) (c : ascii) :
  Ascii.eqb c "010"%char = false -> no_newline (directive dt c) = true.
Proof.
  intros Hc.
  assert (Hdefault : no_newline (String "%" (String c EmptyString)) = true)
    by (cbn [no_newline]; rewrite Hc; reflexivity).
  unfold directive.
  destruct c as [[] [] [] [] [] [] [] []];
    try exact Hdefault;
    first [ apply no_newline_pad2 | apply no_newline_str
          | apply no_newline_nth; reflexivity | reflexivity ].
Qed.

Lemma no_newline_strftime (dt : datetime) (fmt : string) :
  no_newline fmt = true -> no_newline (strftime dt fmt) = true.
Proof.
  revert dt. 
  assert (H : forall n fmt, (String.length fmt <= n)%nat -> forall dt,
             no_newline fmt = true -> no_newline (strftime dt fmt) = true).
  { induction n as [| n IH]; intros f Hlen dt Hf.
    - destruct f; [reflexivity | cbn in Hlen; lia].
    - destruct f as [| a f]; [reflexivity |].
      cbn [no_newline] in Hf. apply andb_prop in Hf. destruct Hf as [Ha Hf].
      assert (Hplain : no_newline (String a (strftime dt f)) = true).
      { cbn [no_newline]. rewrite Ha. cbn [andb].
        apply IH; [cbn in Hlen; lia | exact Hf]. }
      destruct (Ascii.eqb_spec a "%"%char) as [-> | Hne].
      + destruct f as [| c f].
        * reflexivity.
        * cbn [strftime]. cbn [no_newline] in Hf. apply andb_prop in Hf.
          destruct Hf as [Hc Hf]. rewrite no_newline_app.
          rewrite no_newline_directive
            by (apply negb_true_iff in Hc; exact Hc).
          apply IH; [cbn in Hlen; lia | exact Hf].
      + cbn [strftime].
        destruct a as [[] [] [] [] [] [] [] []]; try exact Hplain.
        now elim Hne. }
  intros dt Hf. exact (H (String.length fmt) fmt (le_n _) dt Hf).
Qed.

End NoNewline.

Import NoNewline.

(** ** Commands that only read the tapes *)

Module Hoare.

Lemma frame_refl (w : World) : frame w w.
Proof. repeat split. Qed.

Lemma frame_trans (w1 w2 w3 : World) :
  frame w1 w2 -> frame w2 w3 -> frame w1 w3.
Proof.
  intros (A1 & B1 & C1 & D1) (A2 & B2 & C2 & D2).
  repeat split; congruence.
Qed.

Lemma frame_advance (n c : nat) (w : World) : frame w (advance n c w).
Proof. repeat split. Qed.

Lemma clock_ok_frame (w w' : World) : frame w w' -> clock_ok w -> clock_ok w'.
Proof. intros (_ & Hc & _) H i. rewrite Hc. apply H. Qed.

Lemma returns_ret {A : Type} (a : A) (P : A -> Prop) :
  P a -> returns (ret a) P.
Proof. intros H w _. exists a, w. repeat split. exact H. Qed.

Lemma returns_lift {A : Type} (a : A) (P : A -> Prop) :
  P a -> returns (lift (Ok a)) P.
Proof. intros H w _. exists a, w. repeat split. exact H. Qed.

Lemma returns_bind {A B : Type} (c : M A) (k : A -> M B)
  (P : A -> Prop) (Q : B -> Prop) :
  returns c P -> (forall a, P a -> returns (k a) Q) -> returns (bind c k) Q.
Proof.
  intros Hc Hk w Hw.
  destruct (Hc w Hw) as (a & w1 & E1 & F1 & Pa).
  destruct (Hk a Pa w1 (clock_ok_frame _ _ F1 Hw)) as (b & w2 & E2 & F2 & Qb).
  exists b, w2. unfold bind. rewrite E1.
  split; [exact E2 |]. split; [exact (frame_trans _ _ _ F1 F2) | exact Qb].
Qed.

Lemma returns_weaken {A : Type} (c : M A) (P Q : A -> Prop) :
  returns c P -> (forall a, P a -> Q a) -> returns c Q.
Proof.
  intros Hc HPQ w Hw. destruct (Hc w Hw) as (a & w' & E & F & Pa).
  exists a, w'. auto.
Qed.

(** A value a command returns is a value of one of its runs. *)
Lemma returns_run {A : Type} (c : M A) (P : A -> Prop) :
  returns c P ->
  returns c (fun a => P a /\ exists w w', c w = (Ok a, w')).
Proof.
  intros Hc w Hw. destruct (Hc w Hw) as (a & w' & E & F & Pa).
  exists a, w'. repeat split; try assumption; try apply F. eauto.
Qed.

Lemma returns_random_random : returns random_random (fun _ => True).
Proof.
  intros w _. do 2 eexists. split; [reflexivity |].
  split; [repeat split | exact I].
Qed.

Lemma returns_randint (a b : Z) :
  a <= b -> returns (random_randint a b) (fun x => a <= x <= b).
Proof.
  intros Hab w _. unfold random_randint.
  replace (b <? a) with false by (symmetry; apply Z.ltb_ge; lia).
  do 2 eexists. split; [reflexivity |].
  split; [repeat split | apply randint_range; exact Hab].
Qed.

Lemma returns_choice {A : Type} (l : list A) :
  l <> [] -> returns (random_choice l) (fun x => In x l).
Proof.
  intros Hl w _. destruct l as [| x l']; [contradiction |].
  unfold random_choice. do 2 eexists. split; [reflexivity |].
  split; [repeat split |].
  apply (choice_in _ (x :: l')). discriminate.
Qed.

Lemma returns_get_random_datetime :
  returns get_random_datetime (fun _ => True).
Proof.
  intros w Hw. destruct (Hw (clock_pos w)) as [Hv Hlate].
  destruct (get_random_datetime_run w Hv Hlate) as (rd & _ & _ & _ & _ & E).
  do 2 eexists. split; [exact E |]. split; [apply frame_advance | exact I].
Qed.

Lemma returns_get_random_ip :
  returns get_random_ip (fun s => no_newline s = true).
Proof.
  intros w _. rewrite get_random_ip_run.
  destruct (float_lt (unit_float (word w 0)) CHANCE_HIGH_FREQ);
    do 2 eexists; (split; [reflexivity |]);
    (split; [apply frame_advance |]).
  - apply (no_newline_in HIGH_FREQ_IPS); [reflexivity |].
    apply (choice_in (word w 1) HIGH_FREQ_IPS). discriminate.
  - unfold join. cbn [concat].
    rewrite !no_newline_app, !no_newline_str. reflexivity.
Qed.

Lemma returns_incident_or_random_ip :
  returns incident_or_random_ip (fun s => no_newline s = true).
Proof.
  unfold incident_or_random_ip.
  apply (returns_bind _ _ _ _ returns_random_random). intros p _.
  destruct (float_lt p float_0_15);
    [apply returns_ret; reflexivity | apply returns_get_random_ip].
Qed.

Lemma locations_split :
  Forall (fun loc => exists country city, splits_in_two loc country city)
    GEOGRAPHIC_LOCATIONS.
Proof.
  unfold GEOGRAPHIC_LOCATIONS, splits_in_two.
  repeat constructor; do 2 eexists; split; vm_compute; reflexivity.
Qed.

Lemma locations_clean :
  Forall (fun loc =>
            forallb no_newline (split loc ", ") = true)
    GEOGRAPHIC_LOCATIONS.
Proof. repeat constructor. Qed.

Lemma returns_get_random_location :
  returns get_random_location (fun loc => In loc GEOGRAPHIC_LOCATIONS).
Proof. apply returns_choice. discriminate. Qed.

Lemma returns_split_location (loc : string) :
  In loc GEOGRAPHIC_LOCATIONS ->
  returns (split_location loc)
    (fun cc => splits_in_two loc (fst cc) (snd cc)
               /\ no_newline (fst cc) = true /\ no_newline (snd cc) = true).
Proof.
  intros Hin.
  destruct (proj1 (Forall_forall _ _) locations_split loc Hin)
    as (country & city & Hs).
  pose proof (proj1 (Forall_forall _ _) locations_clean loc Hin) as Hc.
  cbv beta in Hc. rewrite (proj1 Hs) in Hc.
  unfold split_location. rewrite (proj1 Hs). cbn [unpack2].
  apply returns_lift. cbn [fst snd]. split; [exact Hs |].
  cbn [forallb] in Hc. apply andb_prop in Hc. destruct Hc as [H1 H2].
  apply andb_prop in H2. destruct H2 as [H2 _]. split; assumption.
Qed.

Lemma returns_base_status_code : returns base_status_code (fun _ => True).
Proof.
  intros w _. rewrite base_status_code_run.
  destruct (status_loop HTTP_STATUS_CODES_DISTRIBUTION (percentile w) 0);
    do 2 eexists; (split; [reflexivity |]);
    (split; [apply frame_advance | exact I]).
Qed.

Lemma returns_incident_override (ip_address : string) (status_code : Z) :
  returns (incident_override ip_address status_code) (fun _ => True).
Proof.
  intros w _. rewrite incident_override_run.
  destruct (String.eqb ip_address INCIDENT_IP);
    do 2 eexists; (split; [reflexivity |]);
    (split; [first [apply frame_advance | apply frame_refl] | exact I]).
Qed.

Lemma messages_defined :
  Forall (fun id => exists msg, dict_get messages_map id = Ok msg)
    WINDOWS_EVENT_IDS.
Proof. repeat constructor; eexists; reflexivity. Qed.

Lemma messages_clean (id : Z) (msg : string) :
  dict_get messages_map id = Ok msg -> no_newline msg = true.
Proof.
  unfold messages_map. cbn [dict_get].
  repeat (destruct (_ =? id);
          [intros H; injection H as <-; reflexivity |]).
  discriminate.
Qed.

Ltac draw_step lem :=
  eapply returns_bind; [apply lem |]; cbv beta.

(** Each formatter keeps line feeds out when its fields hold none. *)
Ltac clean_line :=
  cbn [access_ip access_timestamp access_method access_endpoint
       access_status access_size access_country access_city
       error_timestamp error_severity error_ip error_msg error_country
       error_city firewall_timestamp firewall_hostname firewall_ip
       firewall_action firewall_country firewall_city windows_timestamp
       windows_hostname windows_event_id windows_msg windows_ip
       windows_username windows_country windows_city];
  unfold geo_tag;
  rewrite ?no_newline_app, ?no_newline_str, ?no_newline_strftime
    by reflexivity;
  repeat match goal with
         | H : no_newline ?s = true |- _ => rewrite H; clear H
         end;
  reflexivity.

Lemma returns_draw_access_fields :
  returns draw_access_fields
    (fun r => geo_of_list (access_country r) (access_city r)
              /\ no_newline (format_access r) = true).
Proof.
  unfold draw_access_fields.
  draw_step returns_get_random_datetime. intros dt _.
  draw_step returns_incident_or_random_ip. intros ip Hip.
  draw_step (returns_choice HTTP_METHODS); [discriminate |].
  intros method Hmethod.
  apply (no_newline_in HTTP_METHODS _ eq_refl) in Hmethod.
  draw_step (returns_choice ENDPOINTS); [discriminate |].
  intros endpoint Hendpoint.
  apply (no_newline_in ENDPOINTS _ eq_refl) in Hendpoint.
  draw_step returns_base_status_code. intros st _.
  draw_step returns_incident_override. intros st' _.
  draw_step (returns_randint 512 524288); [lia |]. intros size _.
  draw_step returns_get_random_location. intros loc Hin.
  draw_step (returns_split_location loc Hin). intros cc (Hs & Hc1 & Hc2).
  apply returns_ret. split; [exists loc; split; [exact Hin | exact Hs] |].
  unfold format_access. clean_line.
Qed.

Lemma returns_draw_error_fields :
  returns draw_error_fields
    (fun r => geo_of_list (error_country r) (error_city r)
              /\ no_newline (format_error r) = true).
Proof.
  unfold draw_error_fields.
  draw_step returns_get_random_datetime. intros dt _.
  draw_step returns_get_random_ip. intros ip Hip.
  draw_step (returns_choice ERROR_SEVERITIES); [discriminate |].
  intros sev Hsev. apply (no_newline_in ERROR_SEVERITIES _ eq_refl) in Hsev.
  draw_step (returns_choice ERROR_MESSAGES); [discriminate |].
  intros msg Hmsg. apply (no_newline_in ERROR_MESSAGES _ eq_refl) in Hmsg.
  draw_step returns_get_random_location. intros loc Hin.
  draw_step (returns_split_location loc Hin). intros cc (Hs & Hc1 & Hc2).
  apply returns_ret. split; [exists loc; split; [exact Hin | exact Hs] |].
  unfold format_error. clean_line.
Qed.

Lemma returns_draw_firewall_fields :
  returns draw_firewall_fields
    (fun r => geo_of_list (firewall_country r) (firewall_city r)
              /\ no_newline (format_firewall r) = true).
Proof.
  unfold draw_firewall_fields.
  draw_step returns_get_random_datetime. intros dt _.
  draw_step returns_get_random_ip. intros ip Hip.
  draw_step (returns_choice FIREWALL_ACTIONS); [discriminate |].
  intros act Hact. apply (no_newline_in FIREWALL_ACTIONS _ eq_refl) in Hact.
  draw_step returns_get_random_location. intros loc Hin.
  draw_step (returns_split_location loc Hin). intros cc (Hs & Hc1 & Hc2).
  apply returns_ret. split; [exists loc; split; [exact Hin | exact Hs] |].
  unfold format_firewall. clean_line.
Qed.

Lemma returns_draw_windows_fields :
  returns draw_windows_fields
    (fun r =>
       geo_of_list (windows_country r) (windows_city r)
       /\ In (windows_event_id r) WINDOWS_EVENT_IDS
       /\ dict_get messages_map (windows_event_id r) = Ok (windows_msg r)
       /\ no_newline (format_windows r) = true).
Proof.
  unfold draw_windows_fields.
  draw_step returns_get_random_datetime. intros dt _.
  draw_step (returns_choice WINDOWS_EVENT_IDS); [discriminate |].
  intros id Hid.
  destruct (proj1 (Forall_forall _ _) messages_defined id Hid) as (m & Hm).
  rewrite Hm.
  draw_step (returns_lift m (fun x => x = m)); [reflexivity |].
  intros msg ->.
  draw_step returns_get_random_location. intros loc Hin.
  draw_step (returns_split_location loc Hin). intros cc (Hs & Hc1 & Hc2).
  draw_step returns_incident_or_random_ip. intros ip Hip.
  draw_step (returns_choice FAKE_USERNAMES); [discriminate |].
  intros user Huser. apply (no_newline_in FAKE_USERNAMES _ eq_refl) in Huser.
  apply returns_ret.
  cbn [windows_country windows_city windows_event_id windows_msg].
  split; [exists loc; split; [exact Hin | exact Hs] |].
  split; [exact Hid |]. split; [exact Hm |].
  pose proof (messages_clean id m Hm) as Hclean.
  unfold format_windows. clean_line.
Qed.

End Hoare.

Import Hoare.

Module Lines.



Lemma generate_access_run (w w' : World) (r : access_fields) :
  draw_access_fields w = (Ok r, w') ->
  generate_apache_access_log w = (Ok (format_access r), w').
Proof.
  intros E. unfold generate_apache_access_log, bind. rewrite E. reflexivity.
Qed.

Lemma generate_error_run (w w' : World) (r : error_fields) :
  draw_error_fields w = (Ok r, w') ->
  generate_apache_error_log w = (Ok (format_error r), w').
Proof.
  intros E. unfold generate_apache_error_log, bind. rewrite E. reflexivity.
Qed.

Lemma generate_firewall_run (w w' : World) (r : firewall_fields) :
  draw_firewall_fields w = (Ok r, w') ->
  generate_firewall_log w = (Ok (format_firewall r), w').
Proof.
  intros E. unfold generate_firewall_log, bind. rewrite E. reflexivity.
Qed.

Lemma generate_windows_run (w w' : World) (r : windows_fields) :
  draw_windows_fields w = (Ok r, w') ->
  generate_windows_log w = (Ok (format_windows r), w').
Proof.
  intros E. unfold generate_windows_log, bind. rewrite E. reflexivity.
Qed.

Lemma format_access_tail (r : access_fields) :
  exists pre,
    format_access r = pre ++ geo_tag (access_country r) (access_city r).
Proof.
  unfold format_access. eexists.
  rewrite <- !append_assoc. reflexivity.
Qed.

Lemma format_error_tail (r : error_fields) :
  exists pre, format_error r = pre ++ geo_tag (error_country r) (error_city r).
Proof.
  unfold format_error. eexists.
  rewrite <- !append_assoc. reflexivity.
Qed.

Lemma format_firewall_tail (r : firewall_fields) :
  exists pre,
    format_firewall r
    = pre ++ geo_tag (firewall_country r) (firewall_city r).
Proof.
  unfold format_firewall. eexists.
  rewrite <- !append_assoc. reflexivity.
Qed.

Lemma format_windows_tail (r : windows_fields) :
  exists pre,
    format_windows r = pre ++ geo_tag (windows_country r) (windows_city r).
Proof.
  unfold format_windows. eexists.
  rewrite <- !append_assoc. reflexivity.
Qed.

Lemma locations_nodup : NoDup GEOGRAPHIC_LOCATIONS.
Proof.
  unfold GEOGRAPHIC_LOCATIONS.
  repeat (constructor; [cbn; intuition discriminate |]). constructor.
Qed.

End Lines.

Import Lines.

(** ** Extraction of the geo tag *)

Module Lacks.

Section Byte.

Variable c : ascii.

Lemma lacks_app (a b : string) : lacks c (a ++ b) = lacks c a && lacks c b.
Proof.
  induction a as [| x a IH]; cbn [append lacks]; [reflexivity |].
  rewrite IH, andb_assoc. reflexivity.
Qed.

Lemma lacks_in (l : list string) (s : string) :
  forallb (lacks c) l = true -> In s l -> lacks c s = true.
Proof. intros H. exact (proj1 (forallb_forall _ _) H s). Qed.

Lemma lacks_nth (l : list string) (i : nat) :
  forallb (lacks c) l = true -> lacks c (nth i l EmptyString) = true.
Proof.
  revert i. induction l as [| x l IH]; intros i H; destruct i; cbn [nth];
    try reflexivity; cbn [forallb] in H; apply andb_prop in H;
    destruct H as [Hx Hl]; [exact Hx | now apply IH].
Qed.

Hypothesis Hc : unprinted c = true.

Lemma unprinted_facts :
  (forall d, 0 <= d < 10 -> Ascii.eqb (digit d) c = false)
  /\ lacks c "-" = true /\ lacks c "%" = true
  /\ forallb (lacks c) MONTH_ABBR = true
  /\ forallb (lacks c) DAY_ABBR = true.
Proof.
  unfold unprinted in Hc.
  apply andb_prop in Hc. destruct Hc as [H Hday].
  apply andb_prop in H. destruct H as [H Hmon].
  apply andb_prop in H. destruct H as [H Hpct].
  apply andb_prop in H. destruct H as [Hdig Hminus].
  repeat split; try assumption.
  intros d Hd. apply negb_true_iff.
  apply (check_range_spec (digit_differs c) 10 0 Hdig). lia.
Qed.

Lemma lacks_str_digits (fuel : nat) :
  forall n acc,
    0 <= n -> lacks c acc = true -> lacks c (str_digits fuel n acc) = true.
Proof.
  destruct unprinted_facts as (Hdig & _).
  induction fuel as [| fuel IH]; intros n acc Hn Hacc; cbn [str_digits];
    [exact Hacc |].
  assert (Hd : lacks c (String (digit (n mod 10)) acc) = true).
  { cbn [lacks]. rewrite Hacc, andb_true_r. apply negb_true_iff.
    apply Hdig. apply Z.mod_pos_bound. lia. }
  destruct (n / 10 =? 0); [exact Hd |].
  apply IH; [apply Z.div_pos; lia | exact Hd].
Qed.

Lemma lacks_str (n : Z) : lacks c (str n) = true.
Proof.
  destruct unprinted_facts as (_ & Hminus & _).
  unfold str. destruct (Z.ltb_spec n 0).
  - rewrite lacks_app, Hminus. cbn [andb].
    apply lacks_str_digits; [lia | reflexivity].
  - apply lacks_str_digits; [lia | reflexivity].
Qed.

Lemma lacks_pad2 (n : Z) : lacks c (pad2 n) = true.
Proof.
  unfold pad2. destruct ((0 <=? n) && (n <? 10)); [| apply lacks_str].
  rewrite lacks_app, lacks_str, andb_true_r.
  destruct unprinted_facts as (Hdig & _).
  cbn [lacks]. rewrite andb_true_r. apply negb_true_iff.
  exact (Hdig 0 ltac:(lia)).
Qed.

Lemma lacks_directive (dt : datetime) (x : ascii) :
  Ascii.eqb x c = false -> lacks c (directive dt x) = true.
Proof.
  intros Hx. destruct unprinted_facts as (_ & _ & Hpct & Hmon & Hday).
  assert (Hdefault : lacks c (String "%" (String x EmptyString)) = true).
  { cbn [lacks] in *. rewrite Hx. rewrite andb_true_r in Hpct.
    rewrite Hpct. reflexivity. }
  unfold directive.
  destruct x as [[] [] [] [] [] [] [] []];
    try exact Hdefault;
    first [ apply lacks_pad2 | apply lacks_str
          | apply lacks_nth; assumption | exact Hpct ].
Qed.

Lemma lacks_strftime (dt : datetime) (fmt : string) :
  lacks c fmt = true -> lacks c (strftime dt fmt) = true.
Proof.
  assert (H : forall n f, (String.length f <= n)%nat ->
                          lacks c f = true -> lacks c (strftime dt f) = true).
  { induction n as [| n IH]; intros f Hlen Hf.
    - destruct f; [reflexivity | cbn in Hlen; lia].
    - destruct f as [| a f]; [reflexivity |].
      cbn [lacks] in Hf. apply andb_prop in Hf. destruct Hf as [Ha Hf].
      assert (Hplain : lacks c (String a (strftime dt f)) = true).
      { cbn [lacks]. rewrite Ha. cbn [andb].
        apply IH; [cbn in Hlen; lia | exact Hf]. }
      destruct (Ascii.eqb_spec a "%"%char) as [-> | Hne].
      + destruct f as [| x f]; [exact Hplain |].
        cbn [strftime]. cbn [lacks] in Hf. apply andb_prop in Hf.
        destruct Hf as [Hx Hf]. rewrite lacks_app.
        rewrite lacks_directive by (apply negb_true_iff in Hx; exact Hx).
        apply IH; [cbn in Hlen; lia | exact Hf].
      + cbn [strftime].
        destruct a as [[] [] [] [] [] [] [] []]; try exact Hplain.
        now elim Hne. }
  intros Hf. exact (H (String.length fmt) fmt (le_n _) Hf).
Qed.

End Byte.

End Lacks.

Import Lacks.

Module GeoExtract.

Lemma unprinted_underscore : unprinted UNDERSCORE = true.
Proof. reflexivity. Qed.

(** The country key does not start where the fourth byte is no
    underscore. *)
Lemma country_key_needs_underscore (a b c d : ascii) (s : string) :
  Ascii.eqb d UNDERSCORE = false ->
  prefix GEO_COUNTRY_KEY (String a (String b (String c (String d s)))) = false.
Proof.
  intros Hd. unfold GEO_COUNTRY_KEY. cbn [append prefix].
  repeat (match goal with
          | |- context [ascii_dec ?x ?y] =>
              destruct (ascii_dec x y) as [<- | _]; [| reflexivity]
          end).
  discriminate Hd.
Qed.

Lemma country_key_not_early (x : ascii) (pre rest : string) :
  lacks UNDERSCORE (String x pre) = true ->
  prefix GEO_COUNTRY_KEY (String x (pre ++ GEO_COUNTRY_KEY ++ rest)) = false.
Proof.
  intros H. cbn [lacks] in H. apply andb_prop in H. destruct H as [_ H].
  destruct pre as [| a [| b [| c pre]]]; cbn [append];
    try (unfold GEO_COUNTRY_KEY at 2; cbn [append];
         apply country_key_needs_underscore; reflexivity).
  apply country_key_needs_underscore.
  cbn [lacks] in H.
  apply andb_prop in H. destruct H as [_ H].
  apply andb_prop in H. destruct H as [_ H].
  apply andb_prop in H. destruct H as [H _].
  apply negb_true_iff in H. exact H.
Qed.

Lemma find_after_country_key (pre rest : string) :
  lacks UNDERSCORE pre = true ->
  find_after GEO_COUNTRY_KEY (pre ++ GEO_COUNTRY_KEY ++ rest) = Some rest.
Proof.
  induction pre as [| x pre IH]; intros H.
  - cbn [append].
    destruct (GEO_COUNTRY_KEY ++ rest) eqn:E; cbn [find_after];
      rewrite <- E, prefix_app; reflexivity.
  - cbn [append find_after]. rewrite (country_key_not_early x pre rest H).
    apply IH. cbn [lacks] in H. apply andb_prop in H. apply H.
Qed.

Lemma take_until_quote_app (taken rest : string) :
  lacks QUOTE taken = true ->
  take_until_quote (taken ++ String QUOTE rest) = Some (taken, rest).
Proof.
  induction taken as [| x taken IH]; intros H; cbn [append take_until_quote].
  - reflexivity.
  - cbn [lacks] in H. apply andb_prop in H. destruct H as [Hx H].
    apply negb_true_iff in Hx. rewrite Hx.
    rewrite (IH H). reflexivity.
Qed.

(** Extraction reads the tag back from any line whose text before the tag
    holds no underscore, when neither value holds a quote. *)
Lemma extract_geo_tag (pre country city : string) :
  lacks UNDERSCORE pre = true ->
  lacks QUOTE country = true ->
  lacks QUOTE city = true ->
  extract_geo (pre ++ geo_tag country city) = Some (country, city).
Proof.
  intros Hpre Hcountry Hcity. unfold extract_geo, geo_tag.
  change ("geo_country=" ++ dq ++ country ++ dq ++ " geo_city=" ++ dq
          ++ city ++ dq)
    with (GEO_COUNTRY_KEY
          ++ country ++ String QUOTE (GEO_CITY_KEY ++ city
                                      ++ String QUOTE EmptyString)).
  rewrite (find_after_country_key _ _ Hpre).
  rewrite (take_until_quote_app _ _ Hcountry).
  rewrite prefix_app.
  change (drop (String.length GEO_CITY_KEY)
            (GEO_CITY_KEY ++ city ++ String QUOTE EmptyString))
    with (city ++ String QUOTE EmptyString).
  rewrite (take_until_quote_app _ _ Hcity). reflexivity.
Qed.

Lemma extract_geo_bare_tag (country city : string) :
  lacks QUOTE country = true ->
  lacks QUOTE city = true ->
  extract_geo (geo_tag country city) = Some (country, city).
Proof. exact (extract_geo_tag EmptyString country city eq_refl). Qed.

Lemma locations_unquoted :
  Forall (fun loc => forallb (lacks QUOTE) (split loc ", ") = true)
    GEOGRAPHIC_LOCATIONS.
Proof. repeat constructor. Qed.

Lemma locations_once (loc : string) :
  In loc GEOGRAPHIC_LOCATIONS ->
  count_occ string_dec GEOGRAPHIC_LOCATIONS loc = 1%nat.
Proof. exact (proj1 (NoDup_count_occ' string_dec _) locations_nodup loc). Qed.

Lemma returns_get_random_ip_plain :
  returns get_random_ip (fun s => lacks UNDERSCORE s = true).
Proof.
  intros w _. rewrite get_random_ip_run.
  destruct (float_lt (unit_float (word w 0)) CHANCE_HIGH_FREQ);
    do 2 eexists; (split; [reflexivity |]);
    (split; [apply frame_advance |]).
  - apply (lacks_in UNDERSCORE HIGH_FREQ_IPS); [reflexivity |].
    apply (choice_in (word w 1) HIGH_FREQ_IPS). discriminate.
  - unfold join. cbn [concat].
    rewrite !lacks_app, !(lacks_str UNDERSCORE unprinted_underscore).
    reflexivity.
Qed.

Lemma returns_incident_or_random_ip_plain :
  returns incident_or_random_ip (fun s => lacks UNDERSCORE s = true).
Proof.
  unfold incident_or_random_ip.
  apply (returns_bind _ _ _ _ returns_random_random). intros p _.
  destruct (float_lt p float_0_15);
    [apply returns_ret; reflexivity | apply returns_get_random_ip_plain].
Qed.

Lemma returns_split_location_unquoted (loc : string) :
  In loc GEOGRAPHIC_LOCATIONS ->
  returns (split_location loc)
    (fun cc => lacks QUOTE (fst cc) = true /\ lacks QUOTE (snd cc) = true).
Proof.
  intros Hin.
  destruct (proj1 (Forall_forall _ _) locations_split loc Hin)
    as (country & city & Hs).
  pose proof (proj1 (Forall_forall _ _) locations_unquoted loc Hin) as Hc.
  cbv beta in Hc. rewrite (proj1 Hs) in Hc.
  unfold split_location. rewrite (proj1 Hs). cbn [unpack2].
  apply returns_lift. cbn [fst snd].
  cbn [forallb] in Hc. apply andb_prop in Hc. destruct Hc as [H1 H2].
  apply andb_prop in H2. destruct H2 as [H2 _]. split; assumption.
Qed.

(** The text before the tag holds no underscore when the drawn fields hold
    none. *)
Ltac plain_line :=
  cbn [access_ip access_timestamp access_method access_endpoint
       access_status access_size access_country access_city
       error_timestamp error_severity error_ip error_msg error_country
       error_city firewall_timestamp firewall_hostname firewall_ip
       firewall_action firewall_country firewall_city windows_timestamp
       windows_hostname windows_event_id windows_msg windows_ip
       windows_username windows_country windows_city];
  rewrite <- !append_assoc;
  apply extract_geo_tag; [| assumption | assumption];
  rewrite ?lacks_app, ?(lacks_str UNDERSCORE unprinted_underscore),
    ?(lacks_strftime UNDERSCORE unprinted_underscore) by reflexivity;
  repeat match goal with
         | H : lacks UNDERSCORE ?s = true |- _ => rewrite H; clear H
         end;
  reflexivity.

Lemma access_line_extracts :
  returns draw_access_fields
    (fun r => extract_geo (format_access r)
              = Some (access_country r, access_city r)).
Proof.
  unfold draw_access_fields.
  draw_step returns_get_random_datetime. intros dt _.
  draw_step returns_incident_or_random_ip_plain. intros ip Hip.
  draw_step (returns_choice HTTP_METHODS); [discriminate |].
  intros method Hmethod.
  apply (lacks_in UNDERSCORE HTTP_METHODS _ eq_refl) in Hmethod.
  draw_step (returns_choice ENDPOINTS); [discriminate |].
  intros endpoint Hendpoint.
  apply (lacks_in UNDERSCORE ENDPOINTS _ eq_refl) in Hendpoint.
  draw_step returns_base_status_code. intros st _.
  draw_step returns_incident_override. intros st' _.
  draw_step (returns_randint 512 524288); [lia |]. intros size _.
  draw_step returns_get_random_location. intros loc Hin.
  draw_step (returns_split_location_unquoted loc Hin). intros cc (Hc1 & Hc2).
  apply returns_ret. unfold format_access. plain_line.
Qed.

Lemma error_line_extracts :
  returns draw_error_fields
    (fun r => extract_geo (format_error r)
              = Some (error_country r, error_city r)).
Proof.
  unfold draw_error_fields.
  draw_step returns_get_random_datetime. intros dt _.
  draw_step returns_get_random_ip_plain. intros ip Hip.
  draw_step (returns_choice ERROR_SEVERITIES); [discriminate |].
  intros sev Hsev.
  apply (lacks_in UNDERSCORE ERROR_SEVERITIES _ eq_refl) in Hsev.
  draw_step (returns_choice ERROR_MESSAGES); [discriminate |].
  intros msg Hmsg.
  apply (lacks_in UNDERSCORE ERROR_MESSAGES _ eq_refl) in Hmsg.
  draw_step returns_get_random_location. intros loc Hin.
  draw_step (returns_split_location_unquoted loc Hin). intros cc (Hc1 & Hc2).
  apply returns_ret. unfold format_error. plain_line.
Qed.

Lemma firewall_line_extracts :
  returns draw_firewall_fields
    (fun r => extract_geo (format_firewall r)
              = Some (firewall_country r, firewall_city r)).
Proof.
  unfold draw_firewall_fields.
  draw_step returns_get_random_datetime. intros dt _.
  draw_step returns_get_random_ip_plain. intros ip Hip.
  draw_step (returns_choice FIREWALL_ACTIONS); [discriminate |].
  intros act Hact.
  apply (lacks_in UNDERSCORE FIREWALL_ACTIONS _ eq_refl) in Hact.
  draw_step returns_get_random_location. intros loc Hin.
  draw_step (returns_split_location_unquoted loc Hin). intros cc (Hc1 & Hc2).
  apply returns_ret. unfold format_firewall. plain_line.
Qed.

Lemma messages_plain (id : Z) (msg : string) :
  dict_get messages_map id = Ok msg -> lacks UNDERSCORE msg = true.
Proof.
  unfold messages_map. cbn [dict_get].
  repeat (destruct (_ =? id);
          [intros H; injection H as <-; reflexivity |]).
  discriminate.
Qed.

Lemma windows_line_extracts :
  returns draw_windows_fields
    (fun r => extract_geo (format_windows r)
              = Some (windows_country r, windows_city r)).
Proof.
  unfold draw_windows_fields.
  draw_step returns_get_random_datetime. intros dt _.
  draw_step (returns_choice WINDOWS_EVENT_IDS); [discriminate |].
  intros id Hid.
  destruct (proj1 (Forall_forall _ _) messages_defined id Hid) as (m & Hm).
  rewrite Hm.
  draw_step (returns_lift m (fun x => x = m)); [reflexivity |].
  intros msg ->.
  draw_step returns_get_random_location. intros loc Hin.
  draw_step (returns_split_location_unquoted loc Hin). intros cc (Hc1 & Hc2).
  draw_step returns_incident_or_random_ip_plain. intros ip Hip.
  draw_step (returns_choice FAKE_USERNAMES); [discriminate |].
  intros user Huser.
  apply (lacks_in UNDERSCORE FAKE_USERNAMES _ eq_refl) in Huser.
  apply returns_ret.
  pose proof (messages_plain id m Hm) as Hplain.
  unfold format_windows. plain_line.
Qed.

(** A line tagged with the geo tag of a list entry, from which extraction
    reads that tag back, makes the round trip. *)
Lemma round_trip_of_tagged (line country city : string) :
  geo_tagged line country city ->
  extract_geo line = Some (country, city) ->
  geo_round_trip line.
Proof.
  intros ((pre & Hline) & loc & Hin & Hsplit & Hjoin) Hx.
  exists pre, country, city.
  split; [exact Hline |]. split; [exact Hx |].
  rewrite Hjoin. split; [exact (locations_once loc Hin) | exact Hsplit].
Qed.

Lemma locations_round_trip :
  Forall location_round_trip GEOGRAPHIC_LOCATIONS.
Proof.
  apply Forall_forall. intros loc Hin.
  destruct (proj1 (Forall_forall _ _) locations_split loc Hin)
    as (country & city & Hs).
  pose proof (proj1 (Forall_forall _ _) locations_unquoted loc Hin) as Hc.
  cbv beta in Hc. rewrite (proj1 Hs) in Hc.
  cbn [forallb] in Hc. apply andb_prop in Hc. destruct Hc as [H1 H2].
  apply andb_prop in H2. destruct H2 as [H2 _].
  exists country, city. split; [exact Hs |].
  exact (extract_geo_bare_tag country city H1 H2).
Qed.

End GeoExtract.

Import GeoExtract.

(** C6. Every generated line of each of the four kinds ends with the text
    [geo_country="X" geo_city="Y"]; extracting from the line what stands
    between the quotes after the first [geo_country=] and after the
    [geo_city=] that follows gives back that [X] and that [Y]; recombined as
    ["X, Y"] they are an entry of [GEOGRAPHIC_LOCATIONS], and occur in the
    list exactly once; that entry splits on [", "] into exactly [X] and
    [Y], the country and the city of the record.  The entries are pairwise
    distinct, every entry splits into a country and a city that joined again
    give the entry, and the tag rendered from them is read back by
    extraction as the same country and city. *)
Theorem geo_tag_round_trip (w : World) :
  clock_ok w ->
  (exists r w',
     draw_access_fields w = (Ok r, w')
     /\ generate_apache_access_log w = (Ok (format_access r), w')
     /\ geo_tagged (format_access r) (access_country r) (access_city r)
     /\ extract_geo (format_access r)
        = Some (access_country r, access_city r)
     /\ geo_round_trip (format_access r))
  /\ (exists r w',
        draw_error_fields w = (Ok r, w')
        /\ generate_apache_error_log w = (Ok (format_error r), w')
        /\ geo_tagged (format_error r) (error_country r) (error_city r)
        /\ extract_geo (format_error r)
           = Some (error_country r, error_city r)
        /\ geo_round_trip (format_error r))
  /\ (exists r w',
        draw_firewall_fields w = (Ok r, w')
        /\ generate_firewall_log w = (Ok (format_firewall r), w')
        /\ geo_tagged (format_firewall r) (firewall_country r)
             (firewall_city r)
        /\ extract_geo (format_firewall r)
           = Some (firewall_country r, firewall_city r)
        /\ geo_round_trip (format_firewall r))
  /\ (exists r w',
        draw_windows_fields w = (Ok r, w')
        /\ generate_windows_log w = (Ok (format_windows r), w')
        /\ geo_tagged (format_windows r) (windows_country r)
             (windows_city r)
        /\ extract_geo (format_windows r)
           = Some (windows_country r, windows_city r)
        /\ geo_round_trip (format_windows r))
  /\ NoDup GEOGRAPHIC_LOCATIONS
  /\ Forall (fun loc => exists country city, splits_in_two loc country city)
       GEOGRAPHIC_LOCATIONS
  /\ Forall location_round_trip GEOGRAPHIC_LOCATIONS.
Proof.
  intros Hw. repeat apply conj.
  - destruct (returns_draw_access_fields w Hw) as (r & w' & E & _ & G & _).
    destruct (access_line_extracts w Hw) as (r2 & w2 & E2 & _ & X).
    rewrite E in E2. injection E2 as <- <-.
    assert (T : geo_tagged (format_access r) (access_country r)
                  (access_city r))
      by (split; [apply format_access_tail | exact G]).
    exists r, w'. split; [exact E |].
    split; [exact (generate_access_run _ _ _ E) |].
    split; [exact T |]. split; [exact X |].
    exact (round_trip_of_tagged _ _ _ T X).
  - destruct (returns_draw_error_fields w Hw) as (r & w' & E & _ & G & _).
    destruct (error_line_extracts w Hw) as (r2 & w2 & E2 & _ & X).
    rewrite E in E2. injection E2 as <- <-.
    assert (T : geo_tagged (format_error r) (error_country r)
                  (error_city r))
      by (split; [apply format_error_tail | exact G]).
    exists r, w'. split; [exact E |].
    split; [exact (generate_error_run _ _ _ E) |].
    split; [exact T |]. split; [exact X |].
    exact (round_trip_of_tagged _ _ _ T X).
  - destruct (returns_draw_firewall_fields w Hw) as (r & w' & E & _ & G & _).
    destruct (firewall_line_extracts w Hw) as (r2 & w2 & E2 & _ & X).
    rewrite E in E2. injection E2 as <- <-.
    assert (T : geo_tagged (format_firewall r) (firewall_country r)
                  (firewall_city r))
      by (split; [apply format_firewall_tail | exact G]).
    exists r, w'. split; [exact E |].
    split; [exact (generate_firewall_run _ _ _ E) |].
    split; [exact T |]. split; [exact X |].
    exact (round_trip_of_tagged _ _ _ T X).
  - destruct (returns_draw_windows_fields w Hw) as (r & w' & E & _ & G & _).
    destruct (windows_line_extracts w Hw) as (r2 & w2 & E2 & _ & X).
    rewrite E in E2. injection E2 as <- <-.
    assert (T : geo_tagged (format_windows r) (windows_country r)
                  (windows_city r))
      by (split; [apply format_windows_tail | exact G]).
    exists r, w'. split; [exact E |].
    split; [exact (generate_windows_run _ _ _ E) |].
    split; [exact T |]. split; [exact X |].
    exact (round_trip_of_tagged _ _ _ T X).
  - exact locations_nodup.
  - exact locations_split.
  - exact locations_round_trip.
Qed.

Lemma clock_ok_world_of (words : list N) (fs : string -> option string) :
  clock_ok (world_of words sample_now fs).
Proof. intros i. split; vm_compute; reflexivity. Qed.

(** The error line of the all-zero tape: extraction reads its tag back. *)
Lemma geo_tag_round_trip_witness :
  exists r w',
    draw_error_fields (world_of [] sample_now no_files) = (Ok r, w')
    /\ generate_apache_error_log (world_of [] sample_now no_files)
       = (Ok (format_error r), w')
    /\ geo_tagged (format_error r) (error_country r) (error_city r)
    /\ extract_geo (format_error r) = Some (error_country r, error_city r)
    /\ geo_round_trip (format_error r).
Proof.
  exact (proj1 (proj2 (geo_tag_round_trip (world_of [] sample_now no_files)
                         (clock_ok_world_of [] no_files)))).
Defined.




(** C7. Under a sound clock each of the four generators returns a line and
    raises nothing, whatever the tape of draws: every list a choice is made
    from is non-empty, every [randint] range is non-empty, the status
    selection always assigns a status (the loop leaves it unassigned exactly
    for the percentiles above 95, where the choice among the non-empty
    [OTHER_CODES] assigns one), every location splits on [", "] into exactly
    two parts, and the message lookup is defined for every event id that can
    be drawn. *)
Theorem generators_total (w : World) :
  clock_ok w ->
  (exists line w', generate_apache_access_log w = (Ok line, w'))
  /\ (exists line w', generate_apache_error_log w = (Ok line, w'))
  /\ (exists line w', generate_firewall_log w = (Ok line, w'))
  /\ (exists line w', generate_windows_log w = (Ok line, w'))
  /\ (HIGH_FREQ_IPS <> [] /\ GEOGRAPHIC_LOCATIONS <> [] /\ HTTP_METHODS <> []
      /\ ENDPOINTS <> [] /\ OTHER_CODES <> [] /\ ERROR_SEVERITIES <> []
      /\ ERROR_MESSAGES <> [] /\ FIREWALL_ACTIONS <> []
      /\ WINDOWS_EVENT_IDS <> [] /\ FAKE_USERNAMES <> [])
  /\ (exists code w', base_status_code w = (Ok code, w'))
  /\ (forall d,
        status_loop HTTP_STATUS_CODES_DISTRIBUTION d 0 = None <-> 95 < d)
  /\ Forall (fun loc => exists country city, split loc ", " = [country; city])
       GEOGRAPHIC_LOCATIONS
  /\ Forall (fun id => exists msg, dict_get messages_map id = Ok msg)
       WINDOWS_EVENT_IDS.
Proof.
  intros Hw. repeat apply conj; try discriminate.
  - destruct (returns_draw_access_fields w Hw) as (r & w' & E & _).
    do 2 eexists. exact (generate_access_run _ _ _ E).
  - destruct (returns_draw_error_fields w Hw) as (r & w' & E & _).
    do 2 eexists. exact (generate_error_run _ _ _ E).
  - destruct (returns_draw_firewall_fields w Hw) as (r & w' & E & _).
    do 2 eexists. exact (generate_firewall_run _ _ _ E).
  - destruct (returns_draw_windows_fields w Hw) as (r & w' & E & _).
    do 2 eexists. exact (generate_windows_run _ _ _ E).
  - destruct (returns_base_status_code w Hw) as (c & w' & E & _).
    do 2 eexists. exact E.
  - intros d. rewrite status_loop_table.
    destruct (Z.leb_spec d 80); destruct (Z.leb_spec d 90);
      destruct (Z.leb_spec d 95); split; intros;
      first [lia | discriminate | reflexivity].
  - eapply Forall_impl; [| exact locations_split].
    intros loc (country & city & Hs & _). eauto.
  - exact messages_defined.
Qed.

Lemma generators_total_witness :
  exists line w',
    generate_apache_access_log (world_of [] sample_now no_files)
    = (Ok line, w').
Proof.
  exact (proj1 (generators_total (world_of [] sample_now no_files)
                  (clock_ok_world_of [] no_files))).
Defined.

Module Writer.

Lemma files_set_file_same (name content : string) (w : World) :
  files (set_file name content w) name = Some content.
Proof. cbn. rewrite String.eqb_refl. reflexivity. Qed.

Lemma files_set_file_other (name content other : string) (w : World) :
  String.eqb other name = false ->
  files (set_file name content w) other = files w other.
Proof. intros H. cbn. rewrite H. reflexivity. Qed.

Lemma clock_ok_set_file (name content : string) (w : World) :
  clock_ok w -> clock_ok (set_file name content w).
Proof. intros H i. exact (H i). Qed.

Lemma write_lines_spec (name : string) (gen : M string) (P : string -> Prop)
  (n : nat) :
  returns gen P ->
  forall (w : World) (old : string),
    clock_ok w -> files w name = Some old ->
    exists lines w',
      write_lines name gen n w = (Ok tt, w')
      /\ clock_ok w'
      /\ List.length lines = n
      /\ Forall P lines
      /\ files w' name = Some (old ++ lines_text lines)
      /\ (forall other, String.eqb other name = false ->
                        files w' other = files w other)
      /\ stdout w' = stdout w.
Proof.
  intros Hgen. induction n as [| n IH]; intros w old Hw Hold.
  - exists [], w. cbn [write_lines lines_text List.length].
    rewrite append_nil_r.
    split; [reflexivity |]. split; [exact Hw |]. repeat split; auto.
  - destruct (Hgen w Hw) as (line & w1 & E1 & F1 & Pl).
    pose proof (clock_ok_frame _ _ F1 Hw) as Hw1.
    destruct F1 as (_ & _ & Hf1 & Ho1).
    set (w2 := set_file name (old ++ line ++ nl) w1).
    destruct (IH w2 (old ++ line ++ nl)
                (clock_ok_set_file _ _ _ Hw1) (files_set_file_same _ _ _))
      as (rest & w' & E & Hw' & Hlen & HP & Hfile & Hother & Hout).
    exists (line :: rest), w'. cbn [write_lines]. unfold bind at 1.
    rewrite E1. unfold bind at 1, file_write at 1.
    rewrite Hf1, Hold. fold w2. rewrite E.
    split; [reflexivity |]. split; [exact Hw' |].
    split; [cbn [List.length]; now rewrite Hlen |].
    split; [constructor; assumption |].
    split.
    + rewrite Hfile. cbn [lines_text]. now rewrite !append_assoc.
    + split.
      * intros other Hne. rewrite (Hother other Hne).
        unfold w2. rewrite (files_set_file_other _ _ _ _ Hne), Hf1.
        reflexivity.
      * rewrite Hout. exact Ho1.
Qed.

Lemma write_log_file_spec (name : string) (gen : M string)
  (P : string -> Prop) (n : nat) (w : World) :
  returns gen P -> clock_ok w ->
  exists lines w',
    write_log_file name gen n w = (Ok tt, w')
    /\ clock_ok w'
    /\ List.length lines = n
    /\ Forall P lines
    /\ files w' name = Some (lines_text lines)
    /\ (forall other, String.eqb other name = false ->
                      files w' other = files w other)
    /\ stdout w' = stdout w.
Proof.
  intros Hgen Hw.
  destruct (write_lines_spec name gen P n Hgen (set_file name EmptyString w) EmptyString
              (clock_ok_set_file _ _ _ Hw) (files_set_file_same _ _ _))
    as (lines & w' & E & Hw' & Hlen & HP & Hfile & Hother & Hout).
  exists lines, w'. unfold write_log_file, bind, open_w. rewrite E.
  split; [reflexivity |]. split; [exact Hw' |].
  repeat split; try assumption.
  intros other Hne. rewrite (Hother other Hne).
  apply files_set_file_other. exact Hne.
Qed.

Lemma count_newlines_app (a b : string) :
  count_newlines (a ++ b) = (count_newlines a + count_newlines b)%nat.
Proof.
  induction a as [| c a IH]; cbn [append count_newlines]; [reflexivity |].
  destruct (Ascii.eqb c "010"%char); rewrite IH; reflexivity.
Qed.

Lemma count_newlines_clean (s : string) :
  no_newline s = true -> count_newlines s = O.
Proof.
  induction s as [| c s IH]; cbn [no_newline count_newlines];
    [reflexivity |].
  intros H. apply andb_prop in H. destruct H as [Hc Hs].
  apply negb_true_iff in Hc. rewrite Hc. exact (IH Hs).
Qed.

Lemma count_newlines_lines_text (gen : M string) (lines : list string) :
  Forall (written_line gen) lines ->
  count_newlines (lines_text lines) = List.length lines.
Proof.
  induction 1 as [| line rest [_ Hclean] _ IH]; [reflexivity |].
  cbn [lines_text List.length].
  rewrite !count_newlines_app, (count_newlines_clean _ Hclean), IH.
  reflexivity.
Qed.

Lemma returns_generate_access :
  returns generate_apache_access_log (written_line generate_apache_access_log).
Proof.
  intros w Hw.
  destruct (returns_draw_access_fields w Hw) as (r & w' & E & F & _ & C).
  pose proof (generate_access_run _ _ _ E) as G.
  exists (format_access r), w'. repeat split; try apply F; try assumption.
  exists w, w'. exact G.
Qed.

Lemma returns_generate_error :
  returns generate_apache_error_log (written_line generate_apache_error_log).
Proof.
  intros w Hw.
  destruct (returns_draw_error_fields w Hw) as (r & w' & E & F & _ & C).
  pose proof (generate_error_run _ _ _ E) as G.
  exists (format_error r), w'. repeat split; try apply F; try assumption.
  exists w, w'. exact G.
Qed.

Lemma returns_generate_firewall :
  returns generate_firewall_log (written_line generate_firewall_log).
Proof.
  intros w Hw.
  destruct (returns_draw_firewall_fields w Hw) as (r & w' & E & F & _ & C).
  pose proof (generate_firewall_run _ _ _ E) as G.
  exists (format_firewall r), w'. repeat split; try apply F; try assumption.
  exists w, w'. exact G.
Qed.

Lemma returns_generate_windows :
  returns generate_windows_log (written_line generate_windows_log).
Proof.
  intros w Hw.
  destruct (returns_draw_windows_fields w Hw)
    as (r & w' & E & F & _ & _ & _ & C).
  pose proof (generate_windows_run _ _ _ E) as G.
  exists (format_windows r), w'. repeat split; try apply F; try assumption.
  exists w, w'. exact G.
Qed.

(** One [with open(...)] block of [main]. *)
Lemma write_log_file_holds (name : string) (gen : M string) (n : nat)
  (w : World) :
  returns gen (written_line gen) -> clock_ok w ->
  exists w',
    write_log_file name gen n w = (Ok tt, w')
    /\ clock_ok w'
    /\ holds_lines w' name gen n
    /\ (forall other, String.eqb other name = false ->
                      files w' other = files w other).
Proof.
  intros Hgen Hw.
  destruct (write_log_file_spec name gen _ n w Hgen Hw)
    as (lines & w' & E & Hw' & Hlen & HP & Hfile & Hother & _).
  exists w'. split; [exact E |]. split; [exact Hw' |].
  split; [| exact Hother].
  exists lines. split; [exact Hlen |]. split; [exact HP |].
  split; [exact Hfile |].
  rewrite (count_newlines_lines_text gen lines HP). exact Hlen.
Qed.

Lemma holds_lines_files (w w' : World) (name : string) (gen : M string)
  (n : nat) :
  files w' name = files w name ->
  holds_lines w name gen n -> holds_lines w' name gen n.
Proof.
  intros Hf (lines & Hlen & HP & Hfile & Hcount).
  exists lines. rewrite Hf. auto.
Qed.

Lemma holds_no_lines (w : World) (name : string) (gen : M string) :
  holds_lines w name gen 0 -> files w name = Some EmptyString.
Proof.
  intros (lines & Hlen & _ & Hfile & _).
  destruct lines; [exact Hfile | discriminate].
Qed.

End Writer.

Import Writer.

(** C4. For each of the four kinds, [main] leaves in the file of that kind
    exactly the configured count of generated lines, each followed by a line
    feed (the lines hold none, so the file has that many lines), whatever
    the file held before; with a count of 0 the file exists and is empty. *)
Theorem output_writer
  (num_access num_error num_firewall num_windows : nat) (w : World) :
  clock_ok w ->
  exists w',
    main_with num_access num_error num_firewall num_windows w = (Ok tt, w')
    /\ holds_lines w' "apache_access.txt" generate_apache_access_log
         num_access
    /\ holds_lines w' "apache_error.txt" generate_apache_error_log num_error
    /\ holds_lines w' "firewall_logs.txt" generate_firewall_log num_firewall
    /\ holds_lines w' "windows_logs.txt" generate_windows_log num_windows
    /\ (num_access = O -> files w' "apache_access.txt" = Some EmptyString)
    /\ (num_error = O -> files w' "apache_error.txt" = Some EmptyString)
    /\ (num_firewall = O -> files w' "firewall_logs.txt" = Some EmptyString)
    /\ (num_windows = O -> files w' "windows_logs.txt" = Some EmptyString).
Proof.
  intros Hw.
  destruct (write_log_file_holds "apache_access.txt" _ num_access w
              returns_generate_access Hw) as (w1 & E1 & Hw1 & H1 & _).
  destruct (write_log_file_holds "apache_error.txt" _ num_error w1
              returns_generate_error Hw1) as (w2 & E2 & Hw2 & H2 & O2).
  destruct (write_log_file_holds "firewall_logs.txt" _ num_firewall w2
              returns_generate_firewall Hw2) as (w3 & E3 & Hw3 & H3 & O3).
  destruct (write_log_file_holds "windows_logs.txt" _ num_windows w3
              returns_generate_windows Hw3) as (w4 & E4 & Hw4 & H4 & O4).
  assert (A : holds_lines w4 "apache_access.txt" generate_apache_access_log
                num_access).
  { apply (holds_lines_files w1); [| exact H1].
    rewrite (O4 "apache_access.txt" eq_refl),
      (O3 "apache_access.txt" eq_refl), (O2 "apache_access.txt" eq_refl).
    reflexivity. }
  assert (B : holds_lines w4 "apache_error.txt" generate_apache_error_log
                num_error).
  { apply (holds_lines_files w2); [| exact H2].
    rewrite (O4 "apache_error.txt" eq_refl), (O3 "apache_error.txt" eq_refl).
    reflexivity. }
  assert (C : holds_lines w4 "firewall_logs.txt" generate_firewall_log
                num_firewall).
  { apply (holds_lines_files w3); [| exact H3].
    rewrite (O4 "firewall_logs.txt" eq_refl). reflexivity. }
  eexists. split.
  { unfold main_with. unfold bind at 1. rewrite E1.
    unfold bind at 1. rewrite E2. unfold bind at 1. rewrite E3.
    unfold bind at 1. rewrite E4. cbv [bind print].
    cbn [rand_tape rand_pos clock_tape clock_pos files stdout].
    reflexivity. }
  split; [apply (holds_lines_files w4); [reflexivity | exact A] |].
  split; [apply (holds_lines_files w4); [reflexivity | exact B] |].
  split; [apply (holds_lines_files w4); [reflexivity | exact C] |].
  split; [apply (holds_lines_files w4); [reflexivity | exact H4] |].
  cbn [files].
  repeat split; intros ->; eapply holds_no_lines; eassumption.
Qed.

(** A run that writes two access lines, no error line, one firewall line and
    one Windows line over files that held other text. *)
Lemma output_writer_witness :
  exists w',
    main_with 2 0 1 1 (world_of [] sample_now (fun _ => Some "old"))
    = (Ok tt, w')
    /\ holds_lines w' "apache_access.txt" generate_apache_access_log 2
    /\ holds_lines w' "apache_error.txt" generate_apache_error_log 0
    /\ holds_lines w' "firewall_logs.txt" generate_firewall_log 1
    /\ holds_lines w' "windows_logs.txt" generate_windows_log 1
    /\ (2%nat = O -> files w' "apache_access.txt" = Some EmptyString)
    /\ (0%nat = O -> files w' "apache_error.txt" = Some EmptyString)
    /\ (1%nat = O -> files w' "firewall_logs.txt" = Some EmptyString)
    /\ (1%nat = O -> files w' "windows_logs.txt" = Some EmptyString).
Proof.
  exact (output_writer 2 0 1 1 (world_of [] sample_now (fun _ => Some "old"))
           (clock_ok_world_of [] _)).
Defined.

(** * Further properties of the program *)

(** ** What a run that returns has done *)

Module Effects.

Lemma reads_refl (w : World) : reads 0 w w.
Proof. split; [apply frame_refl | split; [reflexivity | apply le_n]]. Qed.

Lemma reads_trans (j k : nat) (w1 w2 w3 : World) :
  reads j w1 w2 -> reads k w2 w3 -> reads (j + k) w1 w3.
Proof.
  intros (F1 & C1 & R1) (F2 & C2 & R2).
  split; [exact (frame_trans _ _ _ F1 F2) |]. split; lia.
Qed.

Lemma yields_ret {A : Type} (a : A) (P : A -> Prop) :
  P a -> yields (ret a) 0 P.
Proof.
  intros H w a' w' E. injection E as <- <-. split; [exact H | apply reads_refl].
Qed.

Lemma yields_lift {A : Type} (r : result A) (P : A -> Prop) :
  (forall a, r = Ok a -> P a) -> yields (lift r) 0 P.
Proof.
  intros H w a w' E. unfold lift in E. injection E as E <-.
  split; [exact (H a E) | apply reads_refl].
Qed.

Lemma yields_bind {A B : Type} (c : M A) (f : A -> M B) (j k : nat)
  (P : A -> Prop) (Q : B -> Prop) :
  yields c j P -> (forall a, P a -> yields (f a) k Q) ->
  yields (bind c f) (j + k) Q.
Proof.
  intros Hc Hf w b w' E.
  destruct (bind_ok_inv _ _ _ _ _ E) as (a & w1 & E1 & E2).
  destruct (Hc _ _ _ E1) as [Pa R1].
  destruct (Hf a Pa _ _ _ E2) as [Qb R2].
  split; [exact Qb | exact (reads_trans _ _ _ _ _ R1 R2)].
Qed.

Lemma yields_weaken {A : Type} (c : M A) (k : nat) (P Q : A -> Prop) :
  yields c k P -> (forall a, P a -> Q a) -> yields c k Q.
Proof. intros Hc HPQ w a w' E. destruct (Hc _ _ _ E). auto. Qed.

Lemma reads_next_word (w : World) (k : N) (w' : World) :
  next_word w = (Ok k, w') -> reads 0 w w'.
Proof.
  intros E. injection E as _ <-.
  split; [repeat split | split; [reflexivity | apply le_S, le_n]].
Qed.

Lemma yields_random_random : yields random_random 0 (fun _ => True).
Proof.
  intros w x w' E. unfold random_random in E.
  destruct (bind_ok_inv _ _ _ _ _ E) as (k & w1 & E1 & E2).
  injection E2 as _ <-. split; [exact I | exact (reads_next_word _ _ _ E1)].
Qed.

Lemma yields_randint (a b : Z) :
  yields (random_randint a b) 0 (fun x => a <= x <= b).
Proof.
  intros w x w' E. unfold random_randint in E.
  destruct (Z.ltb_spec b a) as [Hlt | Hle]; [discriminate |].
  destruct (bind_ok_inv _ _ _ _ _ E) as (k & w1 & E1 & E2).
  injection E2 as <- <-.
  split; [apply randint_range; exact Hle | exact (reads_next_word _ _ _ E1)].
Qed.

Lemma yields_choice {A : Type} (l : list A) :
  yields (random_choice l) 0 (fun x => In x l).
Proof.
  intros w x w' E. destruct l as [| y l']; [discriminate |].
  unfold random_choice in E.
  destruct (bind_ok_inv _ _ _ _ _ E) as (k & w1 & E1 & E2).
  injection E2 as <- <-.
  split; [apply (choice_in _ (y :: l')); discriminate
         | exact (reads_next_word _ _ _ E1)].
Qed.

Lemma yields_now : yields datetime_now 1 (fun _ => True).
Proof.
  intros w x w' E. injection E as _ <-.
  split; [exact I |]. split; [repeat split | split; [reflexivity | apply le_n]].
Qed.

Lemma datetime_new_valid (y m d h mi s : Z) (dt : datetime) :
  datetime_new y m d h mi s = Ok dt ->
  valid_datetime dt = true /\ microsecond dt = 0
  /\ year dt = y /\ month dt = m /\ day dt = d
  /\ hour dt = h /\ minute dt = mi /\ second dt = s.
Proof.
  unfold datetime_new.
  destruct (check_date_fields y m d && check_time_fields h mi s 0) eqn:C;
    [| discriminate].
  intros E. injection E as <-. split; [exact C |]. repeat split.
Qed.

Ltac yield_step lem :=
  eapply yields_bind; [apply lem |]; cbv beta.

Lemma yields_get_random_datetime :
  yields get_random_datetime 1
    (fun dt => valid_datetime dt = true /\ microsecond dt = 0).
Proof.
  unfold get_random_datetime.
  change 1%nat with (1 + (0 + (0 + (0 + (0 + (0 + (0 + (0 + 0))))))))%nat.
  yield_step yields_now. intros now _.
  yield_step (yields_lift (datetime_sub_td now (timedelta_days DAYS_BACK))
                (fun _ => True)); [intros; exact I |]. intros start _.
  yield_step yields_random_random. intros x _.
  yield_step (yields_lift
                (datetime_add start
                   (timedelta_mul (datetime_sub now start) x))
                (fun _ => True)); [intros; exact I |]. intros rd _.
  yield_step yields_random_random. intros p _.
  eapply yields_bind with (P := fun _ : Z => True).
  { destruct (float_lt p float_0_7).
    - eapply yields_weaken; [apply yields_randint | intros; exact I].
    - change 0%nat with (0 + 0)%nat.
      yield_step yields_random_random. intros q _.
      destruct (float_lt q float_0_5);
        (eapply yields_weaken; [apply yields_randint | intros; exact I]). }
  intros h _.
  yield_step (yields_randint 0 59). intros mi _.
  yield_step (yields_randint 0 59). intros s _.
  apply yields_lift. intros dt E.
  destruct (datetime_new_valid _ _ _ _ _ _ _ E) as (V & U & _). auto.
Qed.

End Effects.

Import Effects.

Module Domains.

Lemma incident_ip_shape : dotted_quad 0 254 INCIDENT_IP.
Proof. exists 9, 9, 9, 9. repeat split; lia. Qed.

Lemma yields_get_random_ip : yields get_random_ip 0 (dotted_quad 0 254).
Proof.
  intros w s w' E. rewrite get_random_ip_run in E.
  destruct (float_lt (unit_float (word w 0)) CHANCE_HIGH_FREQ);
    injection E as <- <-.
  - split.
    + apply (proj1 (Forall_forall _ _) high_freq_ips_shape).
      apply (choice_in (word w 1) HIGH_FREQ_IPS). discriminate.
    + split; [apply frame_advance |].
      split; [reflexivity | cbn; lia].
  - split.
    + pose proof (octet_range w 1). pose proof (octet_range w 2).
      pose proof (octet_range w 3). pose proof (octet_range w 4).
      do 4 eexists. repeat split; lia.
    + split; [apply frame_advance |].
      split; [reflexivity | cbn; lia].
Qed.

Lemma yields_incident_or_random_ip :
  yields incident_or_random_ip 0 (dotted_quad 0 254).
Proof.
  unfold incident_or_random_ip. change 0%nat with (0 + 0)%nat.
  yield_step yields_random_random. intros p _.
  destruct (float_lt p float_0_15);
    [apply yields_ret; exact incident_ip_shape | apply yields_get_random_ip].
Qed.

Lemma status_loop_in (items : list (Z * Z)) :
  forall dice cumulative code,
    status_loop items dice cumulative = Some code ->
    In code (map fst items).
Proof.
  induction items as [| [c p] items IH]; intros dice cumulative code;
    cbn [status_loop map fst]; [discriminate |].
  destruct (dice <=? cumulative + p).
  - intros E. injection E as <-. left. reflexivity.
  - intros E. right. exact (IH _ _ _ E).
Qed.

Lemma yields_base_status_code :
  yields base_status_code 0 (fun st => In st ACCESS_STATUS_CODES).
Proof.
  unfold base_status_code. change 0%nat with (0 + 0)%nat.
  yield_step (yields_randint 1 100). intros dice _.
  destruct (status_loop HTTP_STATUS_CODES_DISTRIBUTION dice 0) as [code |]
    eqn:L.
  - apply yields_ret. apply status_loop_in in L.
    unfold ACCESS_STATUS_CODES. apply in_or_app. left. exact L.
  - eapply yields_weaken; [apply yields_choice |].
    intros st H. unfold ACCESS_STATUS_CODES. apply in_or_app. right. exact H.
Qed.

Lemma yields_incident_override (ip_address : string) (status_code : Z) :
  In status_code ACCESS_STATUS_CODES ->
  yields (incident_override ip_address status_code) 0
    (fun st => In st ACCESS_STATUS_CODES).
Proof.
  intros Hin. unfold incident_override.
  destruct (String.eqb ip_address INCIDENT_IP);
    [| apply yields_ret; exact Hin].
  change 0%nat with (0 + 0)%nat.
  yield_step yields_random_random. intros p _.
  destruct (float_lt p float_0_5); apply yields_ret;
    [right; left; reflexivity | exact Hin].
Qed.

(** The two parts of a split are the parts of the string split: the string
    is the first part, the separator and the second part. *)
Lemma yields_location :
  yields get_random_location 0 (fun loc => In loc GEOGRAPHIC_LOCATIONS).
Proof. apply yields_choice. Qed.

Lemma yields_split_location (loc : string) :
  In loc GEOGRAPHIC_LOCATIONS ->
  yields (split_location loc) 0
    (fun cc => In (fst cc ++ ", " ++ snd cc) GEOGRAPHIC_LOCATIONS).
Proof.
  intros Hin. unfold split_location. apply yields_lift. intros [a b] E.
  destruct (proj1 (Forall_forall _ _) locations_split loc Hin)
    as (country & city & Hs & Hj).
  rewrite Hs in E. cbn [unpack2] in E. injection E as <- <-.
  cbn [fst snd]. rewrite Hj. exact Hin.
Qed.

Lemma yields_draw_access_fields : yields draw_access_fields 1 access_domain.
Proof.
  unfold draw_access_fields.
  change 1%nat
    with (1 + (0 + (0 + (0 + (0 + (0 + (0 + (0 + (0 + 0)))))))))%nat.
  yield_step yields_get_random_datetime. intros dt (Hv & Hu).
  yield_step yields_incident_or_random_ip. intros ip Hip.
  yield_step (yields_choice HTTP_METHODS). intros method Hmethod.
  yield_step (yields_choice ENDPOINTS). intros endpoint Hendpoint.
  yield_step yields_base_status_code. intros st Hst.
  yield_step (yields_incident_override ip st Hst). intros st' Hst'.
  yield_step (yields_randint 512 524288). intros size Hsize.
  yield_step yields_location. intros loc Hin.
  yield_step (yields_split_location loc Hin). intros cc Hcc.
  apply yields_ret. unfold access_domain, timestamp_of.
  cbn [access_ip access_timestamp access_method access_endpoint
       access_status access_size access_country access_city].
  repeat split; try assumption; try apply Hsize.
  exists dt. auto.
Qed.

Lemma yields_draw_error_fields : yields draw_error_fields 1 error_domain.
Proof.
  unfold draw_error_fields.
  change 1%nat with (1 + (0 + (0 + (0 + (0 + (0 + 0))))))%nat.
  yield_step yields_get_random_datetime. intros dt (Hv & Hu).
  yield_step yields_get_random_ip. intros ip Hip.
  yield_step (yields_choice ERROR_SEVERITIES). intros sev Hsev.
  yield_step (yields_choice ERROR_MESSAGES). intros msg Hmsg.
  yield_step yields_location. intros loc Hin.
  yield_step (yields_split_location loc Hin). intros cc Hcc.
  apply yields_ret. unfold error_domain, timestamp_of.
  cbn [error_timestamp error_severity error_ip error_msg error_country
       error_city].
  repeat split; try assumption. exists dt. auto.
Qed.

Lemma yields_draw_firewall_fields :
  yields draw_firewall_fields 1 firewall_domain.
Proof.
  unfold draw_firewall_fields.
  change 1%nat with (1 + (0 + (0 + (0 + (0 + 0)))))%nat.
  yield_step yields_get_random_datetime. intros dt (Hv & Hu).
  yield_step yields_get_random_ip. intros ip Hip.
  yield_step (yields_choice FIREWALL_ACTIONS). intros act Hact.
  yield_step yields_location. intros loc Hin.
  yield_step (yields_split_location loc Hin). intros cc Hcc.
  apply yields_ret. unfold firewall_domain, timestamp_of.
  cbn [firewall_timestamp firewall_hostname firewall_ip firewall_action
       firewall_country firewall_city].
  repeat split; try assumption. exists dt. auto.
Qed.

Lemma dict_get_in {V : Type} (d : list (Z * V)) (key : Z) (v : V) :
  dict_get d key = Ok v -> In (key, v) d.
Proof.
  induction d as [| [k x] d IH]; cbn [dict_get]; [discriminate |].
  destruct (Z.eqb_spec k key) as [-> | _].
  - intros E. injection E as <-. left. reflexivity.
  - intros E. right. exact (IH E).
Qed.

Lemma yields_draw_windows_fields :
  yields draw_windows_fields 1 windows_domain.
Proof.
  unfold draw_windows_fields.
  change 1%nat with (1 + (0 + (0 + (0 + (0 + (0 + (0 + 0)))))))%nat.
  yield_step yields_get_random_datetime. intros dt (Hv & Hu).
  yield_step (yields_choice WINDOWS_EVENT_IDS). intros id Hid.
  yield_step (yields_lift (dict_get messages_map id)
                (fun m => In (id, m) messages_map));
    [intros m E; exact (dict_get_in _ _ _ E) |].
  intros msg Hmsg.
  yield_step yields_location. intros loc Hin.
  yield_step (yields_split_location loc Hin). intros cc Hcc.
  yield_step yields_incident_or_random_ip. intros ip Hip.
  yield_step (yields_choice FAKE_USERNAMES). intros user Huser.
  apply yields_ret. unfold windows_domain, timestamp_of.
  cbn [windows_timestamp windows_hostname windows_event_id windows_msg
       windows_ip windows_username windows_country windows_city].
  repeat split; try assumption. exists dt. auto.
Qed.

End Domains.

Import Domains.

(** X1. Whenever [get_random_datetime] returns, the timestamp is a valid
    datetime on a whole second (the microseconds of the drawn instant are
    dropped), and the call took exactly one clock reading and touched
    neither the files nor the output. *)
Theorem timestamp_valid_whole_second (w w' : World) (dt : datetime) :
  get_random_datetime w = (Ok dt, w') ->
  valid_datetime dt = true /\ microsecond dt = 0 /\ reads 1 w w'.
Proof.
  intros E. destruct (yields_get_random_datetime _ _ _ E) as ((V & U) & R).
  auto.
Qed.

Lemma timestamp_valid_whole_second_witness :
  exists dt w',
    get_random_datetime (world_of [] sample_now no_files) = (Ok dt, w')
    /\ valid_datetime dt = true /\ microsecond dt = 0
    /\ reads 1 (world_of [] sample_now no_files) w'.
Proof.
  do 2 eexists. split; [vm_compute; reflexivity |].
  apply timestamp_valid_whole_second. vm_compute. reflexivity.
Defined.

(** X2. When the clock reads a valid date within the first [DAYS_BACK] days
    of year 1, the start of the window does not exist and
    [get_random_datetime] raises [OverflowError], before any draw. *)
Theorem timestamp_overflow_in_first_week (w : World) :
  valid_datetime (now_of w) = true ->
  toordinal (now_of w) <= DAYS_BACK ->
  get_random_datetime w = (Raise OverflowError, advance 0 1 w).
Proof.
  intros Hv Hearly.
  pose proof (time_us_bounds _ Hv) as Htod.
  assert (Hs : datetime_sub_td (now_of w) (timedelta_days DAYS_BACK)
               = Raise OverflowError).
  { unfold datetime_sub_td, datetime_add.
    replace (0 <? (to_us (now_of w) + - timedelta_days DAYS_BACK) / US_PER_DAY)
      with false; [reflexivity |].
    symmetry. apply Z.ltb_ge.
    unfold to_us, timedelta_days, DAYS_BACK, US_PER_DAY in *.
    Z.to_euclidean_division_equations. lia. }
  unfold get_random_datetime. unfold bind at 1. unfold datetime_now at 1.
  fold (now_of w). unfold bind at 1. unfold lift at 1. rewrite Hs.
  reflexivity.
Qed.

Lemma timestamp_overflow_in_first_week_witness :
  get_random_datetime (world_of [] (mkdatetime 1 1 7 23 59 59 999999) no_files)
  = (Raise OverflowError,
     advance 0 1 (world_of [] (mkdatetime 1 1 7 23 59 59 999999) no_files)).
Proof.
  apply timestamp_overflow_in_first_week; vm_compute;
    first [reflexivity | discriminate].
Defined.

(** X8. Every record the access generator draws holds a dotted-quad address
    with integers in [0, 254], a timestamp printed from a valid whole-second
    datetime, a method and an endpoint of the fixed lists, one of the seven
    status codes 200, 404, 500, 302, 401, 403, 501, a size in
    [512, 524288], and a country and city that form an entry of the location
    list; the line is the rendering of the record, and the call took one
    clock reading and touched neither the files nor the output. *)
Theorem access_record_domain (w w' : World) (r : access_fields) :
  draw_access_fields w = (Ok r, w') ->
  access_domain r
  /\ generate_apache_access_log w = (Ok (format_access r), w')
  /\ reads 1 w w'.
Proof.
  intros E. destruct (yields_draw_access_fields _ _ _ E) as [D R].
  split; [exact D |]. split; [exact (generate_access_run _ _ _ E) | exact R].
Qed.

Lemma access_record_domain_witness :
  exists r w',
    draw_access_fields (world_of [] sample_now no_files) = (Ok r, w')
    /\ access_domain r
    /\ generate_apache_access_log (world_of [] sample_now no_files)
       = (Ok (format_access r), w')
    /\ reads 1 (world_of [] sample_now no_files) w'.
Proof.
  do 2 eexists. split; [vm_compute; reflexivity |].
  apply access_record_domain. vm_compute. reflexivity.
Defined.

(** X9. Every record the error generator draws holds a timestamp printed
    from a valid whole-second datetime, a severity of [ERROR_SEVERITIES]
    (never none), a dotted-quad address with integers in [0, 254], a message
    of the fixed list, and a country and city that form an entry of the
    location list; the call took one clock reading and touched neither the
    files nor the output. *)
Theorem error_record_domain (w w' : World) (r : error_fields) :
  draw_error_fields w = (Ok r, w') ->
  error_domain r
  /\ generate_apache_error_log w = (Ok (format_error r), w')
  /\ reads 1 w w'.
Proof.
  intros E. destruct (yields_draw_error_fields _ _ _ E) as [D R].
  split; [exact D |]. split; [exact (generate_error_run _ _ _ E) | exact R].
Qed.

Lemma error_record_domain_witness :
  exists r w',
    draw_error_fields (world_of [] sample_now no_files) = (Ok r, w')
    /\ error_domain r
    /\ generate_apache_error_log (world_of [] sample_now no_files)
       = (Ok (format_error r), w')
    /\ reads 1 (world_of [] sample_now no_files) w'.
Proof.
  do 2 eexists. split; [vm_compute; reflexivity |].
  apply error_record_domain. vm_compute. reflexivity.
Defined.

(** X10. Every record the firewall generator draws holds a timestamp
    printed from a valid whole-second datetime, the host name [myfirewall],
    a dotted-quad address with integers in [0, 254], an action of the fixed
    list, and a country and city that form an entry of the location list;
    the call took one clock reading and touched neither the files nor the
    output. *)
Theorem firewall_record_domain (w w' : World) (r : firewall_fields) :
  draw_firewall_fields w = (Ok r, w') ->
  firewall_domain r
  /\ generate_firewall_log w = (Ok (format_firewall r), w')
  /\ reads 1 w w'.
Proof.
  intros E. destruct (yields_draw_firewall_fields _ _ _ E) as [D R].
  split; [exact D |].
  split; [exact (generate_firewall_run _ _ _ E) | exact R].
Qed.

Lemma firewall_record_domain_witness :
  exists r w',
    draw_firewall_fields (world_of [] sample_now no_files) = (Ok r, w')
    /\ firewall_domain r
    /\ generate_firewall_log (world_of [] sample_now no_files)
       = (Ok (format_firewall r), w')
    /\ reads 1 (world_of [] sample_now no_files) w'.
Proof.
  do 2 eexists. split; [vm_compute; reflexivity |].
  apply firewall_record_domain. vm_compute. reflexivity.
Defined.

(** X11. Every record the Windows generator draws holds a timestamp printed
    from a valid whole-second datetime, the host name [WINHOST], an event id
    and the message that [messages_map] pairs with it, a dotted-quad address
    with integers in [0, 254], a user name of the fixed list, and a country
    and city that form an entry of the location list; the call took one
    clock reading and touched neither the files nor the output. *)
Theorem windows_record_domain (w w' : World) (r : windows_fields) :
  draw_windows_fields w = (Ok r, w') ->
  windows_domain r
  /\ generate_windows_log w = (Ok (format_windows r), w')
  /\ reads 1 w w'.
Proof.
  intros E. destruct (yields_draw_windows_fields _ _ _ E) as [D R].
  split; [exact D |].
  split; [exact (generate_windows_run _ _ _ E) | exact R].
Qed.

Lemma windows_record_domain_witness :
  exists r w',
    draw_windows_fields (world_of [] sample_now no_files) = (Ok r, w')
    /\ windows_domain r
    /\ generate_windows_log (world_of [] sample_now no_files)
       = (Ok (format_windows r), w')
    /\ reads 1 (world_of [] sample_now no_files) w'.
Proof.
  do 2 eexists. split; [vm_compute; reflexivity |].
  apply windows_record_domain. vm_compute. reflexivity.
Defined.

Module Window.

Lemma date_offset_range (k : Z) :
  0 <= date_offset k <= timedelta_days DAYS_BACK.
Proof.
  unfold date_offset. apply divide_and_round_bounds.
  pose proof (Z.mod_pos_bound k (Z.pos TWO53) ltac:(reflexivity)).
  unfold timedelta_days, DAYS_BACK, US_PER_DAY, TWO53 in *. nia.
Qed.

(** The drawn instant, as a count of microseconds. *)
Lemma drawn_date_offset (now : datetime) (k : Z) :
  valid_datetime now = true -> DAYS_BACK < toordinal now ->
  exists random_date,
    drawn_date now (unit_float k) = Ok random_date
    /\ to_us random_date
       = to_us now - timedelta_days DAYS_BACK + date_offset k
    /\ toordinal random_date
       = (to_us now - timedelta_days DAYS_BACK + date_offset k) / US_PER_DAY.
Proof.
  intros Hv Hlate.
  pose proof (time_us_bounds now Hv) as Htod.
  pose proof (toordinal_bounds now Hv) as Hord.
  pose proof (date_offset_range k) as Hoff.
  assert (Hdiv : (to_us now + - timedelta_days DAYS_BACK) / US_PER_DAY
                 = toordinal now - 7).
  { unfold to_us, timedelta_days, DAYS_BACK, US_PER_DAY in *.
    Z.to_euclidean_division_equations. lia. }
  destruct (datetime_add_spec now (- timedelta_days DAYS_BACK))
    as (start & Hs & _ & _ & _ & Hsu).
  { cbv zeta. rewrite Hdiv. unfold MAXORDINAL, DAYS_BACK in *. lia. }
  assert (Hmul : timedelta_mul (datetime_sub now start) (unit_float k)
                 = date_offset k).
  { unfold datetime_sub. rewrite Hsu.
    replace (to_us now - (to_us now + - timedelta_days DAYS_BACK))
      with (timedelta_days DAYS_BACK) by lia.
    reflexivity. }
  destruct (datetime_add_spec start (date_offset k))
    as (rd & Hr & _ & Hro & _ & Hru).
  { cbv zeta. rewrite Hsu.
    unfold to_us, timedelta_days, DAYS_BACK, US_PER_DAY, MAXORDINAL in *.
    Z.to_euclidean_division_equations. lia. }
  exists rd. unfold drawn_date. fold (datetime_sub_td now (timedelta_days DAYS_BACK)).
  unfold datetime_sub_td. rewrite Hs, Hmul, Hr.
  split; [reflexivity |]. rewrite Hro, Hru, Hsu.
  split; [lia | f_equal; lia].
Qed.

End Window.

Import Window.

(** X3. The date of the returned timestamp is the date of the instant
    [start_date + (now - start_date) * x]: the day that holds the
    microsecond [now - DAYS_BACK days + round(DAYS_BACK days * k / 2^53)],
    rounded half to even, where [k / 2^53] is the double of the date
    draw. *)
Theorem timestamp_date_formula (w : World) :
  valid_datetime (now_of w) = true ->
  DAYS_BACK < toordinal (now_of w) ->
  exists dt w',
    get_random_datetime w = (Ok dt, w')
    /\ toordinal dt
       = (to_us (now_of w) - timedelta_days DAYS_BACK
          + date_offset (word w 0)) / US_PER_DAY.
Proof.
  intros Hv Hlate.
  destruct (get_random_datetime_run w Hv Hlate)
    as (rd & Hd & _ & _ & _ & Hrun).
  destruct (drawn_date_offset (now_of w) (word w 0) Hv Hlate)
    as (rd' & Hd' & _ & Hord).
  rewrite Hd in Hd'. injection Hd' as <-.
  do 2 eexists. split; [exact Hrun | exact Hord].
Qed.

Lemma timestamp_date_formula_witness :
  exists dt w',
    get_random_datetime
      (world_of [4503599627370496]%N sample_now no_files) = (Ok dt, w')
    /\ toordinal dt
       = (to_us sample_now - timedelta_days DAYS_BACK
          + date_offset 4503599627370496) / US_PER_DAY.
Proof.
  apply (timestamp_date_formula
           (world_of [4503599627370496]%N sample_now no_files));
    vm_compute; reflexivity.
Defined.

(** X4. Every returned timestamp is less than [DAYS_BACK + 1] days before
    the clock reading and less than one day after it. *)
Theorem timestamp_within_bounds (w : World) :
  valid_datetime (now_of w) = true ->
  DAYS_BACK < toordinal (now_of w) ->
  exists dt w',
    get_random_datetime w = (Ok dt, w')
    /\ - timedelta_days (DAYS_BACK + 1) < datetime_sub dt (now_of w)
       < timedelta_days 1.
Proof.
  intros Hv Hlate.
  destruct (get_random_datetime_run w Hv Hlate)
    as (rd & _ & _ & Hwin & _ & Hrun).
  do 2 eexists. split; [exact Hrun |].
  pose proof (hour_of_draws_range w) as Hh.
  pose proof (randint_range 0 59 (word w (snd (hour_of_draws w))))
    as Hm.
  pose proof (randint_range 0 59 (word w (S (snd (hour_of_draws w)))))
    as Hs.
  pose proof (time_us_bounds (now_of w) Hv) as Hnow.
  unfold datetime_sub, to_us, time_us, toordinal, timedelta_days, DAYS_BACK,
    US_PER_DAY, US_PER_SECOND in *.
  cbn [year month day hour minute second microsecond].
  destruct (float_lt (unit_float (word w 1)) float_0_7);
    [| destruct (float_lt (unit_float (word w 2)) float_0_5)]; lia.
Qed.

Lemma timestamp_within_bounds_witness :
  exists dt w',
    get_random_datetime (world_of [] sample_now no_files) = (Ok dt, w')
    /\ - timedelta_days (DAYS_BACK + 1) < datetime_sub dt sample_now
       < timedelta_days 1.
Proof.
  apply (timestamp_within_bounds (world_of [] sample_now no_files));
    vm_compute; reflexivity.
Defined.

(** X5. When the drawn instant is still on the date of the start of the
    window and the drawn hour is below the hour of the clock, the returned
    timestamp is earlier than the start of the window, that is more than
    [DAYS_BACK] days before the clock reading. *)
Theorem timestamp_can_precede_window (w : World) :
  valid_datetime (now_of w) = true ->
  DAYS_BACK < toordinal (now_of w) ->
  time_us (now_of w) + date_offset (word w 0) < US_PER_DAY ->
  fst (hour_of_draws w) < hour (now_of w) ->
  exists dt w',
    get_random_datetime w = (Ok dt, w')
    /\ timedelta_days DAYS_BACK < datetime_sub (now_of w) dt.
Proof.
  intros Hv Hlate Hoff Hhour.
  destruct (get_random_datetime_run w Hv Hlate)
    as (rd & Hd & _ & _ & _ & Hrun).
  destruct (drawn_date_offset (now_of w) (word w 0) Hv Hlate)
    as (rd' & Hd' & _ & Hord).
  rewrite Hd in Hd'. injection Hd' as <-.
  do 2 eexists. split; [exact Hrun |].
  pose proof (date_offset_range (word w 0)) as Hrange.
  pose proof (hour_of_draws_range w) as Hh.
  pose proof (randint_range 0 59 (word w (snd (hour_of_draws w))))
    as Hm.
  pose proof (randint_range 0 59 (word w (S (snd (hour_of_draws w)))))
    as Hs.
  pose proof (time_us_bounds (now_of w) Hv) as Hnow.
  apply valid_datetime_iff in Hv. destruct Hv as (_ & Hh' & Hm' & Hs' & Hu').
  assert (Hday : toordinal rd = toordinal (now_of w) - 7).
  { rewrite Hord.
    unfold to_us, timedelta_days, DAYS_BACK, US_PER_DAY in *.
    Z.to_euclidean_division_equations. lia. }
  unfold datetime_sub, to_us, time_us, toordinal, timedelta_days, DAYS_BACK,
    US_PER_DAY, US_PER_SECOND in *.
  cbn [year month day hour minute second microsecond].
  rewrite Hday.
  destruct (float_lt (unit_float (word w 1)) float_0_7);
    [| destruct (float_lt (unit_float (word w 2)) float_0_5)]; lia.
Qed.

(** The date draw is 0 and the night branch draws hour 0, with the clock at
    10:00:12. *)
Lemma timestamp_can_precede_window_witness :
  exists dt w',
    get_random_datetime
      (world_of [0; 9007199254740991; 9007199254740991; 0]%N sample_now
         no_files) = (Ok dt, w')
    /\ timedelta_days DAYS_BACK < datetime_sub sample_now dt.
Proof.
  apply (timestamp_can_precede_window
           (world_of [0; 9007199254740991; 9007199254740991; 0]%N sample_now
              no_files));
    vm_compute; reflexivity.
Defined.

Module Thresholds.

(** The doubles below each literal, counted on the numerator. *)
Lemma float_lt_counts (k : Z) :
  (float_lt (unit_float k) float_0_7 = true
   <-> k mod Z.pos TWO53 < 6305039478318694)
  /\ (float_lt (unit_float k) CHANCE_HIGH_FREQ = true
      <-> k mod Z.pos TWO53 < 5404319552844595)
  /\ (float_lt (unit_float k) float_0_15 = true
      <-> k mod Z.pos TWO53 < 1351079888211149)
  /\ (float_lt (unit_float k) float_0_5 = true
      <-> k mod Z.pos TWO53 < 4503599627370496).
Proof.
  unfold float_lt, unit_float, CHANCE_HIGH_FREQ, float_0_7, float_0_6,
    float_0_15, float_0_5.
  cbn [Qnum Qden]. rewrite !Z.ltb_lt. unfold TWO53.
  repeat split; intros; lia.
Qed.

Lemma float_lt_false (x y : float) (P : Prop) :
  (float_lt x y = true <-> P) -> (float_lt x y = false <-> ~ P).
Proof.
  intros H. destruct (float_lt x y); split; intros H1;
    try reflexivity; try discriminate.
  - exfalso. apply H1. apply H. reflexivity.
  - intros HP. apply H in HP. discriminate.
Qed.

(** The hour of a timestamp is a daytime hour exactly when the day/night
    draw is below 0.7. *)
Lemma day_hour_iff (w : World) :
  8 <= fst (hour_of_draws w) <= 19
  <-> float_lt (unit_float (word w 1)) float_0_7 = true.
Proof.
  pose proof (hour_of_draws_range w) as H.
  destruct (float_lt (unit_float (word w 1)) float_0_7);
    [| destruct (float_lt (unit_float (word w 2)) float_0_5)];
    split; intros; first [reflexivity | lia | discriminate].
Qed.

End Thresholds.

Import Thresholds.

(** X6. The four Bernoulli draws of the program, each decided by one word
    [k] of the tape, counted on the 2^53 equally likely doubles of
    [random.random()].  The timestamp [get_random_datetime] returns has an
    hour of the day window [8, 19] exactly when its second word is one of
    6305039478318694 residues; [get_random_ip] returns, after two words, the
    entry of the frequent pool its second word indexes exactly when its
    first word is one of 5404319552844595 residues, and otherwise, after
    five words, the four octets it synthesizes; the incident draw returns
    [INCIDENT_IP] after one word exactly when that word is one of
    1351079888211149 residues, and otherwise what [get_random_ip] returns
    from the next word on; the override of the incident address returns 404
    exactly when its word is one of 2^52 residues, and the given status
    otherwise.  Each count is within one double of 0.7, 0.6, 0.15 and 0.5 of
    2^53. *)
Theorem draw_thresholds (w : World) :
  clock_ok w ->
  let k := word w 0 mod Z.pos TWO53 in
  (exists dt w',
     get_random_datetime w = (Ok dt, w')
     /\ (8 <= hour dt <= 19
         <-> word w 1 mod Z.pos TWO53 < 6305039478318694))
  /\ (k < 5404319552844595 ->
      get_random_ip w
      = (Ok (nth (Z.to_nat (word w 1 mod 4)) HIGH_FREQ_IPS "192.168.1.1"),
         advance 2 0 w))
  /\ (5404319552844595 <= k ->
      get_random_ip w
      = (Ok (join "." [str (octet w 1); str (octet w 2);
                       str (octet w 3); str (octet w 4)]),
         advance 5 0 w))
  /\ (k < 1351079888211149 ->
      incident_or_random_ip w = (Ok INCIDENT_IP, advance 1 0 w))
  /\ (1351079888211149 <= k ->
      incident_or_random_ip w = get_random_ip (advance 1 0 w))
  /\ (forall status_code,
        incident_override INCIDENT_IP status_code w
        = (Ok (if k <? 4503599627370496 then 404 else status_code),
           advance 1 0 w))
  /\ (forall ip_address status_code,
        ip_address <> INCIDENT_IP ->
        incident_override ip_address status_code w = (Ok status_code, w))
  /\ Z.abs (10 * 6305039478318694 - 7 * Z.pos TWO53) < 10
  /\ Z.abs (10 * 5404319552844595 - 6 * Z.pos TWO53) < 10
  /\ Z.abs (100 * 1351079888211149 - 15 * Z.pos TWO53) < 100
  /\ 2 * 4503599627370496 = Z.pos TWO53.
Proof.
  intros Hw. cbv zeta.
  destruct (float_lt_counts (word w 0)) as (_ & H6 & H15 & H5).
  destruct (float_lt_counts (word w 1)) as (H7 & _).
  split.
  { destruct (Hw (clock_pos w)) as [Hv Hlate].
    destruct (get_random_datetime_run w Hv Hlate) as (rd & _ & _ & _ & _ & E).
    do 2 eexists. split; [exact E |]. cbn [hour].
    rewrite <- H7. apply day_hour_iff. }
  split.
  { intros Hk. rewrite get_random_ip_run.
    rewrite (proj2 H6 Hk). reflexivity. }
  split.
  { intros Hk. rewrite get_random_ip_run.
    replace (float_lt (unit_float (word w 0)) CHANCE_HIGH_FREQ) with false;
      [reflexivity |].
    symmetry. apply (float_lt_false _ _ _ H6). lia. }
  split.
  { intros Hk. unfold incident_or_random_ip.
    cbv [bind random_random next_word ret]. run_words w.
    rewrite (proj2 H15 Hk). reflexivity. }
  split.
  { intros Hk. unfold incident_or_random_ip.
    cbv [bind random_random next_word ret]. run_words w.
    replace (float_lt (unit_float (word w 0)) float_0_15) with false;
      [reflexivity |].
    symmetry. apply (float_lt_false _ _ _ H15). lia. }
  split.
  { intros status_code. rewrite incident_override_run.
    change (String.eqb INCIDENT_IP INCIDENT_IP) with true. cbv iota.
    destruct (Z.ltb_spec (word w 0 mod Z.pos TWO53) 4503599627370496)
      as [Hk | Hk].
    - rewrite (proj2 H5 Hk). reflexivity.
    - replace (float_lt (unit_float (word w 0)) float_0_5) with false;
        [reflexivity |].
      symmetry. apply (float_lt_false _ _ _ H5). lia. }
  split.
  { intros ip_address status_code Hne. rewrite incident_override_run.
    destruct (String.eqb_spec ip_address INCIDENT_IP) as [-> | _];
      [now elim Hne | reflexivity]. }
  unfold TWO53. repeat split; lia.
Qed.

(** The all-zero tape: a daytime hour, the first address of the frequent
    pool, the incident address and the override to 404. *)
Lemma draw_thresholds_witness :
  (exists dt w',
     get_random_datetime (world_of [] sample_now no_files) = (Ok dt, w')
     /\ 8 <= hour dt <= 19)
  /\ get_random_ip (world_of [] sample_now no_files)
     = (Ok "192.168.1.1", advance 2 0 (world_of [] sample_now no_files))
  /\ incident_or_random_ip (world_of [] sample_now no_files)
     = (Ok INCIDENT_IP, advance 1 0 (world_of [] sample_now no_files))
  /\ incident_override INCIDENT_IP 200 (world_of [] sample_now no_files)
     = (Ok 404, advance 1 0 (world_of [] sample_now no_files)).
Proof.
  destruct (draw_thresholds (world_of [] sample_now no_files)
              (clock_ok_world_of [] no_files))
    as ((dt & w' & E & Hday) & Hpool & _ & Hinc & _ & Hover & _).
  split; [exists dt, w'; split; [exact E | apply Hday; reflexivity] |].
  split; [exact (Hpool eq_refl) |].
  split; [exact (Hinc eq_refl) |].
  exact (Hover 200).
Defined.

Module StatusLoop.

Lemma total_percent_nonneg (items : list (Z * Z)) :
  Forall (fun cp => 0 <= snd cp) items -> 0 <= total_percent items.
Proof.
  induction 1 as [| [c p] items Hp _ IH];
    cbn [total_percent map fold_right snd] in *; [lia |].
  fold (total_percent items). lia.
Qed.

Lemma total_percent_cons (c p : Z) (items : list (Z * Z)) :
  total_percent ((c, p) :: items) = p + total_percent items.
Proof. reflexivity. Qed.

Lemma status_loop_general (items : list (Z * Z)) (dice : Z) :
  Forall (fun cp => 0 <= snd cp) items ->
  forall cumulative,
    cumulative < dice ->
    (status_loop items dice cumulative = None
     <-> cumulative + total_percent items < dice)
    /\ (forall code,
          status_loop items dice cumulative = Some code
          <-> exists pre p post,
                items = (pre ++ (code, p) :: post)%list
                /\ cumulative + total_percent pre < dice
                   <= cumulative + total_percent pre + p).
Proof.
  induction 1 as [| [c0 p0] items Hp Hrest IH]; intros cumulative Hc.
  - cbn [status_loop]. change (total_percent []) with 0. split.
    + split; [lia | reflexivity].
    + intros code. split; [discriminate |].
      intros (pre & p & post & E & _). destruct pre; discriminate.
  - cbn [snd] in Hp. pose proof (total_percent_nonneg _ Hrest) as Htot.
    cbn [status_loop]. rewrite total_percent_cons.
    destruct (Z.leb_spec dice (cumulative + p0)) as [Hle | Hgt].
    + split; [split; [discriminate | lia] |].
      intros code. split.
      * intros E. injection E as <-. exists [], p0, items.
        change (total_percent []) with 0. split; [reflexivity | lia].
      * intros (pre & p & post & E & Hlo & Hhi).
        destruct pre as [| [c1 p1] pre]; cbn [app] in E; injection E.
        -- intros _ _ ->. reflexivity.
        -- intros Epre -> ->. rewrite total_percent_cons in Hlo.
           assert (Hpre : Forall (fun cp => 0 <= snd cp) pre).
           { rewrite Epre in Hrest. apply Forall_app in Hrest. tauto. }
           pose proof (total_percent_nonneg _ Hpre). lia.
    + destruct (IH (cumulative + p0) Hgt) as [Hnone Hsome].
      split; [rewrite Hnone; lia |].
      intros code. rewrite Hsome. split.
      * intros (pre & p & post & E & Hlo & Hhi).
        exists ((c0, p0) :: pre), p, post. rewrite total_percent_cons.
        split; [cbn [app]; now rewrite E | lia].
      * intros (pre & p & post & E & Hlo & Hhi).
        destruct pre as [| [c1 p1] pre]; cbn [app] in E; injection E.
        -- intros _ -> ->. change (total_percent []) with 0 in Hhi. lia.
        -- intros Epre -> ->. rewrite total_percent_cons in Hlo, Hhi.
           exists pre, p, post. split; [exact Epre | lia].
Qed.

End StatusLoop.

Import StatusLoop.

(** X7. The status loop over any table of non-negative percentages, for a
    dice of at least 1: it assigns no status exactly when the dice exceeds
    the sum of the percentages, and it assigns a code exactly when the code
    stands at a place of the table where the running sum first reaches the
    dice. *)
Theorem status_loop_spec (items : list (Z * Z)) (dice : Z) :
  Forall (fun cp => 0 <= snd cp) items ->
  0 < dice ->
  (status_loop items dice 0 = None <-> total_percent items < dice)
  /\ (forall code,
        status_loop items dice 0 = Some code
        <-> exists pre p post,
              items = (pre ++ (code, p) :: post)%list
              /\ total_percent pre < dice <= total_percent pre + p).
Proof.
  intros Hnn Hdice.
  exact (status_loop_general items dice Hnn 0 Hdice).
Qed.

Lemma status_loop_spec_witness :
  (status_loop HTTP_STATUS_CODES_DISTRIBUTION 96 0 = None
   <-> total_percent HTTP_STATUS_CODES_DISTRIBUTION < 96)
  /\ (forall code,
        status_loop HTTP_STATUS_CODES_DISTRIBUTION 96 0 = Some code
        <-> exists pre p post,
              HTTP_STATUS_CODES_DISTRIBUTION
              = (pre ++ (code, p) :: post)%list
              /\ total_percent pre < 96 <= total_percent pre + p).
Proof.
  apply (status_loop_spec HTTP_STATUS_CODES_DISTRIBUTION 96);
    [repeat constructor; cbn; lia | lia].
Defined.

Module Positions.

(** Where [get_random_datetime] leaves the tapes when it returns. *)
Lemma get_random_datetime_position (w w' : World) (dt : datetime) :
  get_random_datetime w = (Ok dt, w') ->
  w' = advance (after_timestamp w) 1 w.
Proof.
  unfold get_random_datetime, after_timestamp, hour_of_draws.
  unfold bind at 1. unfold datetime_now at 1.
  unfold bind at 1. unfold lift at 1.
  destruct (datetime_sub_td _ _) as [start |]; [| discriminate].
  unfold bind at 1.
  unfold random_random at 1, bind at 1, next_word at 1, ret at 1.
  unfold bind at 1. unfold lift at 1.
  destruct (datetime_add _ _) as [rd |]; [| discriminate].
  cbv [bind random_random next_word ret random_randint lift raise].
  change (19 <? 8) with false. change (23 <? 20) with false.
  change (7 <? 0) with false. change (59 <? 0) with false.
  run_words w.
  destruct (float_lt (unit_float (word w 1)) float_0_7);
    [| run_words w;
       destruct (float_lt (unit_float (word w 2)) float_0_5)];
    run_words w; cbn [fst snd];
    destruct (datetime_new _ _ _ _ _ _); intros E;
    first [discriminate | injection E as _ <-; reflexivity].
Qed.

Lemma after_timestamp_small (w : World) : (after_timestamp w <= 6)%nat.
Proof.
  unfold after_timestamp, hour_of_draws.
  destruct (float_lt _ float_0_7); [| destruct (float_lt _ float_0_5)];
    cbn [snd]; lia.
Qed.

Lemma after_timestamp_words (w1 w2 : World) :
  (forall i, (i <= 6)%nat -> word w1 i = word w2 i) ->
  after_timestamp w1 = after_timestamp w2.
Proof.
  intros H. unfold after_timestamp, hour_of_draws.
  rewrite (H 1%nat), (H 2%nat), (H 3%nat) by lia. reflexivity.
Qed.

(** The event id and the message of a Windows record, word by word. *)
Lemma windows_event_formula (w w' : World) (r : windows_fields) :
  draw_windows_fields w = (Ok r, w') ->
  windows_event_id r
  = nth (Z.to_nat (word w (after_timestamp w) mod 4)) WINDOWS_EVENT_IDS 4624
  /\ dict_get messages_map (windows_event_id r) = Ok (windows_msg r).
Proof.
  unfold draw_windows_fields. intros H.
  bind_inv H. apply get_random_datetime_position in E. subst w0.
  bind_inv H. injection E as Ea _.
  bind_inv H. unfold lift in E. injection E as Em _.
  bind_inv H. bind_inv H. bind_inv H. bind_inv H.
  injection H as <- _. cbn [windows_event_id windows_msg].
  split; [symmetry; exact Ea | exact Em].
Qed.

End Positions.

Import Positions.

(** ** The access record, word by word *)

Module AccessRun.

Lemma incident_or_random_ip_run (w : World) :
  incident_or_random_ip w
  = (Ok (incident_address w 0), advance (incident_address_words w 0) 0 w).
Proof.
  unfold incident_or_random_ip, incident_address, incident_address_words,
    octet.
  cbv [get_random_ip bind random_random next_word ret random_randint
       random_choice random_octets HIGH_FREQ_IPS List.length raise].
  change (254 <? 1) with false. cbn [Nat.add].
  run_words w.
  destruct (float_lt (unit_float (word w 0)) float_0_15); [reflexivity |].
  run_words w.
  destruct (float_lt (unit_float (word w 1)) CHANCE_HIGH_FREQ);
    run_words w; reflexivity.
Qed.

Lemma random_choice_position {A : Type} (l : list A) (w w' : World) (a : A) :
  random_choice l w = (Ok a, w') -> w' = advance 1 0 w.
Proof.
  destruct l as [| x l]; [discriminate |]. unfold random_choice.
  intros E. destruct (bind_ok_inv _ _ _ _ _ E) as (k & w1 & E1 & E2).
  injection E1 as _ <-. injection E2 as _ <-. reflexivity.
Qed.

Lemma random_randint_run (a b : Z) (w w' : World) (x : Z) :
  random_randint a b w = (Ok x, w') ->
  x = a + word w 0 mod (b - a + 1) /\ w' = advance 1 0 w.
Proof.
  unfold random_randint. destruct (b <? a); [discriminate |].
  intros E. destruct (bind_ok_inv _ _ _ _ _ E) as (k & w1 & E1 & E2).
  injection E1 as <- <-. injection E2 as <- <-. split; reflexivity.
Qed.

(** The address, the status and the size of an access record, word by
    word. *)
Lemma access_fields_run (w w' : World) (r : access_fields) :
  draw_access_fields w = (Ok r, w') ->
  let v := after_timestamp_world w in
  access_ip r = incident_address v 0
  /\ access_status r
     = (if String.eqb (access_ip r) INCIDENT_IP
        then if float_lt (unit_float (word v (access_override_position v)))
                  float_0_5
             then 404 else access_base_status v
        else access_base_status v)
  /\ access_size r
     = 512 + word v (if String.eqb (access_ip r) INCIDENT_IP
                     then (1 + access_override_position v)%nat
                     else access_override_position v)
             mod (524288 - 512 + 1).
Proof.
  unfold draw_access_fields. intros H. cbv zeta.
  bind_inv H. apply get_random_datetime_position in E.
  fold (after_timestamp_world w) in E. subst w0.
  set (v := after_timestamp_world w) in *.
  bind_inv H. rewrite incident_or_random_ip_run in E.
  injection E as <- <-.
  bind_inv H. apply random_choice_position in E. subst w0.
  bind_inv H. apply random_choice_position in E. subst w0.
  bind_inv H. rewrite base_status_code_run in E.
  bind_inv H. rewrite incident_override_run in E0.
  bind_inv H. apply random_randint_run in E1. destruct E1 as [-> ->].
  bind_inv H. bind_inv H. injection H as <- _.
  cbn [access_ip access_status access_size].
  split; [reflexivity |].
  unfold access_override_position, access_base_status, access_loop,
    access_dice, access_dice_position, incident_address_words in *.
  unfold incident_address in *. cbn [Nat.add] in *.
  destruct (float_lt (unit_float (word v 0)) float_0_15);
    [| destruct (float_lt (unit_float (word v 1)) CHANCE_HIGH_FREQ)].
  all: cbn [Nat.add] in *.
  all: match type of E with
       | context [percentile ?x] =>
           match goal with
           | |- context [status_loop _ ?d 0] =>
               change (percentile x) with d in E
           end
       end.
  all: match goal with
       | |- context [status_loop ?t ?d 0] =>
           destruct (status_loop t d 0)
       end.
  all: injection E as <- <-.
  all: match type of E0 with
       | context [String.eqb ?a ?b] => destruct (String.eqb a b)
       end.
  all: injection E0 as <- <-.
  all: split; reflexivity.
Qed.

End AccessRun.

Import AccessRun.

(** C3. In the access-log generator the percentile draw [d] of [1, 100]
    gives status 200 iff [d <= 80], 404 iff [81 <= d <= 90], 500 iff
    [91 <= d <= 95]; for [96 <= d <= 100] the loop assigns nothing and the
    status is the entry of [OTHER_CODES] = [302, 401, 403, 501] that one more
    draw indexes, each residue of the word selecting a different code.  When
    the address of the record equals [INCIDENT_IP] one more double is drawn
    and the status becomes 404 exactly when it is below 0.5, which holds for
    exactly the lower half of the 2^53 doubles; otherwise, and for any other
    address (where nothing is drawn, so that the size is drawn from that
    word instead), the status is unchanged.  The words are those of the run
    itself, counted from the world [v] after the timestamp: the record the
    generator returns carries this address, this status and this size. *)
Theorem status_code_distribution (w : World) :
  clock_ok w ->
  let v := after_timestamp_world w in
  let d := 1 + word v (access_dice_position v) mod 100 in
  let loop := status_loop HTTP_STATUS_CODES_DISTRIBUTION d 0 in
  let base :=
    match loop with
    | Some code => code
    | None =>
        nth (Z.to_nat (word v (1 + access_dice_position v) mod 4))
          OTHER_CODES 302
    end in
  let q :=
    match loop with
    | Some _ => (1 + access_dice_position v)%nat
    | None => (2 + access_dice_position v)%nat
    end in
  1 <= d <= 100
  /\ (loop = Some 200 <-> d <= 80)
  /\ (loop = Some 404 <-> 81 <= d <= 90)
  /\ (loop = Some 500 <-> 91 <= d <= 95)
  /\ (loop = None <-> 96 <= d <= 100)
  /\ OTHER_CODES = [302; 401; 403; 501]
  /\ NoDup OTHER_CODES
  /\ (float_lt (unit_float (word v q)) float_0_5 = true
      <-> word v q mod Z.pos TWO53 < Z.pos TWO53 / 2)
  /\ (exists r w',
        draw_access_fields w = (Ok r, w')
        /\ generate_apache_access_log w = (Ok (format_access r), w')
        /\ access_ip r = incident_address v 0
        /\ access_status r
           = (if String.eqb (access_ip r) INCIDENT_IP
              then if float_lt (unit_float (word v q)) float_0_5
                   then 404 else base
              else base)
        /\ access_size r
           = 512 + word v (if String.eqb (access_ip r) INCIDENT_IP
                           then (1 + q)%nat else q)
                   mod (524288 - 512 + 1))
  /\ (forall w0,
        base_status_code w0
        = match status_loop HTTP_STATUS_CODES_DISTRIBUTION (percentile w0) 0
          with
          | Some code => (Ok code, advance 1 0 w0)
          | None =>
              (Ok (nth (Z.to_nat (word w0 1 mod 4)) OTHER_CODES 302),
               advance 2 0 w0)
          end)
  /\ (forall ip_address status_code w0,
        incident_override ip_address status_code w0
        = (if String.eqb ip_address INCIDENT_IP
           then (Ok (if float_lt (unit_float (word w0 0)) float_0_5
                     then 404 else status_code),
                 advance 1 0 w0)
           else (Ok status_code, w0))).
Proof.
  intros Hw. cbv zeta.
  set (v := after_timestamp_world w).
  set (d := 1 + word v (access_dice_position v) mod 100).
  assert (Hd : 1 <= d <= 100)
    by (pose proof (Z.mod_pos_bound (word v (access_dice_position v)) 100
                      ltac:(lia));
        unfold d; lia).
  rewrite status_loop_table.
  split; [exact Hd |].
  split; [| split; [| split; [| split]]];
    try (destruct (Z.leb_spec d 80); destruct (Z.leb_spec d 90);
         destruct (Z.leb_spec d 95);
         split; intros; first [lia | discriminate | congruence | reflexivity]).
  split; [reflexivity |].
  split; [repeat constructor; cbn; intuition discriminate |].
  split; [apply float_lt_half |].
  split; [| split; [exact base_status_code_run
                   | intros; apply incident_override_run]].
  destruct (returns_draw_access_fields w Hw) as (r & w' & E & _).
  exists r, w'. split; [exact E |].
  split; [exact (generate_access_run _ _ _ E) |].
  pose proof (access_fields_run _ _ _ E) as (Hip & Hst & Hsize).
  fold v in Hip, Hst, Hsize.
  unfold access_override_position, access_base_status, access_loop,
    access_dice in Hst, Hsize.
  fold d in Hst, Hsize. rewrite status_loop_table in Hst, Hsize.
  split; [exact Hip |]. split; [exact Hst | exact Hsize].
Qed.

(** The access record of the all-zero tape: the incident address, and the
    status the override makes of it. *)
Lemma status_code_distribution_witness :
  exists r w',
    draw_access_fields (world_of [] sample_now no_files) = (Ok r, w')
    /\ generate_apache_access_log (world_of [] sample_now no_files)
       = (Ok (format_access r), w')
    /\ access_ip r = INCIDENT_IP
    /\ access_status r = 404.
Proof.
  destruct (status_code_distribution (world_of [] sample_now no_files)
              (clock_ok_world_of [] no_files))
    as (_ & _ & _ & _ & _ & _ & _ & _ & (r & w' & E & G & Hip & Hst & _) & _).
  exists r, w'. split; [exact E |]. split; [exact G |].
  assert (Hinc : access_ip r = INCIDENT_IP)
    by (rewrite Hip; vm_compute; reflexivity).
  split; [exact Hinc |].
  rewrite Hst, Hinc. vm_compute. reflexivity.
Defined.

(** ** The Windows record, word by word *)

Module WindowsRun.

Lemma word_advance (n c : nat) (w : World) (i : nat) :
  word (advance n c w) i = word w (i + n).
Proof.
  unfold word, advance. cbn [rand_tape rand_pos].
  rewrite Nat.add_assoc. reflexivity.
Qed.

Lemma incident_address_advance (n c : nat) (w : World) (i : nat) :
  incident_address (advance n c w) i = incident_address w (i + n).
Proof.
  unfold incident_address, octet. rewrite !word_advance. reflexivity.
Qed.

Lemma incident_address_words_agree (v1 v2 : World) (i : nat) :
  (forall j, (i <= j <= 5 + i)%nat -> word v1 j = word v2 j) ->
  incident_address v1 i = incident_address v2 i.
Proof.
  intros H. unfold incident_address, octet.
  rewrite (H i), (H (1 + i)%nat), (H (2 + i)%nat), (H (3 + i)%nat),
    (H (4 + i)%nat), (H (5 + i)%nat) by lia.
  reflexivity.
Qed.

(** The event id, the message and the address of a Windows record, word by
    word. *)
Lemma windows_fields_run (w w' : World) (r : windows_fields) :
  draw_windows_fields w = (Ok r, w') ->
  let v := after_timestamp_world w in
  windows_event_id r
  = nth (Z.to_nat (word v 0 mod 4)) WINDOWS_EVENT_IDS 4624
  /\ dict_get messages_map (windows_event_id r) = Ok (windows_msg r)
  /\ windows_ip r = incident_address v 2.
Proof.
  unfold draw_windows_fields. intros H. cbv zeta.
  bind_inv H. apply get_random_datetime_position in E.
  fold (after_timestamp_world w) in E. subst w0.
  set (v := after_timestamp_world w) in *.
  bind_inv H. pose proof (random_choice_position _ _ _ _ E) as ->.
  injection E as Ea.
  bind_inv H. unfold lift in E. injection E as Em <-.
  bind_inv H. unfold get_random_location in E.
  apply random_choice_position in E. subst w0.
  bind_inv H. unfold split_location, lift in E.
  assert (Hw : w0 = advance 1 0 (advance 1 0 v))
    by (destruct (unpack2 _); [injection E as _ <-; reflexivity
                              | discriminate]).
  subst w0.
  bind_inv H. rewrite incident_or_random_ip_run in E0.
  injection E0 as <- _.
  bind_inv H. injection H as <- _.
  cbn [windows_event_id windows_msg windows_ip].
  split; [symmetry; exact Ea |]. split; [exact Em |].
  rewrite !incident_address_advance. reflexivity.
Qed.

End WindowsRun.

Import WindowsRun.

(** X12. In a Windows record the event id is the entry of
    [WINDOWS_EVENT_IDS] that the first word after the timestamp indexes, the
    message is the entry of that id, and the address is made of the third
    and the following words after the timestamp by the incident draw (the
    incident address whenever the third word is below 0.15); the word of the
    event draw is none of them.  So two runs whose tapes agree
    on the first seven words return the same event id and message, whatever
    addresses they draw afterwards; and two runs whose tapes agree, after
    the timestamp, on the six words from the third on return the same
    address, whatever event they drew: whether a record carries the
    incident address does not depend on whether its event is 4625. *)
Theorem windows_event_before_address
  (w1 w2 w1' w2' : World) (r1 r2 : windows_fields) :
  draw_windows_fields w1 = (Ok r1, w1') ->
  draw_windows_fields w2 = (Ok r2, w2') ->
  let v1 := after_timestamp_world w1 in
  let v2 := after_timestamp_world w2 in
  windows_event_id r1
  = nth (Z.to_nat (word v1 0 mod 4)) WINDOWS_EVENT_IDS 4624
  /\ dict_get messages_map (windows_event_id r1) = Ok (windows_msg r1)
  /\ windows_ip r1 = incident_address v1 2
  /\ (float_lt (unit_float (word v1 2)) float_0_15 = true ->
      windows_ip r1 = INCIDENT_IP)
  /\ ((forall i, (i <= 6)%nat -> word w1 i = word w2 i) ->
      windows_event_id r1 = windows_event_id r2
      /\ windows_msg r1 = windows_msg r2)
  /\ ((forall i, (2 <= i <= 7)%nat -> word v1 i = word v2 i) ->
      windows_ip r1 = windows_ip r2).
Proof.
  intros E1 E2. cbv zeta.
  destruct (windows_fields_run _ _ _ E1) as (I1 & M1 & A1).
  destruct (windows_fields_run _ _ _ E2) as (I2 & M2 & A2).
  split; [exact I1 |]. split; [exact M1 |]. split; [exact A1 |].
  split; [intros H15; rewrite A1; unfold incident_address; rewrite H15;
          reflexivity |].
  split.
  - intros Hw.
    destruct (windows_event_formula _ _ _ E1) as [J1 _].
    destruct (windows_event_formula _ _ _ E2) as [J2 _].
    assert (Hid : windows_event_id r1 = windows_event_id r2).
    { rewrite J1, J2, (after_timestamp_words w1 w2 Hw).
      rewrite (Hw (after_timestamp w2) (after_timestamp_small w2)).
      reflexivity. }
    split; [exact Hid |]. rewrite Hid, M2 in M1. now injection M1.
  - intros Hv. rewrite A1, A2.
    apply incident_address_words_agree. intros j Hj. apply Hv. lia.
Qed.

(** Four runs.  The first two agree on the first seven words: one draws the
    incident address, the other an address of the frequent pool, and both
    log event 4625.  The last two differ in the word of the event draw only:
    one logs event 4624, the other event 4625, and both carry the incident
    address. *)
Lemma windows_event_before_address_witness :
  (exists r1 w1' r2 w2',
     draw_windows_fields
       (world_of [0; 0; 0; 0; 0; 1; 0; 0]%N sample_now no_files)
     = (Ok r1, w1')
     /\ draw_windows_fields
          (world_of [0; 0; 0; 0; 0; 1; 0; 9007199254740991]%N sample_now
             no_files) = (Ok r2, w2')
     /\ windows_ip r1 = INCIDENT_IP
     /\ windows_ip r2 = "192.168.1.1"
     /\ windows_event_id r1 = 4625
     /\ windows_event_id r1 = windows_event_id r2
     /\ windows_msg r1 = windows_msg r2)
  /\ (exists r1 w1' r2 w2',
        draw_windows_fields
          (world_of [0; 0; 0; 0; 0; 0; 0; 0]%N sample_now no_files)
        = (Ok r1, w1')
        /\ draw_windows_fields
             (world_of [0; 0; 0; 0; 0; 1; 0; 0]%N sample_now no_files)
           = (Ok r2, w2')
        /\ windows_event_id r1 = 4624
        /\ windows_event_id r2 = 4625
        /\ windows_ip r1 = INCIDENT_IP
        /\ windows_ip r1 = windows_ip r2).
Proof.
  split.
  - do 4 eexists.
    split; [vm_compute; reflexivity |].
    split; [vm_compute; reflexivity |].
    split; [reflexivity |]. split; [reflexivity |]. split; [reflexivity |].
    unshelve eapply (fun E1 E2 =>
              proj1 (proj2 (proj2 (proj2 (proj2
                (windows_event_before_address
                   (world_of [0; 0; 0; 0; 0; 1; 0; 0]%N sample_now no_files)
                   (world_of [0; 0; 0; 0; 0; 1; 0; 9007199254740991]%N
                      sample_now no_files) _ _ _ _ E1 E2)))))).
    all: try solve [vm_compute; reflexivity].
    intros i Hi. do 7 (destruct i as [| i]; [reflexivity |]). lia.
  - do 4 eexists.
    split; [vm_compute; reflexivity |].
    split; [vm_compute; reflexivity |].
    split; [reflexivity |]. split; [reflexivity |]. split; [reflexivity |].
    unshelve eapply (fun E1 E2 =>
              proj2 (proj2 (proj2 (proj2 (proj2
                (windows_event_before_address
                   (world_of [0; 0; 0; 0; 0; 0; 0; 0]%N sample_now no_files)
                   (world_of [0; 0; 0; 0; 0; 1; 0; 0]%N sample_now no_files)
                   _ _ _ _ E1 E2)))))).
    all: try solve [vm_compute; reflexivity].
    intros i Hi. do 2 (destruct i as [| i]; [lia |]).
    do 6 (destruct i as [| i]; [reflexivity |]). lia.
Defined.

Module Splitting.

Lemma prefix_comma_other (c : ascii) (rest : string) :
  Ascii.eqb c ","%char = false -> prefix ", " (String c rest) = false.
Proof.
  intros H. cbn [prefix].
  destruct (ascii_dec "," c) as [<- | _]; [discriminate | reflexivity].
Qed.

Lemma prefix_newline_other (c : ascii) (rest : string) :
  Ascii.eqb c "010"%char = false -> prefix nl (String c rest) = false.
Proof.
  intros H. unfold nl. cbn [prefix].
  destruct (ascii_dec "010" c) as [<- | _]; [discriminate | reflexivity].
Qed.

Lemma split_from_comma (rest cur : string) :
  split_from ", " (", " ++ rest) O cur
  = cur :: split_from ", " rest O EmptyString.
Proof.
  cbn [append split_from].
  replace (prefix ", " (String "," (String " " rest))) with true
    by (symmetry; exact (prefix_app ", " rest)).
  reflexivity.
Qed.

Lemma split_from_newline (rest cur : string) :
  split_from nl (nl ++ rest) O cur = cur :: split_from nl rest O EmptyString.
Proof.
  unfold nl. cbn [append split_from].
  replace (prefix (String "010" EmptyString) (String "010" rest)) with true
    by (symmetry; exact (prefix_app nl rest)).
  reflexivity.
Qed.

Lemma split_from_plain (s : string) :
  no_comma s = true ->
  forall cur, split_from ", " s O cur = [cur ++ s].
Proof.
  induction s as [| c s IH]; intros H cur; cbn [split_from].
  - now rewrite append_nil_r.
  - cbn [no_comma] in H. apply andb_prop in H. destruct H as [Hc Hs].
    apply negb_true_iff in Hc. rewrite (prefix_comma_other _ _ Hc).
    rewrite (IH Hs), append_assoc. reflexivity.
Qed.

Lemma split_from_head (a rest : string) :
  no_comma a = true ->
  forall cur,
    split_from ", " (a ++ ", " ++ rest) O cur
    = (cur ++ a) :: split_from ", " rest O EmptyString.
Proof.
  induction a as [| c a IH]; intros H cur.
  - rewrite append_nil_r. apply split_from_comma.
  - cbn [no_comma] in H. apply andb_prop in H. destruct H as [Hc Hs].
    apply negb_true_iff in Hc. cbn [append split_from].
    rewrite (prefix_comma_other _ _ Hc).
    rewrite (IH Hs), append_assoc. reflexivity.
Qed.

Lemma split_from_line (line rest : string) :
  no_newline line = true ->
  forall cur,
    split_from nl (line ++ nl ++ rest) O cur
    = (cur ++ line) :: split_from nl rest O EmptyString.
Proof.
  induction line as [| c line IH]; intros H cur.
  - rewrite append_nil_r. apply split_from_newline.
  - cbn [no_newline] in H. apply andb_prop in H. destruct H as [Hc Hs].
    apply negb_true_iff in Hc. cbn [append split_from].
    rewrite (prefix_newline_other _ _ Hc).
    rewrite (IH Hs), append_assoc. reflexivity.
Qed.

End Splitting.

Import Splitting.

(** X13. Unpacking a location: a string made of a comma-free country, the
    separator [", "] and a comma-free city unpacks into exactly that country
    and city; a string without the separator, and a string with two, make
    the unpacking raise [ValueError]. *)
Theorem split_location_behaviour (a b c : string) (w : World) :
  no_comma a = true -> no_comma b = true -> no_comma c = true ->
  split_location (a ++ ", " ++ b) w = (Ok (a, b), w)
  /\ split_location a w = (Raise ValueError, w)
  /\ split_location (a ++ ", " ++ b ++ ", " ++ c) w = (Raise ValueError, w).
Proof.
  intros Ha Hb Hc. unfold split_location, lift, split.
  rewrite !(split_from_head a _ Ha), (split_from_head b _ Hb).
  rewrite (split_from_plain a Ha), (split_from_plain b Hb),
    (split_from_plain c Hc).
  repeat split.
Qed.

Lemma split_location_behaviour_witness :
  split_location "Italy, Rome" (world_of [] sample_now no_files)
  = (Ok ("Italy", "Rome"), world_of [] sample_now no_files)
  /\ split_location "Italy" (world_of [] sample_now no_files)
     = (Raise ValueError, world_of [] sample_now no_files)
  /\ split_location "Italy, Rome, Lazio" (world_of [] sample_now no_files)
     = (Raise ValueError, world_of [] sample_now no_files).
Proof.
  exact (split_location_behaviour "Italy" "Rome" "Lazio"
           (world_of [] sample_now no_files) eq_refl eq_refl eq_refl).
Defined.

(** X16. Reading a written file back: the text that holds lines without
    line feeds, each followed by one, splits on the line feed into exactly
    those lines, in order, followed by one empty string. *)
Theorem lines_text_reads_back (lines : list string) :
  Forall (fun line => no_newline line = true) lines ->
  split (lines_text lines) nl = (lines ++ [EmptyString])%list.
Proof.
  unfold split. induction 1 as [| line rest Hline _ IH]; [reflexivity |].
  cbn [lines_text]. rewrite append_assoc.
  rewrite (split_from_line line _ Hline). cbn [app append]. now rewrite IH.
Qed.

Lemma lines_text_reads_back_witness :
  split (lines_text ["Mar 25 10:00:12 myfirewall"; "9.9.9.9 - -"]) nl
  = ["Mar 25 10:00:12 myfirewall"; "9.9.9.9 - -"; EmptyString].
Proof.
  apply (lines_text_reads_back ["Mar 25 10:00:12 myfirewall"; "9.9.9.9 - -"]).
  repeat constructor.
Defined.

Module MainEffects.

Lemma wrote_set_file (name content : string) (w : World) :
  wrote name 0 w (set_file name content w).
Proof.
  repeat split. intros other H. cbn. rewrite H. reflexivity.
Qed.

Lemma wrote_trans (name : string) (j k : nat) (w1 w2 w3 : World) :
  wrote name j w1 w2 -> wrote name k w2 w3 -> wrote name (k + j) w1 w3.
Proof.
  intros (A1 & B1 & C1 & D1 & E1) (A2 & B2 & C2 & D2 & E2).
  split; [congruence |]. split; [congruence |]. split; [lia |].
  split; [congruence |].
  intros other H. rewrite (E2 other H). exact (E1 other H).
Qed.

Lemma wrote_reads (name : string) (k : nat) (w w' : World) :
  reads k w w' -> wrote name k w w'.
Proof.
  intros ((A & B & C & D) & E & _).
  split; [exact A |]. split; [exact B |]. split; [exact E |].
  split; [exact D |]. intros other _. now rewrite C.
Qed.

Lemma write_lines_wrote (name : string) (gen : M string)
  (P : string -> Prop) (n : nat) :
  yields gen 1 P ->
  forall w w', write_lines name gen n w = (Ok tt, w') -> wrote name n w w'.
Proof.
  intros Hgen. induction n as [| n IH]; intros w w' E; cbn [write_lines] in E.
  - injection E as <-. apply wrote_reads, reads_refl.
  - destruct (bind_ok_inv _ _ _ _ _ E) as (line & w1 & E1 & E2).
    destruct (bind_ok_inv _ _ _ _ _ E2) as ([] & w2 & E3 & E4).
    destruct (Hgen _ _ _ E1) as [_ R1].
    unfold file_write in E3. injection E3 as <-.
    pose proof (wrote_trans name _ _ _ _ _
                  (wrote_trans name _ _ _ _ _ (wrote_reads name _ _ _ R1)
                     (wrote_set_file name _ w1))
                  (IH _ _ E4)) as H.
    replace (S n) with (n + (0 + 1))%nat by lia. exact H.
Qed.

Lemma write_log_file_wrote (name : string) (gen : M string)
  (P : string -> Prop) (n : nat) (w w' : World) :
  yields gen 1 P ->
  write_log_file name gen n w = (Ok tt, w') -> wrote name n w w'.
Proof.
  intros Hgen E. unfold write_log_file in E.
  destruct (bind_ok_inv _ _ _ _ _ E) as ([] & w1 & E1 & E2).
  unfold open_w in E1. injection E1 as <-.
  pose proof (wrote_trans name _ _ _ _ _ (wrote_set_file name EmptyString w)
                (write_lines_wrote name gen P n Hgen _ _ E2)) as H.
  replace n with (n + 0)%nat at 1 by lia. exact H.
Qed.

Lemma yields_generate_access :
  yields generate_apache_access_log 1 (fun _ => True).
Proof.
  unfold generate_apache_access_log. change 1%nat with (1 + 0)%nat.
  yield_step yields_draw_access_fields. intros r _. now apply yields_ret.
Qed.

Lemma yields_generate_error :
  yields generate_apache_error_log 1 (fun _ => True).
Proof.
  unfold generate_apache_error_log. change 1%nat with (1 + 0)%nat.
  yield_step yields_draw_error_fields. intros r _. now apply yields_ret.
Qed.

Lemma yields_generate_firewall :
  yields generate_firewall_log 1 (fun _ => True).
Proof.
  unfold generate_firewall_log. change 1%nat with (1 + 0)%nat.
  yield_step yields_draw_firewall_fields. intros r _. now apply yields_ret.
Qed.

Lemma yields_generate_windows :
  yields generate_windows_log 1 (fun _ => True).
Proof.
  unfold generate_windows_log. change 1%nat with (1 + 0)%nat.
  yield_step yields_draw_windows_fields. intros r _. now apply yields_ret.
Qed.

End MainEffects.

Import MainEffects.

(** X15. What a run of [main] does besides filling its four files: it
    appends exactly its six lines to the output, takes one clock reading per
    line written, leaves every file other than the four as it was, and
    leaves the tapes themselves unchanged. *)
Theorem main_effects
  (num_access num_error num_firewall num_windows : nat) (w w' : World) :
  main_with num_access num_error num_firewall num_windows w = (Ok tt, w') ->
  stdout w' = (stdout w ++ MAIN_OUTPUT)%list
  /\ clock_pos w'
     = (num_access + num_error + num_firewall + num_windows + clock_pos w)%nat
  /\ (forall other, ~ In other OUTPUT_FILES -> files w' other = files w other)
  /\ rand_tape w' = rand_tape w
  /\ clock_tape w' = clock_tape w.
Proof.
  unfold main_with. intros E.
  destruct (bind_ok_inv _ _ _ _ _ E) as ([] & w1 & E1 & E').
  destruct (bind_ok_inv _ _ _ _ _ E') as ([] & w2 & E2 & E'').
  destruct (bind_ok_inv _ _ _ _ _ E'') as ([] & w3 & E3 & E''').
  destruct (bind_ok_inv _ _ _ _ _ E''') as ([] & w4 & E4 & Eprint).
  clear E E' E'' E'''.
  destruct (write_log_file_wrote _ _ _ _ _ _ yields_generate_access E1)
    as (A1 & B1 & C1 & D1 & F1).
  destruct (write_log_file_wrote _ _ _ _ _ _ yields_generate_error E2)
    as (A2 & B2 & C2 & D2 & F2).
  destruct (write_log_file_wrote _ _ _ _ _ _ yields_generate_firewall E3)
    as (A3 & B3 & C3 & D3 & F3).
  destruct (write_log_file_wrote _ _ _ _ _ _ yields_generate_windows E4)
    as (A4 & B4 & C4 & D4 & F4).
  cbv [bind print] in Eprint.
  cbn [rand_tape rand_pos clock_tape clock_pos files stdout] in Eprint.
  injection Eprint as <-.
  cbn [rand_tape rand_pos clock_tape clock_pos files stdout].
  split.
  { rewrite D4, D3, D2, D1. unfold MAIN_OUTPUT.
    rewrite <- !app_assoc. reflexivity. }
  split; [lia |].
  split; [| split; congruence].
  intros other Hother.
  assert (Hne : forall name, In name OUTPUT_FILES ->
                             String.eqb other name = false).
  { intros name Hin. apply String.eqb_neq. intros ->. exact (Hother Hin). }
  rewrite (F4 other), (F3 other), (F2 other), (F1 other);
    [reflexivity | | | |]; apply Hne; cbn; tauto.
Qed.

Lemma main_effects_witness :
  exists w',
    main_with 1 0 2 1 (world_of [] sample_now (fun _ => Some "kept"))
    = (Ok tt, w')
    /\ stdout w' = MAIN_OUTPUT
    /\ clock_pos w' = 4%nat
    /\ files w' "notes.txt" = Some "kept".
Proof.
  eexists. split; [vm_compute; reflexivity |].
  destruct (main_effects 1 0 2 1
              (world_of [] sample_now (fun _ => Some "kept")) _
              ltac:(vm_compute; reflexivity)) as (A & B & C & _).
  split; [exact A |]. split; [exact B |].
  apply C. cbn. intuition discriminate.
Defined.

Module Widths.

Lemma length_app (a b : string) :
  String.length (a ++ b) = (String.length a + String.length b)%nat.
Proof.
  induction a as [| c a IH]; cbn [append String.length]; [reflexivity |].
  now rewrite IH.
Qed.

Lemma year_width (n : Z) :
  1000 <= n <= 9999 -> String.length (str n) = 4%nat.
Proof.
  intros H. apply Nat.eqb_eq.
  apply (check_range_spec year_width_ok 9000 1000);
    [vm_compute; reflexivity | lia].
Qed.

Lemma pad2_width (n : Z) : 0 <= n <= 99 -> String.length (pad2 n) = 2%nat.
Proof.
  intros H. apply Nat.eqb_eq.
  apply (check_range_spec pad2_width_ok 100 0);
    [vm_compute; reflexivity | lia].
Qed.

Lemma month_width (m : Z) :
  1 <= m <= 12 ->
  String.length (nth (Z.to_nat (m - 1)) MONTH_ABBR EmptyString) = 3%nat
  /\ forall y, days_in_month y m <= 31.
Proof.
  intros H.
  assert (C : month_width_ok m = true)
    by (apply (check_range_spec month_width_ok 12 1);
        [vm_compute; reflexivity | lia]).
  unfold month_width_ok in C.
  apply andb_prop in C. destruct C as [C C3].
  apply andb_prop in C. destruct C as [C1 C2].
  split; [now apply Nat.eqb_eq |].
  intros y. apply Z.leb_le in C2, C3. unfold days_in_month in *.
  change (is_leap 2000) with true in C2.
  change (is_leap 2001) with false in C3.
  rewrite andb_true_r in C2. rewrite andb_false_r in C3.
  destruct ((m =? 2) && is_leap y) eqn:E; [| exact C3].
  apply andb_prop in E. destruct E as [E _]. rewrite E in C2. exact C2.
Qed.

Lemma weekday_width (dt : datetime) :
  String.length (nth (Z.to_nat (weekday dt)) DAY_ABBR EmptyString) = 3%nat.
Proof.
  apply Nat.eqb_eq.
  apply (check_range_spec weekday_width_ok 7 0); [vm_compute; reflexivity |].
  unfold weekday. pose proof (Z.mod_pos_bound (toordinal dt + 6) 7). lia.
Qed.

End Widths.

Import Widths.

(** X17. The four timestamp formats have fixed widths: for a valid datetime
    of a four-digit year the access, error, firewall and Windows timestamps
    are 26, 24, 15 and 19 bytes long. *)
Theorem timestamp_widths (dt : datetime) :
  valid_datetime dt = true ->
  1000 <= year dt ->
  String.length (strftime dt "%d/%b/%Y:%H:%M:%S +0000") = 26%nat
  /\ String.length (strftime dt "%a %b %d %H:%M:%S %Y") = 24%nat
  /\ String.length (strftime dt "%b %d %H:%M:%S") = 15%nat
  /\ String.length (strftime dt "%Y-%m-%d %H:%M:%S") = 19%nat.
Proof.
  intros Hv Hy. apply valid_datetime_iff in Hv.
  destruct Hv as (Hd & Hh & Hmi & Hs & _).
  apply check_date_fields_iff in Hd. unfold MINYEAR, MAXYEAR in Hd.
  destruct Hd as (Hyear & Hm & Hday).
  destruct (month_width (month dt) Hm) as [Hmon Hdim].
  pose proof (Hdim (year dt)) as Hdim'.
  pose proof (year_width (year dt) ltac:(lia)) as HY.
  pose proof (pad2_width (day dt) ltac:(lia)) as HD.
  pose proof (pad2_width (month dt) ltac:(lia)) as HM.
  pose proof (pad2_width (hour dt) ltac:(lia)) as HH.
  pose proof (pad2_width (minute dt) ltac:(lia)) as HMi.
  pose proof (pad2_width (second dt) ltac:(lia)) as HS.
  pose proof (weekday_width dt) as HW.
  cbn [strftime directive].
  repeat (rewrite ?length_app; cbn [String.length]).
  rewrite HY, HD, HM, HH, HMi, HS, HW, Hmon.
  repeat split.
Qed.

Lemma timestamp_widths_witness :
  String.length (strftime sample_now "%d/%b/%Y:%H:%M:%S +0000") = 26%nat
  /\ String.length (strftime sample_now "%a %b %d %H:%M:%S %Y") = 24%nat
  /\ String.length (strftime sample_now "%b %d %H:%M:%S") = 15%nat
  /\ String.length (strftime sample_now "%Y-%m-%d %H:%M:%S") = 19%nat.
Proof.
  apply (timestamp_widths sample_now); vm_compute;
    first [reflexivity | discriminate].
Defined.
